(** * H5P answer extractor: a shallow embedding of [h5p_answer_extractor.py]
    and [extract_answers.py], with the properties of the extraction logic.

    Python values are embedded as a JSON-like tree, Python [str] as a list of
    Unicode code points, exceptions as an error monad, and [dict]s as
    insertion-ordered association lists.  The parts of CPython that cannot be
    written down here (binary floating point, Unicode case tables, [repr] of
    text) are the fields of a runtime interface. *)

From Stdlib Require Import List ZArith NArith Ascii String Bool Lia.
From Stdlib Require Import DecimalString.
Import ListNotations.

Set Warnings "-register-all".

(** ** Text *)

(** A Python [str]: a sequence of code points. *)
Definition char := N.
Definition str := list char.

(** The [str] of an ASCII literal of the source. *)
Definition lit (s : string) : str := map N_of_ascii (list_ascii_of_string s).

Fixpoint str_eqb (a b : str) : bool :=
  match a, b with
  | [], [] => true
  | x :: a', y :: b' => N.eqb x y && str_eqb a' b'
  | _, _ => false
  end.

(** [s.startswith(p)] *)
Fixpoint startswith (p s : str) : bool :=
  match p, s with
  | [], _ => true
  | x :: p', y :: s' => N.eqb x y && startswith p' s'
  | _ :: _, [] => false
  end.

(** [s.endswith(p)] *)
Definition endswith (p s : str) : bool := startswith (rev p) (rev s).

(** [needle in s] for two strings: [needle] occurs in [s] as a substring. *)
Fixpoint substring_in (needle s : str) : bool :=
  startswith needle s ||
  match s with
  | [] => false
  | _ :: s' => substring_in needle s'
  end.

Fixpoint dropwhile {A} (p : A -> bool) (l : list A) : list A :=
  match l with
  | [] => []
  | x :: l' => if p x then dropwhile p l' else l
  end.

(** [str.isspace] on one code point, which is also what [\s] matches in a
    [str] pattern. *)
Definition isspace (c : char) : bool :=
  ((9 <=? c) && (c <=? 13) || (28 <=? c) && (c <=? 32) || (c =? 133) || (c =? 160)
   || (c =? 5760) || (8192 <=? c) && (c <=? 8202) || (c =? 8232) || (c =? 8233)
   || (c =? 8239) || (c =? 8287) || (c =? 12288))%N.

(** [s.strip()] *)
Definition lstrip (s : str) : str := dropwhile isspace s.
Definition rstrip (s : str) : str := rev (dropwhile isspace (rev s)).
Definition strip (s : str) : str := rstrip (lstrip s).

Definition is_ascii (s : str) : bool := forallb (fun c => (c <? 128)%N) s.

Definition ascii_lower (c : char) : char :=
  if ((65 <=? c) && (c <=? 90))%N then (c + 32)%N else c.
Definition ascii_upper (c : char) : char :=
  if ((97 <=? c) && (c <=? 122))%N then (c - 32)%N else c.

Definition is_ascii_letter (c : char) : bool :=
  ((65 <=? c) && (c <=? 90) || (97 <=? c) && (c <=? 122))%N.

Definition is_ascii_digit (c : char) : bool := ((48 <=? c) && (c <=? 57))%N.

(** [sep.join(parts)] *)
Fixpoint join (sep : str) (parts : list str) : str :=
  match parts with
  | [] => []
  | [p] => p
  | p :: rest => p ++ sep ++ join sep rest
  end.

(** Decimal text of an integer, [str(n)] for an [int]. *)
Definition int_str (z : Z) : str :=
  lit (NilZero.string_of_int (Z.to_int z)).

(** ** Regular expressions

    [re.sub] and [re.findall] scan the subject from left to right, take the
    match that starts at the leftmost position and go on after it.  A pattern
    is embedded as its anchored matcher: the matcher of a substitution gives
    the length of the match that starts at the head of its argument, the one
    of [findall] also the text of the group.  None of the patterns of the
    source matches the empty string. *)

Fixpoint sub_from (m : str -> option nat) (repl : str) (skip : nat) (s : str) : str :=
  match s with
  | [] => []
  | c :: rest =>
      match skip with
      | S k => sub_from m repl k rest
      | O =>
          match m s with
          | Some (S n) => repl ++ sub_from m repl n rest
          | _ => c :: sub_from m repl 0 rest
          end
      end
  end.

(** [re.sub(pattern, repl, s)] *)
Definition re_sub (m : str -> option nat) (repl s : str) : str := sub_from m repl 0 s.

Fixpoint findall_from (m : str -> option (nat * str)) (skip : nat) (s : str) : list str :=
  match s with
  | [] => []
  | _ :: rest =>
      match skip with
      | S k => findall_from m k rest
      | O =>
          match m s with
          | Some (S n, g) => g :: findall_from m n rest
          | _ => findall_from m 0 rest
          end
      end
  end.

(** [re.findall(pattern, s)] for a pattern with one group. *)
Definition re_findall (m : str -> option (nat * str)) (s : str) : list str :=
  findall_from m 0 s.

(** Number of characters before the first ['>'], when there is one. *)
Fixpoint until_gt (s : str) : option nat :=
  match s with
  | [] => None
  | c :: r => if (c =? 62)%N then Some 0 else option_map S (until_gt r)
  end.

(** The pattern [<[^>]+>]: the greedy class runs up to the first ['>'] and
    must take one character at least. *)
Definition tag_pattern (s : str) : option nat :=
  match s with
  | c :: r =>
      if (c =? 60)%N then
        match until_gt r with
        | Some (S n) => Some (S (S (S n)))
        | _ => None
        end
      else None
  | [] => None
  end.

(** The pattern [&nbsp;]. *)
Definition nbsp_pattern (s : str) : option nat :=
  if startswith (lit "&nbsp;") s then Some 6 else None.

(** Length of the longest prefix of [s] whose characters satisfy [p]. *)
Fixpoint run_length (p : char -> bool) (s : str) : nat :=
  match s with
  | c :: r => if p c then S (run_length p r) else 0
  | [] => 0
  end.

(** The pattern [&[a-zA-Z]+;]: the greedy class takes every letter, and no
    shorter run can be followed by [';']. *)
Definition entity_pattern (s : str) : option nat :=
  match s with
  | c :: r =>
      if (c =? 38)%N then
        match run_length is_ascii_letter r with
        | S n =>
            match nth_error r (S n) with
            | Some d => if (d =? 59)%N then Some (S (S (S n))) else None
            | None => None
            end
        | O => None
        end
      else None
  | [] => None
  end.

(** The pattern [\s+]. *)
Definition spaces_pattern (s : str) : option nat :=
  match run_length isspace s with
  | O => None
  | n => Some n
  end.

(** The lazy group of [\*(.*?)\*] from just after the opening star: the text
    up to the next star, which [.] must reach without crossing a newline. *)
Fixpoint until_star (s : str) : option (nat * str) :=
  match s with
  | [] => None
  | c :: r =>
      if (c =? 42)%N then Some (0, [])
      else if (c =? 10)%N then None
      else
        match until_star r with
        | Some (n, g) => Some (S n, c :: g)
        | None => None
        end
  end.

(** The pattern [\*(.*?)\*], with the length of the match and its group. *)
Definition star_pattern (s : str) : option (nat * str) :=
  match s with
  | c :: r =>
      if (c =? 42)%N then
        match until_star r with
        | Some (n, g) => Some (S (S n), g)
        | None => None
        end
      else None
  | [] => None
  end.

(** The four substitutions of [_clean_html_text] on a [str], then [strip]. *)
Definition clean_str (text : str) : str :=
  let clean_text := re_sub tag_pattern [] text in
  let clean_text := re_sub nbsp_pattern (lit " ") clean_text in
  let clean_text := re_sub entity_pattern [] clean_text in
  strip (re_sub spaces_pattern (lit " ") clean_text).

(** What the specification says of a normalized text. *)

(** No suffix of [s] starts with a match of the tag pattern. *)
Fixpoint tag_free (s : str) : Prop :=
  match s with
  | [] => True
  | _ :: r => tag_pattern s = None /\ tag_free r
  end.

(** No whitespace character of [s] is followed by another one. *)
Fixpoint single_spaced (s : str) : Prop :=
  match s with
  | a :: r => (isspace a = true -> match r with b :: _ => isspace b = false | [] => True end)
              /\ single_spaced r
  | [] => True
  end.

(** [s] is empty or starts with a character that is not whitespace. *)
Definition starts_solid (s : str) : Prop :=
  match s with
  | c :: _ => isspace c = false
  | [] => True
  end.

(** ** Exceptions *)

Inductive exn : Type :=
  | AttributeError
  | TypeError
  | ValueError
  | IndexError
  | OverflowError.

(** The outcome of a computation that may raise. *)
Inductive res (A : Type) : Type :=
  | Ok (a : A)
  | Raise (e : exn).
Arguments Ok {A} a.
Arguments Raise {A} e.

Definition bind {A B} (r : res A) (k : A -> res B) : res B :=
  match r with
  | Ok a => k a
  | Raise e => Raise e
  end.

Notation "x <- e ;; k" := (bind e (fun x => k))
  (at level 61, e at next level, right associativity).

(** A left fold whose step may raise: a [for] loop over a list. *)
Fixpoint for_each {St A} (step : St -> A -> res St) (st : St) (l : list A) : res St :=
  match l with
  | [] => Ok st
  | x :: l' => st' <- step st x ;; for_each step st' l'
  end.

(** The same with the position of the element: [for i, x in enumerate(l)]. *)
Fixpoint for_enumerate {St A} (step : St -> nat -> A -> res St) (i : nat) (st : St)
  (l : list A) : res St :=
  match l with
  | [] => Ok st
  | x :: l' => st' <- step st i x ;; for_enumerate step (S i) st' l'
  end.

(** [chr(n)] *)
Definition chr (n : N) : res str :=
  if (n <=? 1114111)%N then Ok [n] else Raise ValueError.

(** ** The runtime interface

    What the source takes from CPython and this development leaves open:
    binary floating point, text beyond ASCII, and [repr] of text. *)
Class PyRuntime : Type := {
  (** Python [float] values. *)
  float : Type;
  (** [bool(x)] *)
  float_bool : float -> bool;
  (** [repr(x)], which is [str(x)] *)
  float_repr : float -> str;
  (** [int(x)]: truncation; [ValueError] on a NaN, [OverflowError] on an infinity *)
  float_int : float -> res Z;
  (** [format(x, ".2f")] *)
  float_format_2f : float -> str;
  (** [format(n, ".2f")] of an [int] beyond 2^53: through [float], with [OverflowError] *)
  bigint_format_2f : Z -> res str;
  (** [int(s)] of text that is not a short run of ASCII digits; [None] is [ValueError] *)
  str_int_general : str -> option Z;
  (** [repr(s)] *)
  str_repr : str -> str;
  (** [s.lower()] of text that is not ASCII *)
  unicode_lower : str -> str;
  (** [s.capitalize()] of text that is not ASCII *)
  unicode_capitalize : str -> str
}.

(** A runtime for the concrete documents of the examples, which hold no
    float and only ASCII text: it has no float at all, and gives up where the
    embedding hands text over to CPython. *)
Definition ExampleRuntime : PyRuntime := {|
  float := Empty_set;
  float_bool := fun x => match x with end;
  float_repr := fun x => match x with end;
  float_int := fun x => match x with end;
  float_format_2f := fun x => match x with end;
  bigint_format_2f := fun _ => Raise OverflowError;
  str_int_general := fun _ => None;
  str_repr := fun s => s;
  unicode_lower := fun s => s;
  unicode_capitalize := fun s => s
|}.

Section Extractor.

Context {RT : PyRuntime}.

(** ** Values

    What [json.loads] produces, which is also what the extractor builds: the
    records of the result are [dict]s of the same kinds of value.  A [dict]
    keeps its keys in insertion order. *)
Inductive value : Type :=
  | VNone
  | VBool (b : bool)
  | VInt (z : Z)
  | VFloat (f : float)
  | VStr (s : str)
  | VList (l : list value)
  | VDict (d : list (str * value)).

Definition dict := list (str * value).

(** Truth value of an object: [bool(v)], as [if v:] and [not v] take it. *)
Definition truthy (v : value) : bool :=
  match v with
  | VNone => false
  | VBool b => b
  | VInt z => negb (z =? 0)%Z
  | VFloat f => float_bool f
  | VStr s => match s with [] => false | _ => true end
  | VList l => match l with [] => false | _ => true end
  | VDict d => match d with [] => false | _ => true end
  end.

(** [repr(v)] *)
Fixpoint py_repr (v : value) : str :=
  match v with
  | VNone => lit "None"
  | VBool true => lit "True"
  | VBool false => lit "False"
  | VInt z => int_str z
  | VFloat f => float_repr f
  | VStr s => str_repr s
  | VList l => lit "[" ++ join (lit ", ") (map py_repr l) ++ lit "]"
  | VDict d =>
      lit "{"
      ++ join (lit ", ") (map (fun kv => let '(k, x) := kv in str_repr k ++ lit ": " ++ py_repr x) d)
      ++ lit "}"
  end.

(** [str(v)] *)
Definition py_str (v : value) : str :=
  match v with
  | VStr s => s
  | _ => py_repr v
  end.

(** [s.lower()] *)
Definition lower (s : str) : str :=
  if is_ascii s then map ascii_lower s else unicode_lower s.

(** [s.capitalize()] *)
Definition capitalize (s : str) : str :=
  if is_ascii s then
    match s with
    | [] => []
    | c :: r => ascii_upper c :: map ascii_lower r
    end
  else unicode_capitalize s.

(** [v == s] for a string [s]. *)
Definition eq_str (v : value) (s : str) : bool :=
  match v with
  | VStr t => str_eqb t s
  | _ => false
  end.

(** Key lookup in a [dict]. *)
Fixpoint lookup (k : str) (d : dict) : option value :=
  match d with
  | [] => None
  | (k', x) :: d' => if str_eqb k' k then Some x else lookup k d'
  end.

(** [d[k] = x]: an existing key keeps its place, a new one goes last. *)
Fixpoint dict_set (k : str) (x : value) (d : dict) : dict :=
  match d with
  | [] => [(k, x)]
  | (k', y) :: d' => if str_eqb k' k then (k', x) :: d' else (k', y) :: dict_set k x d'
  end.

(** [d.update(e)] *)
Definition update (d e : dict) : dict :=
  fold_left (fun acc kv => dict_set (fst kv) (snd kv) acc) e d.

(** [v.get(k, default)]: only a [dict] has the method. *)
Definition get (v : value) (k : str) (default : value) : res value :=
  match v with
  | VDict d => Ok (match lookup k d with Some x => x | None => default end)
  | _ => Raise AttributeError
  end.

(** The elements a [for] loop draws from [v]: those of a list, the characters
    of a string, the keys of a [dict]. *)
Definition iterate (v : value) : res (list value) :=
  match v with
  | VList l => Ok l
  | VStr s => Ok (map (fun c => VStr [c]) s)
  | VDict d => Ok (map (fun kv => VStr (fst kv)) d)
  | _ => Raise TypeError
  end.

(** [needle in v] for a string [needle]. *)
Definition contains (needle : str) (v : value) : res bool :=
  match v with
  | VStr s => Ok (substring_in needle s)
  | VList l => Ok (existsb (fun x => eq_str x needle) l)
  | VDict d => Ok (existsb (fun kv => str_eqb (fst kv) needle) d)
  | _ => Raise TypeError
  end.

(** Value of a run of ASCII digits. *)
Definition digits_value (s : str) : Z :=
  fold_left (fun acc c => (10 * acc + (Z.of_N c - 48))%Z) s 0%Z.

(** [int(s)] of a string. *)
Definition str_int (s : str) : res Z :=
  if forallb is_ascii_digit s && (1 <=? List.length s) && (List.length s <=? 18) then Ok (digits_value s)
  else
    match str_int_general s with
    | Some z => Ok z
    | None => Raise ValueError
    end.

(** [int(v)] *)
Definition py_int (v : value) : res Z :=
  match v with
  | VBool b => Ok (if b then 1 else 0)%Z
  | VInt z => Ok z
  | VFloat f => float_int f
  | VStr s => str_int s
  | _ => Raise TypeError
  end.

(** [format(n, ".2f")] of an [int]: exact while [n] is a [float]. *)
Definition int_format_2f (n : Z) : res str :=
  if (Z.abs n <=? 2 ^ 53)%Z then Ok (int_str n ++ lit ".00") else bigint_format_2f n.

(** [format(v, ".2f")], as the f-string of the time range asks for it. *)
Definition format_2f (v : value) : res str :=
  match v with
  | VBool b => int_format_2f (if b then 1 else 0)
  | VInt z => int_format_2f z
  | VFloat f => Ok (float_format_2f f)
  | VStr _ => Raise ValueError
  | _ => Raise TypeError
  end.

(** [l[i]] with Python's negative indices. *)
Definition index {A} (l : list A) (i : Z) : res A :=
  let n := Z.of_nat (List.length l) in
  let j := if (i <? 0)%Z then (i + n)%Z else i in
  if ((0 <=? j) && (j <? n))%Z then
    match nth_error l (Z.to_nat j) with
    | Some x => Ok x
    | None => Raise IndexError
    end
  else Raise IndexError.

(** ** The extractor *)

(** [H5PAnswerExtractor._clean_html_text] *)
Definition _clean_html_text (text : value) : res str :=
  if negb (truthy text) then Ok []
  else
    match text with
    | VStr s => Ok (clean_str s)
    | _ => Raise TypeError
    end.

(** Body of the loop of [_extract_multiple_choice_answers]; the state is
    [(answer_options, correct_answer)]. *)
Definition multiple_choice_step (st : list value * value) (i : nat) (answer : value)
  : res (list value * value) :=
  let '(answer_options, correct_answer) := st in
  t <- get answer (lit "text") (VStr []) ;;
  answer_text <- _clean_html_text t ;;
  is_correct <- get answer (lit "correct") (VBool false) ;;
  option <- chr (65 + N.of_nat i) ;;
  let answer_options :=
    answer_options
    ++ [VDict [(lit "option", VStr option); (lit "text", VStr answer_text);
               (lit "is_correct", is_correct)]] in
  if truthy is_correct then
    c <- chr (65 + N.of_nat i) ;; Ok (answer_options, VStr c)
  else Ok (answer_options, correct_answer).

(** [H5PAnswerExtractor._extract_multiple_choice_answers] *)
Definition _extract_multiple_choice_answers (params : value) : res dict :=
  q <- get params (lit "question") (VStr []) ;;
  question_text <- _clean_html_text q ;;
  answers <- get params (lit "answers") (VList []) ;;
  entries <- iterate answers ;;
  st <- for_enumerate multiple_choice_step 0 ([], VNone) entries ;;
  let '(answer_options, correct_answer) := st in
  Ok [(lit "question", VStr question_text); (lit "answers", VList answer_options);
      (lit "correct_answer", correct_answer)].

(** First loop of [_extract_drag_drop_answers]: the texts of the elements whose
    library is AdvancedText. *)
Definition drag_item_step (drag_items : list str) (element : value) : res (list str) :=
  element_type <- get element (lit "type") (VDict []) ;;
  library <- get element_type (lit "library") VNone ;;
  if eq_str library (lit "H5P.AdvancedText 1.1") then
    p <- get element_type (lit "params") (VDict []) ;;
    t <- get p (lit "text") (VStr []) ;;
    text <- _clean_html_text t ;;
    Ok (drag_items ++ [text])
  else Ok drag_items.

(** [correct_matches[drag_item_text].append(idx)], with the empty list put
    first under a key that is new. *)
Definition add_match (correct_matches : dict) (drag_item_text : str) (idx : nat) : dict :=
  match lookup drag_item_text correct_matches with
  | Some (VList zones) =>
      dict_set drag_item_text (VList (zones ++ [VInt (Z.of_nat idx)])) correct_matches
  | _ => dict_set drag_item_text (VList [VInt (Z.of_nat idx)]) correct_matches
  end.

(** The [try] block of the inner loop. *)
Definition try_match (drag_items : list str) (idx : nat) (correct_matches : dict)
  (element_idx : value) : res dict :=
  element_idx <- py_int element_idx ;;
  if (element_idx <? Z.of_nat (List.length drag_items))%Z then
    drag_item_text <- index drag_items element_idx ;;
    Ok (add_match correct_matches drag_item_text idx)
  else Ok correct_matches.

(** The inner loop's body: [except (ValueError, IndexError): continue]. *)
Definition match_step (drag_items : list str) (idx : nat) (correct_matches : dict)
  (element_idx : value) : res dict :=
  match try_match drag_items idx correct_matches element_idx with
  | Raise ValueError => Ok correct_matches
  | Raise IndexError => Ok correct_matches
  | r => r
  end.

(** Second loop of [_extract_drag_drop_answers]; the state is
    [(drop_areas, correct_matches)]. *)
Definition drop_zone_step (drag_items : list str) (st : list str * dict) (idx : nat)
  (zone : value) : res (list str * dict) :=
  let '(drop_areas, correct_matches) := st in
  l <- get zone (lit "label") (VStr []) ;;
  zone_label <- _clean_html_text l ;;
  let drop_areas := if truthy (VStr zone_label) then drop_areas ++ [zone_label] else drop_areas in
  correct_elements <- get zone (lit "correctElements") (VList []) ;;
  entries <- iterate correct_elements ;;
  correct_matches <- for_each (match_step drag_items idx) correct_matches entries ;;
  Ok (drop_areas, correct_matches).

(** [H5PAnswerExtractor._extract_drag_drop_answers] *)
Definition _extract_drag_drop_answers (params : value) : res dict :=
  question_data <- get params (lit "question") (VDict []) ;;
  task <- get question_data (lit "task") (VDict []) ;;
  elements <- get task (lit "elements") (VList []) ;;
  drop_zones <- get task (lit "dropZones") (VList []) ;;
  es <- iterate elements ;;
  drag_items <- for_each drag_item_step [] es ;;
  zs <- iterate drop_zones ;;
  st <- for_enumerate (drop_zone_step drag_items) 0 ([], []) zs ;;
  let '(drop_areas, correct_matches) := st in
  Ok [(lit "type", VStr (lit "Drag and Drop"));
      (lit "drag_items", VList (map VStr drag_items));
      (lit "drop_areas", VList (map VStr drop_areas));
      (lit "correct_matches", VDict correct_matches)].

(** [H5PAnswerExtractor._extract_true_false_answers] *)
Definition _extract_true_false_answers (params : value) : res dict :=
  q <- get params (lit "question") (VStr []) ;;
  question_text <- _clean_html_text q ;;
  correct <- get params (lit "correct") (VStr []) ;;
  let correct_answer :=
    match correct with
    | VBool b => if b then lit "True" else lit "False"
    | _ => capitalize (py_str correct)
    end in
  Ok [(lit "question", VStr question_text); (lit "correct_answer", VStr correct_answer)].

(** [sep.join(l)] on a list of values: every element has to be a [str]. *)
Fixpoint strs_of (l : list value) : res (list str) :=
  match l with
  | [] => Ok []
  | VStr s :: l' => r <- strs_of l' ;; Ok (s :: r)
  | _ :: _ => Raise TypeError
  end.

(** [H5PAnswerExtractor._extract_fill_in_blanks_answers] *)
Definition _extract_fill_in_blanks_answers (params : value) : res dict :=
  questions <- get params (lit "questions") VNone ;;
  text <-
    (if truthy questions then
       match questions with
       | VList l => parts <- strs_of l ;; Ok (VStr (join [10%N] parts))
       | _ => Ok (VStr (py_str questions))
       end
     else get params (lit "text") (VStr [])) ;;
  text <- _clean_html_text text ;;
  let answers := re_findall star_pattern text in
  Ok [(lit "question", VStr text); (lit "answers", VList (map VStr answers))].

(** [H5PAnswerExtractor._extract_drag_text_answers] *)
Definition _extract_drag_text_answers (params : value) : res dict :=
  d <- get params (lit "taskDescription") (VStr []) ;;
  question_text <- _clean_html_text d ;;
  text_field <- get params (lit "textField") (VStr []) ;;
  match text_field with
  | VStr s =>
      let answers := re_findall star_pattern s in
      answers <- for_each (fun acc ans => c <- _clean_html_text (VStr ans) ;; Ok (acc ++ [c]))
                   [] answers ;;
      Ok [(lit "question", VStr question_text); (lit "answers", VList (map VStr answers));
          (lit "text_field", text_field)]
  | _ => Raise TypeError
  end.

(** The branches of the [if]/[elif] chain of [extract_all_answers]. *)
Inductive kind : Type :=
  | MultipleChoice
  | DragAndDrop
  | TrueFalse
  | FillInTheBlanks
  | Image
  | DragText
  | Other.

(** The tests of the chain, in the order of the source. *)
Definition dispatch (library : value) : res kind :=
  b <- contains (lit "MultiChoice") library ;;
  if b then Ok MultipleChoice else
  b <- contains (lit "DragQuestion") library ;;
  if b then Ok DragAndDrop else
  b <- contains (lit "TrueFalse") library ;;
  if b then Ok TrueFalse else
  b <- contains (lit "Blanks") library ;;
  if b then Ok FillInTheBlanks else
  b <- contains (lit "Image") library ;;
  if b then Ok Image else
  b <- contains (lit "DragText") library ;;
  if b then Ok DragText else Ok Other.

(** The loop body of [extract_all_answers] up to the end of the chain: the
    [answer_data] built for one interaction, or nothing when the image branch
    leaves the iteration by [continue]. *)
Definition build_answer_data (question_number : Z) (interaction : value) : res (option dict) :=
  action <- get interaction (lit "action") (VDict []) ;;
  library <- get action (lit "library") (VStr []) ;;
  params <- get action (lit "params") (VDict []) ;;
  duration <- get interaction (lit "duration") (VDict []) ;;
  time_from <- get duration (lit "from") (VInt 0) ;;
  time_to <- get duration (lit "to") (VInt 0) ;;
  f <- format_2f time_from ;;
  t <- format_2f time_to ;;
  subcontent_id <- get action (lit "subContentId") (VStr []) ;;
  let answer_data :=
    [(lit "question_number", VInt question_number);
     (lit "library_type", library);
     (lit "time_range", VStr (f ++ lit "s - " ++ t ++ lit "s"));
     (lit "subcontent_id", subcontent_id)] in
  k <- dispatch library ;;
  match k with
  | MultipleChoice =>
      mc_data <- _extract_multiple_choice_answers params ;;
      Ok (Some (dict_set (lit "type") (VStr (lit "Multiple Choice")) (update answer_data mc_data)))
  | DragAndDrop =>
      dd_data <- _extract_drag_drop_answers params ;;
      Ok (Some (update answer_data dd_data))
  | TrueFalse =>
      tf_data <- _extract_true_false_answers params ;;
      Ok (Some (dict_set (lit "type") (VStr (lit "True/False")) (update answer_data tf_data)))
  | FillInTheBlanks =>
      blanks_data <- _extract_fill_in_blanks_answers params ;;
      Ok (Some (dict_set (lit "type") (VStr (lit "Fill in the Blanks"))
                  (update answer_data blanks_data)))
  | Image => Ok None
  | DragText =>
      dragtext_data <- _extract_drag_text_answers params ;;
      Ok (Some (dict_set (lit "type") (VStr (lit "Drag Text")) (update answer_data dragtext_data)))
  | Other =>
      Ok (Some (dict_set (lit "raw_params") params
                  (dict_set (lit "type") (VStr (lit "Other")) answer_data)))
  end.

(** [d.get(k)] on a [dict] of the extractor itself. *)
Definition field (d : dict) (k : str) : value :=
  match lookup k d with
  | Some x => x
  | None => VNone
  end.

(** The condition under which [answer_data] is appended. *)
Definition kept (answer_data : dict) : bool :=
  truthy (field answer_data (lit "question"))
  || existsb (eq_str (field answer_data (lit "type")))
       [lit "Drag and Drop"; lit "Fill in the Blanks"; lit "True/False"; lit "Drag Text"].

(** One iteration of the loop of [extract_all_answers]; the state is
    [(answers, question_number)]. *)
Definition interaction_step (st : list value * Z) (interaction : value) : res (list value * Z) :=
  let '(answers, question_number) := st in
  r <- build_answer_data question_number interaction ;;
  match r with
  | None => Ok (answers, question_number)
  | Some answer_data =>
      if kept answer_data then Ok (answers ++ [VDict answer_data], (question_number + 1)%Z)
      else Ok (answers, question_number)
  end.

(** [H5PAnswerExtractor.extract_all_answers], on the parsed content. *)
Definition extract_all_answers (content : value) : res (list value) :=
  iv <- get content (lit "interactiveVideo") (VDict []) ;;
  assets <- get iv (lit "assets") (VDict []) ;;
  interactions <- get assets (lit "interactions") (VList []) ;;
  l <- iterate interactions ;;
  st <- for_each interaction_step ([], 1%Z) l ;;
  Ok (fst st).

(** ** Where the report goes *)

(** [os.path.basename], as [posixpath] has it. *)
Fixpoint basename (p : str) : str :=
  match p with
  | [] => []
  | c :: r => if existsb (N.eqb 47) r then basename r else if (c =? 47)%N then r else p
  end.

(** [os.path.splitext(p)[0]] for a [p] without separator: the text before the
    last dot, unless only dots come before it. *)
Definition splitext_root (p : str) : str :=
  let after := List.length (dropwhile (fun c => negb (c =? 46)%N) (rev p)) in
  match after with
  | O => p
  | S dot_index =>
      if forallb (N.eqb 46) (firstn dot_index p) then p else firstn dot_index p
  end.

(** [os.path.join(a, b)], as [posixpath] has it. *)
Definition path_join (a b : str) : str :=
  if startswith (lit "/") b then b
  else if match a with [] => true | _ => endswith (lit "/") a end then a ++ b
  else a ++ lit "/" ++ b.

(** The test by which [extract_answers] unpacks its input as an archive. *)
Definition is_archive (file_path : str) : bool :=
  endswith (lit ".h5p") (lower file_path) || endswith (lit ".zip") (lower file_path).

(** The path [save_answers_to_file] writes to; [cwd] is [os.getcwd()]. *)
Definition report_path (cwd : str) (output_path original_input : option str) : str :=
  match output_path with
  | Some p => p
  | None =>
      match original_input with
      | Some o =>
          if truthy (VStr o) && endswith (lit ".h5p") (lower o) then
            let base_name := splitext_root (basename o) in
            path_join cwd (base_name ++ lit "_answer.txt")
          else path_join cwd (lit "extracted_answers.txt")
      | None => path_join cwd (lit "extracted_answers.txt")
      end
  end.

(** The report of a run of [extract_answers] on [file_path]: the call is
    [save_answers_to_file(original_input=original_input)]. *)
Definition extract_answers_report (cwd file_path : str) : str :=
  report_path cwd None (Some file_path).

(** ** Words of the specification *)

(** The capital letter of position [i]: [chr(65 + i)]. *)
Definition label (i : nat) : str := [(65 + N.of_nat i)%N].

(** An entry of [answers] counts as correct when its [correct] field is true
    in a condition. *)
Definition flagged (answer : value) : bool :=
  match get answer (lit "correct") (VBool false) with
  | Ok v => truthy v
  | Raise _ => false
  end.

(** The label of the first flagged entry, counting from [i]. *)
Fixpoint first_flagged_label (i : nat) (entries : list value) : value :=
  match entries with
  | [] => VNone
  | e :: r => if flagged e then VStr (label i) else first_flagged_label (S i) r
  end.

(** The [type] of the records of each branch. *)
Definition type_name (k : kind) : str :=
  match k with
  | MultipleChoice => lit "Multiple Choice"
  | DragAndDrop => lit "Drag and Drop"
  | TrueFalse => lit "True/False"
  | FillInTheBlanks => lit "Fill in the Blanks"
  | Image => lit "Image"
  | DragText => lit "Drag Text"
  | Other => lit "Other"
  end.

(** The question numbers of a sequence of records. *)
Definition question_numbers (records : list value) : list value :=
  map (fun r => match r with VDict d => field d (lit "question_number") | _ => VNone end) records.

(** ** Example documents *)

(** An object and a text written with literals. *)
Definition obj (l : list (string * value)) : value :=
  VDict (map (fun kv => (lit (fst kv), snd kv)) l).
Definition text (s : string) : value := VStr (lit s).

(** Parameters of a Multiple Choice question whose two answers are both
    marked correct. *)
Definition two_correct_entries : list value :=
  [obj [("text", text "Paris"); ("correct", VBool true)]%string;
   obj [("text", text "Lutetia"); ("correct", VBool true)]%string].
Definition two_correct : value :=
  obj [("question", text "<p>Capital of France?</p>"); ("answers", VList two_correct_entries)]%string.

(** Parameters of a Drag and Drop question with the two items Paris and
    Berlin and one zone whose [correctElements] is [entries]. *)
Definition paris_berlin (entries : list value) : value :=
  let item text :=
    VDict [(lit "type",
            VDict [(lit "library", VStr (lit "H5P.AdvancedText 1.1"));
                   (lit "params", VDict [(lit "text", VStr (lit text))])])] in
  VDict [(lit "question",
          VDict [(lit "task",
                  VDict [(lit "elements", VList [item "Paris"%string; item "Berlin"%string]);
                         (lit "dropZones",
                          VList [VDict [(lit "label", VStr (lit "Capital of Germany"));
                                        (lit "correctElements", VList entries)]])])])].

(** A Multiple Choice interaction with a [subContentId] beside [action], as
    the specification documents the shape, and none inside it. *)
Definition id_beside_action : value :=
  obj [("action",
        obj [("library", text "H5P.MultiChoice 1.16");
             ("params",
              obj [("question", text "<p>Capital of France?</p>");
                   ("answers",
                    VList [obj [("text", text "Berlin")];
                           obj [("text", text "Paris"); ("correct", VBool true)]])])]);
       ("duration", obj [("from", VInt 3); ("to", VInt 12)]);
       ("subContentId", text "7cbc9723")]%string.

(** True/False interactions, one without [correct], one with the text [true]. *)
Definition true_false_interaction (params : value) : value :=
  obj [("action", obj [("library", text "H5P.TrueFalse 1.8"); ("params", params)])]%string.
Definition true_false_without_correct : value :=
  true_false_interaction (obj [("question", text "<p>Paris is in France</p>")]%string).
Definition true_false_with_text : value :=
  true_false_interaction
    (obj [("question", text "<p>Paris is in France</p>"); ("correct", text "true")]%string).

(** An interaction whose library has none of the six substrings. *)
Definition text_interaction : value :=
  obj [("action",
        obj [("library", text "H5P.Text 1.1");
             ("params", obj [("question", text "not a question")])])]%string.

(** A document with a Multiple Choice question, an image, a text of no
    special type and a True/False question. *)
Definition example_document : value :=
  obj [("interactiveVideo",
        obj [("assets",
              obj [("interactions",
                    VList [id_beside_action;
                           obj [("action", obj [("library", text "H5P.Image 1.1")])];
                           text_interaction;
                           true_false_interaction
                             (obj [("question", text "Paris is in Spain");
                                   ("correct", VBool false)])])])])]%string.

(** ** The content loader *)

(** [s.split(sep)] for a separator of one character. *)
Fixpoint split_on (sep : char) (s : str) : list str :=
  match s with
  | [] => [[]]
  | c :: r =>
      if (c =? sep)%N then [] :: split_on sep r
      else
        match split_on sep r with
        | line :: lines => (c :: line) :: lines
        | [] => [[c]]
        end
  end.

(** What [_load_content] hands to [json.loads]: the text read from the file,
    less its first line when it starts with a comment. *)
Definition strip_leading_comment (content : str) : str :=
  if startswith (lit "//") content then
    let lines := split_on 10%N content in
    join [10%N] (tl lines)
  else content.

(** ** The command line of [extract_answers.py] *)

(** [s[1:-1]] *)
Definition slice_1_m1 (s : str) : str := removelast (tl s).

(** The path the script works on: [argv] is [sys.argv], [typed] what [input]
    returns when the script asks for a path. *)
Definition chosen_file_path (argv : list str) (typed : str) : str :=
  if 1 <? List.length argv then nth 1 argv []
  else
    let user_input := strip typed in
    let user_input :=
      if startswith [34%N] user_input && endswith [34%N] user_input then slice_1_m1 user_input
      else if startswith [39%N] user_input && endswith [39%N] user_input then
        slice_1_m1 user_input
      else user_input in
    match user_input with
    | [] => lit "content.json"
    | _ => user_input
    end.

(** The path [main] of [h5p_answer_extractor.py] works on. *)
Definition main_file_path (argv : list str) : str :=
  if 1 <? List.length argv then nth 1 argv [] else lit "content.json".

(** Where [main] of [h5p_answer_extractor.py] has the report written: the
    call is [save_answers_to_file(file_path)], whose first parameter is
    [output_path]. *)
Definition main_report (cwd : str) (argv : list str) : str :=
  report_path cwd (Some (main_file_path argv)) None.

(** ** More words for the properties *)

(** The elements and the drop zones of a Drag and Drop question, as
    [_extract_drag_drop_answers] reads them. *)
Definition drag_drop_elements (params : value) : res (list value) :=
  question_data <- get params (lit "question") (VDict []) ;;
  task <- get question_data (lit "task") (VDict []) ;;
  elements <- get task (lit "elements") (VList []) ;;
  iterate elements.

Definition drag_drop_zones (params : value) : res (list value) :=
  question_data <- get params (lit "question") (VDict []) ;;
  task <- get question_data (lit "task") (VDict []) ;;
  drop_zones <- get task (lit "dropZones") (VList []) ;;
  iterate drop_zones.

(** An element whose library is exactly AdvancedText 1.1. *)
Definition is_advanced_text (element : value) : bool :=
  match
    element_type <- get element (lit "type") (VDict []) ;;
    get element_type (lit "library") VNone
  with
  | Ok library => eq_str library (lit "H5P.AdvancedText 1.1")
  | Raise _ => false
  end.

(** The normalized text of an element. *)
Definition element_text (element : value) : res str :=
  element_type <- get element (lit "type") (VDict []) ;;
  p <- get element_type (lit "params") (VDict []) ;;
  t <- get p (lit "text") (VStr []) ;;
  _clean_html_text t.

(** The normalized label of a drop zone. *)
Definition zone_label (zone : value) : res str :=
  l <- get zone (lit "label") (VStr []) ;;
  _clean_html_text l.

(** The normalized text of an entry of [answers]. *)
Definition answer_text (answer : value) : res str :=
  t <- get answer (lit "text") (VStr []) ;;
  _clean_html_text t.

(** The interactions of a document, as [extract_all_answers] reads them. *)
Definition interactions_of (content : value) : res (list value) :=
  iv <- get content (lit "interactiveVideo") (VDict []) ;;
  assets <- get iv (lit "assets") (VDict []) ;;
  interactions <- get assets (lit "interactions") (VList []) ;;
  iterate interactions.

(** A list of zone positions as it stands in [correct_matches]. *)
Definition zone_list (zones : list nat) : value :=
  VList (map (fun z => VInt (Z.of_nat z)) zones).

(** What holds of [correct_matches]: no key twice, every key one of the drag
    items, every value a list of zone positions below [bound]. *)
Definition matches_ok (drag_items : list str) (bound : nat) (correct_matches : dict) : Prop :=
  NoDup (map fst correct_matches)
  /\ Forall (fun kv => In (fst kv) drag_items
                       /\ exists zones, snd kv = zone_list zones
                                        /\ Forall (fun z => z < bound) zones)
            correct_matches.

(** ** Documents of the expected shape

    A document is well formed when each value the extractor reads has the
    type the extractor handles: texts are strings (or values that count as
    false, which the normalizer takes for the empty text), containers are
    objects and lists, a library is a string, times are numbers that fit a
    [float], the entries of [correctElements] are texts or numbers other than
    an infinity, and [answers] has no more entries than [chr] has characters
    from [A] on.  A key may always be absent. *)

(** A value the normalizer accepts. *)
Definition textual (v : value) : bool :=
  negb (truthy v) || match v with VStr _ => true | _ => false end.

(** The field [k] of [d] is absent or satisfies [p]. *)
Definition optional (p : value -> bool) (d : dict) (k : str) : bool :=
  match lookup k d with
  | Some v => p v
  | None => true
  end.

(** An object whose fields satisfy [p]. *)
Definition object (p : dict -> bool) (v : value) : bool :=
  match v with
  | VDict d => p d
  | _ => false
  end.

(** A list whose elements satisfy [p]. *)
Definition list_of (p : value -> bool) (v : value) : bool :=
  match v with
  | VList l => forallb p l
  | _ => false
  end.

Definition is_str (v : value) : bool :=
  match v with
  | VStr _ => true
  | _ => false
  end.

(** A time the f-string can format: a [float], a [bool], or an [int] that
    fits a [float], which those up to 2^53 do and beyond them those the
    runtime formats. *)
Definition is_time (v : value) : bool :=
  match v with
  | VInt z =>
      (Z.abs z <=? 2 ^ 53)%Z || match bigint_format_2f z with Ok _ => true | Raise _ => false end
  | VFloat _ => true
  | VBool _ => true
  | _ => false
  end.

(** An entry of [correctElements]: a text, or a number that [int] takes or
    rejects with [ValueError], which leaves out the infinities. *)
Definition is_index (v : value) : bool :=
  match v with
  | VInt _ => true
  | VBool _ => true
  | VStr _ => true
  | VFloat f =>
      match float_int f with
      | Ok _ | Raise ValueError => true
      | Raise _ => false
      end
  | _ => false
  end.

Definition well_formed_multiple_choice : value -> bool :=
  object (fun p =>
    optional textual p (lit "question")
    && optional (fun a =>
         list_of (object (fun e => optional textual e (lit "text"))) a
         && match a with
            | VList l => (N.of_nat (List.length l) <=? 1114047)%N
            | _ => false
            end) p (lit "answers")).

Definition well_formed_true_false : value -> bool :=
  object (fun p => optional textual p (lit "question")).

Definition well_formed_fill_in_blanks : value -> bool :=
  object (fun p =>
    match lookup (lit "questions") p with
    | Some q =>
        if truthy q then match q with VList l => forallb is_str l | _ => true end
        else optional textual p (lit "text")
    | None => optional textual p (lit "text")
    end).

Definition well_formed_drag_text : value -> bool :=
  object (fun p =>
    optional textual p (lit "taskDescription") && optional is_str p (lit "textField")).

Definition well_formed_element : value -> bool :=
  object (fun e =>
    optional (object (fun ty =>
      optional (object (fun pp => optional textual pp (lit "text"))) ty (lit "params")))
      e (lit "type")).

Definition well_formed_zone : value -> bool :=
  object (fun z =>
    optional textual z (lit "label")
    && optional (list_of is_index) z (lit "correctElements")).

Definition well_formed_drag_drop : value -> bool :=
  object (fun p =>
    optional (object (fun q =>
      optional (object (fun t =>
        optional (list_of well_formed_element) t (lit "elements")
        && optional (list_of well_formed_zone) t (lit "dropZones")))
        q (lit "task")))
      p (lit "question")).

(** The parameters fit the branch the library leads to. *)
Definition well_formed_params (library : str) (params : value) : bool :=
  if substring_in (lit "MultiChoice") library then well_formed_multiple_choice params
  else if substring_in (lit "DragQuestion") library then well_formed_drag_drop params
  else if substring_in (lit "TrueFalse") library then well_formed_true_false params
  else if substring_in (lit "Blanks") library then well_formed_fill_in_blanks params
  else if substring_in (lit "Image") library then true
  else if substring_in (lit "DragText") library then well_formed_drag_text params
  else true.

Definition well_formed_interaction : value -> bool :=
  object (fun i =>
    optional (object (fun du =>
      optional is_time du (lit "from") && optional is_time du (lit "to"))) i (lit "duration")
    && optional (object (fun a =>
         match lookup (lit "library") a with
         | Some (VStr library) =>
             well_formed_params library
               match lookup (lit "params") a with Some p => p | None => VDict [] end
         | Some _ => false
         | None => true
         end)) i (lit "action")).

Definition well_formed_document : value -> bool :=
  object (fun d =>
    optional (object (fun iv =>
      optional (object (fun assets =>
        optional (list_of well_formed_interaction) assets (lit "interactions")))
        iv (lit "assets")))
      d (lit "interactiveVideo")).

(** ** More example documents *)

(** Parameters of a Fill in the Blanks question. *)
Definition blanks_params : value :=
  obj [("questions", VList [text "<p>The *capital* of France is *Paris*</p>"])]%string.

(** A document with one Drag and Drop question, whose single zone takes the
    second item. *)
Definition drag_drop_document : value :=
  obj [("interactiveVideo",
        obj [("assets",
              obj [("interactions",
                    VList [obj [("action",
                                 obj [("library", text "H5P.DragQuestion 1.13");
                                      ("params", paris_berlin [VInt 1])])]])])])]%string.

(** A document whose first interaction has a library with both Image and
    Blanks in it; a True/False question follows. *)
Definition image_blanks_document : value :=
  obj [("interactiveVideo",
        obj [("assets",
              obj [("interactions",
                    VList [obj [("action",
                                 obj [("library", text "H5P.ImageBlanks 1.0");
                                      ("params", blanks_params)])];
                           true_false_without_correct])])])]%string.

End Extractor.

(** ** The report

    The literals of [display_answers] and [save_answers_to_file] that are not
    ASCII, as the code points of the source; each comment gives the literal
    without its accents. *)

(** ["H5P ANSWER EXTRACTOR - TRICH XUAT DAP AN"] *)
Definition report_title : str :=
  [72; 53; 80; 32; 65; 78; 83; 87; 69; 82; 32; 69; 88; 84; 82; 65; 67; 84; 79; 82; 32; 45;
   32; 84; 82; 205; 67; 72; 32; 88; 85; 7844; 84; 32; 272; 193; 80; 32; 193; 78]%N.

(** ["Tong so cau hoi: "] *)
Definition label_total : str :=
  [84; 7893; 110; 103; 32; 115; 7889; 32; 99; 226; 117; 32; 104; 7887; 105; 58; 32]%N.

(** ["\nCAU HOI "] *)
Definition label_question_number : str :=
  [10; 67; 194; 85; 32; 72; 7886; 73; 32]%N.

(** ["Loai: "] *)
Definition label_type : str :=
  [76; 111; 7841; 105; 58; 32]%N.

(** ["Thoi gian: "] *)
Definition label_time : str :=
  [84; 104; 7901; 105; 32; 103; 105; 97; 110; 58; 32]%N.

(** ["Cau hoi: "] *)
Definition label_question : str :=
  [67; 226; 117; 32; 104; 7887; 105; 58; 32]%N.

(** ["\nCac lua chon:"] *)
Definition heading_options : str :=
  [10; 67; 225; 99; 32; 108; 7921; 97; 32; 99; 104; 7885; 110; 58]%N.

(** ["(check mark) DUNG"] *)
Definition status_correct : str :=
  [10003; 32; 272; 218; 78; 71]%N.

(** ["(ballot x) SAI"] *)
Definition status_wrong : str :=
  [10007; 32; 83; 65; 73]%N.

(** ["DAP AN DUNG: "] *)
Definition label_correct_answer : str :=
  [272; 193; 80; 32; 193; 78; 32; 272; 218; 78; 71; 58; 32]%N.

(** ["Loai: Keo tha"] *)
Definition line_drag_and_drop : str :=
  [76; 111; 7841; 105; 58; 32; 75; 233; 111; 32; 116; 104; 7843]%N.

(** ["So items de keo: "] *)
Definition label_item_count : str :=
  [83; 7889; 32; 105; 116; 101; 109; 115; 32; 273; 7875; 32; 107; 233; 111; 58; 32]%N.

(** ["So vung tha: "] *)
Definition label_zone_count : str :=
  [83; 7889; 32; 118; 249; 110; 103; 32; 116; 104; 7843; 58; 32]%N.

(** ["\nCac item de keo:"] *)
Definition heading_items : str :=
  [10; 67; 225; 99; 32; 105; 116; 101; 109; 32; 273; 7875; 32; 107; 233; 111; 58]%N.

(** ["\nCac vung tha:"] *)
Definition heading_zones : str :=
  [10; 67; 225; 99; 32; 118; 249; 110; 103; 32; 116; 104; 7843; 58]%N.

(** ["\nCac ket noi dung:"] *)
Definition heading_matches : str :=
  [10; 67; 225; 99; 32; 107; 7871; 116; 32; 110; 7889; 105; 32; 273; 250; 110; 103; 58]%N.

(** ["' (arrow) Vung "] *)
Definition arrow_zone : str :=
  [39; 32; 8594; 32; 86; 249; 110; 103; 32]%N.

(** ["DAP AN: "] *)
Definition label_answers : str :=
  [272; 193; 80; 32; 193; 78; 58; 32]%N.

(** ["Khong xac dinh duoc dap an"] *)
Definition text_no_answer : str :=
  [75; 104; 244; 110; 103; 32; 120; 225; 99; 32; 273; 7883; 110; 104; 32; 273; 432; 7907;
   99; 32; 273; 225; 112; 32; 225; 110]%N.

(** ["Doan van: "] *)
Definition label_passage : str :=
  [272; 111; 7841; 110; 32; 118; 259; 110; 58; 32]%N.

(** ["\nDa luu dap an vao file: "] *)
Definition label_saved : str :=
  [10; 272; 227; 32; 108; 432; 117; 32; 273; 225; 112; 32; 225; 110; 32; 118; 224; 111; 32;
   102; 105; 108; 101; 58; 32]%N.

(** Errors while reporting: a missing key and a character the stream cannot
    encode, besides those of the extraction. *)
Inductive report_exn : Type :=
  | KeyError
  | UnicodeEncodeError
  | Uncaught (e : exn).

(** A computation that writes text: what it wrote, and its result or the
    exception that ended it. *)
Inductive written (A : Type) : Type :=
  | Went (out : str) (a : A)
  | Stopped (out : str) (e : report_exn).
Arguments Went {A} out a.
Arguments Stopped {A} out e.

Definition and_then {A B} (w : written A) (k : A -> written B) : written B :=
  match w with
  | Went out a =>
      match k a with
      | Went out' b => Went (out ++ out') b
      | Stopped out' e => Stopped (out ++ out') e
      end
  | Stopped out e => Stopped out e
  end.

Notation "x <~ e ;; k" := (and_then e (fun x => k))
  (at level 61, e at next level, right associativity).
Notation "e ;;; k" := (and_then e (fun _ => k))
  (at level 61, right associativity).

(** One [write] call on a text stream: the whole text is encoded before any
    of it is written, so that a character the stream does not take raises
    [UnicodeEncodeError] and leaves what was written before as it is.
    [encodes] says which characters the encoding of the stream, with its error
    handler, takes.  The operating system is taken to accept the bytes. *)
Definition put (encodes : char -> bool) (s : str) : written unit :=
  if forallb encodes s then Went s tt else Stopped [] UnicodeEncodeError.

(** [encoding="utf-8"], with the error handler [strict] that [open] gives it:
    every character but the surrogates [U+D800] to [U+DFFF]. *)
Definition utf_8 (c : char) : bool := negb ((55296 <=? c) && (c <=? 57343))%N.

(** [f.write(s)] on the file that [save_answers_to_file] opens with
    [encoding="utf-8"]. *)
Definition write (s : str) : written unit := put utf_8 s.

(** [print(s)] on a [sys.stdout] that takes the characters of [stdout]:
    [print] writes the text, and then the newline. *)
Definition print (stdout : char -> bool) (s : str) : written unit :=
  put stdout s ;;; put stdout [10%N].

(** A computation of the extractor inside a report: it writes nothing. *)
Definition pure {A} (r : res A) : written A :=
  match r with
  | Ok a => Went [] a
  | Raise e => Stopped [] (Uncaught e)
  end.

(** A [for] loop whose body writes. *)
Fixpoint each {A} (body : A -> written unit) (l : list A) : written unit :=
  match l with
  | [] => Went [] tt
  | x :: l' => body x ;;; each body l'
  end.

(** [for i, x in enumerate(l, i)] *)
Fixpoint each_numbered {A} (body : Z -> A -> written unit) (i : Z) (l : list A)
  : written unit :=
  match l with
  | [] => Went [] tt
  | x :: l' => body i x ;;; each_numbered body (i + 1)%Z l'
  end.



Section Report.

Context {RT : PyRuntime}.

(** The characters that [sys.stdout] takes. *)
Variable stdout : char -> bool.

(** [v[k]] for a string [k]. *)
Definition getitem (v : value) (k : str) : written value :=
  match v with
  | VDict d =>
      match lookup k d with
      | Some x => Went [] x
      | None => Stopped [] KeyError
      end
  | _ => Stopped [] (Uncaught TypeError)
  end.

(** [len(v)] *)
Definition py_len (v : value) : res Z :=
  match v with
  | VStr s => Ok (Z.of_nat (List.length s))
  | VList l => Ok (Z.of_nat (List.length l))
  | VDict d => Ok (Z.of_nat (List.length d))
  | _ => Raise TypeError
  end.

(** [v.items()] *)
Definition items (v : value) : res (list (str * value)) :=
  match v with
  | VDict d => Ok d
  | _ => Raise AttributeError
  end.

(** [c * n] for a character [c]. *)
Definition rule (c : char) (n : nat) : str := repeat c n.

(** [", ".join(v)] *)
Definition join_values (v : value) : res str :=
  l <- iterate v ;;
  parts <- strs_of l ;;
  Ok (join (lit ", ") parts).

(** [[str(int(z) + 1) for z in zones]] *)
Fixpoint zone_numbers_of (zones : list value) : res (list str) :=
  match zones with
  | [] => Ok []
  | z :: rest =>
      i <- py_int z ;;
      numbers <- zone_numbers_of rest ;;
      Ok (int_str (i + 1) :: numbers)
  end.

Definition zone_numbers (zones : value) : res (list str) :=
  l <- iterate zones ;;
  zone_numbers_of l.

(** The text after [label_answers] for Fill in the Blanks and Drag Text. *)
Definition answers_text (answer : value) : written str :=
  a <~ getitem answer (lit "answers") ;;
  if truthy a then
    a <~ getitem answer (lit "answers") ;;
    pure (join_values a)
  else Went [] text_no_answer.

(** The body of the loop of [display_answers]. *)
Definition display_answer (answer : value) : written unit :=
  n <~ getitem answer (lit "question_number") ;;
  print stdout (label_question_number ++ py_str n) ;;;
  t <~ getitem answer (lit "type") ;;
  print stdout (label_type ++ py_str t) ;;;
  r <~ getitem answer (lit "time_range") ;;
  print stdout (label_time ++ py_str r) ;;;
  i <~ getitem answer (lit "subcontent_id") ;;
  print stdout (lit "ID: " ++ py_str i) ;;;
  print stdout (rule 45%N 50) ;;;
  (t <~ getitem answer (lit "type") ;;
   if eq_str t (lit "Multiple Choice") then
     q <~ getitem answer (lit "question") ;;
     print stdout (label_question ++ py_str q) ;;;
     print stdout heading_options ;;;
     a <~ getitem answer (lit "answers") ;;
     options <~ pure (iterate a) ;;
     each (fun option =>
             c <~ getitem option (lit "is_correct") ;;
             let status := if truthy c then status_correct else status_wrong in
             o <~ getitem option (lit "option") ;;
             x <~ getitem option (lit "text") ;;
             print stdout (lit "  " ++ py_str o ++ lit ". " ++ py_str x ++ lit " [" ++ status ++ lit "]"))
          options ;;;
     c <~ getitem answer (lit "correct_answer") ;;
     print stdout ([10%N] ++ label_correct_answer ++ py_str c)
   else
   t <~ getitem answer (lit "type") ;;
   if eq_str t (lit "Drag and Drop") then
     print stdout line_drag_and_drop ;;;
     d <~ getitem answer (lit "drag_items") ;;
     n <~ pure (py_len d) ;;
     print stdout (label_item_count ++ int_str n) ;;;
     d <~ getitem answer (lit "drop_areas") ;;
     n <~ pure (py_len d) ;;
     print stdout (label_zone_count ++ int_str n) ;;;
     (d <~ getitem answer (lit "drag_items") ;;
      if truthy d then
        print stdout heading_items ;;;
        d <~ getitem answer (lit "drag_items") ;;
        l <~ pure (iterate d) ;;
        each_numbered (fun i item => print stdout (lit "  " ++ int_str i ++ lit ". " ++ py_str item)) 1 l
      else Went [] tt) ;;;
     (d <~ getitem answer (lit "drop_areas") ;;
      if truthy d then
        print stdout heading_zones ;;;
        d <~ getitem answer (lit "drop_areas") ;;
        l <~ pure (iterate d) ;;
        each_numbered (fun i area => print stdout (lit "  " ++ int_str i ++ lit ". " ++ py_str area)) 1 l
      else Went [] tt) ;;;
     (m <~ getitem answer (lit "correct_matches") ;;
      if truthy m then
        print stdout heading_matches ;;;
        m <~ getitem answer (lit "correct_matches") ;;
        pairs <~ pure (items m) ;;
        each (fun kv =>
                numbers <~ pure (zone_numbers (snd kv)) ;;
                print stdout (lit "  '" ++ fst kv ++ arrow_zone ++ join (lit ", ") numbers))
             pairs
      else Went [] tt)
   else
   t <~ getitem answer (lit "type") ;;
   if eq_str t (lit "True/False") then
     q <~ getitem answer (lit "question") ;;
     print stdout (label_question ++ py_str q) ;;;
     c <~ getitem answer (lit "correct_answer") ;;
     print stdout (label_correct_answer ++ py_str c)
   else
   t <~ getitem answer (lit "type") ;;
   if eq_str t (lit "Fill in the Blanks") then
     q <~ getitem answer (lit "question") ;;
     print stdout (label_question ++ py_str q) ;;;
     a <~ answers_text answer ;;
     print stdout (label_answers ++ a)
   else
   t <~ getitem answer (lit "type") ;;
   if eq_str t (lit "Drag Text") then
     q <~ getitem answer (lit "question") ;;
     print stdout (label_question ++ py_str q) ;;;
     f <~ getitem answer (lit "text_field") ;;
     print stdout (label_passage ++ py_str f) ;;;
     a <~ answers_text answer ;;
     print stdout (label_answers ++ a)
   else Went [] tt) ;;;
  print stdout ([10%N] ++ rule 61%N 50).

(** [H5PAnswerExtractor.display_answers]: what it prints; [file_path] is the
    text of [self.file_path]. *)
Definition display_answers (file_path : str) (content : value) : written unit :=
  answers <~ pure (extract_all_answers content) ;;
  print stdout (rule 61%N 80) ;;;
  print stdout report_title ;;;
  print stdout (rule 61%N 80) ;;;
  print stdout (lit "File: " ++ file_path) ;;;
  print stdout (label_total ++ int_str (Z.of_nat (List.length answers))) ;;;
  print stdout (rule 61%N 80) ;;;
  each display_answer answers.

(** The body of the loop of [save_answers_to_file]. *)
Definition write_answer (answer : value) : written unit :=
  n <~ getitem answer (lit "question_number") ;;
  write (label_question_number ++ py_str n ++ [10%N]) ;;;
  t <~ getitem answer (lit "type") ;;
  write (label_type ++ py_str t ++ [10%N]) ;;;
  r <~ getitem answer (lit "time_range") ;;
  write (label_time ++ py_str r ++ [10%N]) ;;;
  i <~ getitem answer (lit "subcontent_id") ;;
  write (lit "ID: " ++ py_str i ++ [10%N]) ;;;
  write (rule 45%N 50 ++ [10%N]) ;;;
  (t <~ getitem answer (lit "type") ;;
   if eq_str t (lit "Multiple Choice") then
     q <~ getitem answer (lit "question") ;;
     write (label_question ++ py_str q ++ [10%N]) ;;;
     write (heading_options ++ [10%N]) ;;;
     a <~ getitem answer (lit "answers") ;;
     options <~ pure (iterate a) ;;
     each (fun option =>
             c <~ getitem option (lit "is_correct") ;;
             let status := if truthy c then status_correct else status_wrong in
             o <~ getitem option (lit "option") ;;
             x <~ getitem option (lit "text") ;;
             write (lit "  " ++ py_str o ++ lit ". " ++ py_str x ++ lit " [" ++ status
                    ++ lit "]" ++ [10%N]))
          options ;;;
     c <~ getitem answer (lit "correct_answer") ;;
     write ([10%N] ++ label_correct_answer ++ py_str c ++ [10%N])
   else
   t <~ getitem answer (lit "type") ;;
   if eq_str t (lit "Drag and Drop") then
     write (line_drag_and_drop ++ [10%N]) ;;;
     d <~ getitem answer (lit "drag_items") ;;
     n <~ pure (py_len d) ;;
     write (label_item_count ++ int_str n ++ [10%N]) ;;;
     d <~ getitem answer (lit "drop_areas") ;;
     n <~ pure (py_len d) ;;
     write (label_zone_count ++ int_str n ++ [10%N]) ;;;
     (d <~ getitem answer (lit "drag_items") ;;
      if truthy d then
        write (heading_items ++ [10%N]) ;;;
        d <~ getitem answer (lit "drag_items") ;;
        l <~ pure (iterate d) ;;
        each_numbered
          (fun i item => write (lit "  " ++ int_str i ++ lit ". " ++ py_str item ++ [10%N])) 1 l
      else Went [] tt) ;;;
     (d <~ getitem answer (lit "drop_areas") ;;
      if truthy d then
        write (heading_zones ++ [10%N]) ;;;
        d <~ getitem answer (lit "drop_areas") ;;
        l <~ pure (iterate d) ;;
        each_numbered
          (fun i area => write (lit "  " ++ int_str i ++ lit ". " ++ py_str area ++ [10%N])) 1 l
      else Went [] tt) ;;;
     (m <~ getitem answer (lit "correct_matches") ;;
      if truthy m then
        write (heading_matches ++ [10%N]) ;;;
        m <~ getitem answer (lit "correct_matches") ;;
        pairs <~ pure (items m) ;;
        each (fun kv =>
                numbers <~ pure (zone_numbers (snd kv)) ;;
                write (lit "  '" ++ fst kv ++ arrow_zone ++ join (lit ", ") numbers ++ [10%N]))
             pairs
      else Went [] tt)
   else
   t <~ getitem answer (lit "type") ;;
   if eq_str t (lit "True/False") then
     q <~ getitem answer (lit "question") ;;
     write (label_question ++ py_str q ++ [10%N]) ;;;
     c <~ getitem answer (lit "correct_answer") ;;
     write (label_correct_answer ++ py_str c ++ [10%N])
   else
   t <~ getitem answer (lit "type") ;;
   if eq_str t (lit "Fill in the Blanks") then
     q <~ getitem answer (lit "question") ;;
     write (label_question ++ py_str q ++ [10%N]) ;;;
     a <~ answers_text answer ;;
     write (label_answers ++ a ++ [10%N])
   else
   t <~ getitem answer (lit "type") ;;
   if eq_str t (lit "Drag Text") then
     q <~ getitem answer (lit "question") ;;
     write (label_question ++ py_str q ++ [10%N]) ;;;
     f <~ getitem answer (lit "text_field") ;;
     write (label_passage ++ py_str f ++ [10%N]) ;;;
     a <~ answers_text answer ;;
     write (label_answers ++ a ++ [10%N])
   else Went [] tt) ;;;
  write ([10%N] ++ rule 61%N 50 ++ [10%N]).

(** [H5PAnswerExtractor.save_answers_to_file]: what it writes to the file it
    opens; the extraction comes before the file is opened. *)
Definition save_answers_to_file (file_path : str) (content : value) : written unit :=
  answers <~ pure (extract_all_answers content) ;;
  write (report_title ++ [10%N]) ;;;
  write (rule 61%N 80 ++ [10%N]) ;;;
  write (lit "File: " ++ file_path ++ [10%N]) ;;;
  write (label_total ++ int_str (Z.of_nat (List.length answers)) ++ [10%N]) ;;;
  write (rule 61%N 80 ++ [10%N]) ;;;
  each write_answer answers.

(** *** The records of the extraction, written out *)

(** An entry of the [answers] of a Multiple Choice record. *)
Definition option_shape (option : value) : Prop :=
  exists l t c,
    option = VDict [(lit "option", VStr l); (lit "text", VStr t); (lit "is_correct", c)].

(** The four fields every record starts with. *)
Definition common_fields (n : Z) (library : value) (time_range : str) (subcontent_id : value)
  : dict :=
  [(lit "question_number", VInt n); (lit "library_type", library);
   (lit "time_range", VStr time_range); (lit "subcontent_id", subcontent_id)].

(** The forms of the [answer_data] of the six branches. *)
Inductive record_shape (n : Z) : dict -> Prop :=
  | shape_multiple_choice library time_range sub q options ca :
      Forall option_shape options ->
      record_shape n
        (common_fields n library time_range sub
         ++ [(lit "question", VStr q); (lit "answers", VList options);
             (lit "correct_answer", ca); (lit "type", VStr (lit "Multiple Choice"))])
  | shape_drag_drop library time_range sub drag_items areas bound correct_matches :
      matches_ok drag_items bound correct_matches ->
      record_shape n
        (common_fields n library time_range sub
         ++ [(lit "type", VStr (lit "Drag and Drop"));
             (lit "drag_items", VList (map VStr drag_items));
             (lit "drop_areas", VList (map VStr areas));
             (lit "correct_matches", VDict correct_matches)])
  | shape_true_false library time_range sub q c :
      record_shape n
        (common_fields n library time_range sub
         ++ [(lit "question", VStr q); (lit "correct_answer", VStr c);
             (lit "type", VStr (lit "True/False"))])
  | shape_fill_in_blanks library time_range sub q answers :
      record_shape n
        (common_fields n library time_range sub
         ++ [(lit "question", VStr q); (lit "answers", VList (map VStr answers));
             (lit "type", VStr (lit "Fill in the Blanks"))])
  | shape_drag_text library time_range sub q answers text_field :
      record_shape n
        (common_fields n library time_range sub
         ++ [(lit "question", VStr q); (lit "answers", VList (map VStr answers));
             (lit "text_field", VStr text_field); (lit "type", VStr (lit "Drag Text"))])
  | shape_other library time_range sub params :
      record_shape n
        (common_fields n library time_range sub
         ++ [(lit "type", VStr (lit "Other")); (lit "raw_params", params)]).

End Report.


(** ** Properties of the text normalizer *)

Lemma sub_from_skipn m repl s : forall k, sub_from m repl k s = sub_from m repl 0 (skipn k s).
Proof.
  induction s as [|c r IH]; intros [|k]; simpl; auto.
Qed.

Lemma findall_from_skipn m s : forall k, findall_from m k s = findall_from m 0 (skipn k s).
Proof.
  induction s as [|c r IH]; intros [|k]; simpl; auto.
Qed.

Lemma in_sub_from m repl c s : forall k, In c (sub_from m repl k s) -> In c s \/ In c repl.
Proof.
  induction s as [|a r IH]; intros k H; simpl in H; [tauto|].
  destruct k as [|k].
  - destruct (m (a :: r)) as [[|n]|].
    + destruct H as [H|H]; [left; left; exact H|]. apply IH in H. simpl; tauto.
    + apply in_app_or in H. destruct H as [H|H]; [tauto|]. apply IH in H. simpl; tauto.
    + destruct H as [H|H]; [left; left; exact H|]. apply IH in H. simpl; tauto.
  - apply IH in H. simpl; tauto.
Qed.

Lemma until_gt_none s : until_gt s = None <-> ~ In 62%N s.
Proof.
  induction s as [|c r IH]; simpl; [tauto|].
  destruct (N.eqb_spec c 62) as [E|E].
  - split; [discriminate|]. intros H. exfalso. apply H. left. exact E.
  - destruct (until_gt r) as [n|]; simpl.
    + split; [discriminate|]. intros H. exfalso. destruct IH as [_ IH].
      assert (X : @None nat = None -> False); [|tauto].
      intros _. assert (Some n = None) by (apply IH; tauto). discriminate.
    + split; [|reflexivity]. intros _ [H|H]; [congruence|]. destruct IH as [IH _]. now apply IH.
Qed.

Lemma until_gt_zero s : until_gt s = Some 0 -> exists r, s = 62%N :: r.
Proof.
  destruct s as [|c r]; simpl; [discriminate|].
  destruct (N.eqb_spec c 62) as [E|E].
  - subst. eauto.
  - destruct (until_gt r); discriminate.
Qed.

(** A bare ['<'] fails the tag pattern in one of two ways. *)
Lemma tag_pattern_lt_none r :
  tag_pattern (60%N :: r) = None <-> (until_gt r = None \/ until_gt r = Some 0).
Proof.
  simpl. destruct (until_gt r) as [[|n]|]; split; intros H; try tauto; try discriminate.
  - destruct H; discriminate.
Qed.

Lemma tag_pattern_other c r : c <> 60%N -> tag_pattern (c :: r) = None.
Proof.
  intros H. simpl. destruct (N.eqb_spec c 60); [contradiction|reflexivity].
Qed.

Lemma tag_pattern_cons c r r' :
  (until_gt r = None \/ until_gt r = Some 0 -> until_gt r' = None \/ until_gt r' = Some 0) ->
  tag_pattern (c :: r) = None -> tag_pattern (c :: r') = None.
Proof.
  intros H T. destruct (N.eq_dec c 60) as [E|E].
  - subst. apply tag_pattern_lt_none. apply H. now apply tag_pattern_lt_none.
  - now apply tag_pattern_other.
Qed.

(** Removing the tags leaves no tag behind. *)
Lemma tag_free_strip_tags s : forall k, tag_free (sub_from tag_pattern [] k s).
Proof.
  induction s as [|c r IH]; intros k; cbn [sub_from]; [exact I|].
  destruct k as [|k]; [|apply IH].
  destruct (tag_pattern (c :: r)) as [[|n]|] eqn:T.
  - simpl in T. destruct (c =? 60)%N; [|discriminate].
    destruct (until_gt r) as [[|?]|]; discriminate.
  - apply IH.
  - split; [|apply IH].
    revert T. apply tag_pattern_cons. intros [H|H].
    + left. apply until_gt_none. intros X. apply in_sub_from in X.
      apply until_gt_none in H. simpl in X. tauto.
    + right. apply until_gt_zero in H. destruct H as [r' ->]. reflexivity.
Qed.

(** A later substitution keeps the text free of tags when it inserts no
    angle bracket and none of its matches starts at a ['>']. *)
Lemma tag_free_sub_from m repl :
  ~ In 60%N repl -> ~ In 62%N repl ->
  (forall r n, m (62%N :: r) <> Some (S n)) ->
  forall s k, tag_free s -> tag_free (sub_from m repl k s).
Proof.
  intros Hlt Hgt Hm.
  assert (Happ : forall t, tag_free t -> tag_free (repl ++ t)).
  { intros t Ht. induction repl as [|a q IHq]; simpl; [exact Ht|].
    split.
    - apply tag_pattern_other. intros ->. apply Hlt. now left.
    - apply IHq; intros X; [apply Hlt|apply Hgt]; now right. }
  induction s as [|c r IH]; intros k F; cbn [sub_from]; [exact I|].
  destruct F as [T F].
  destruct k as [|k]; [|now apply IH].
  assert (Keep : tag_free (c :: sub_from m repl 0 r)).
  { split; [|now apply IH].
    revert T. apply tag_pattern_cons. intros [H|H].
    - left. apply until_gt_none. intros X. apply in_sub_from in X.
      apply until_gt_none in H. tauto.
    - right. apply until_gt_zero in H. destruct H as [r' ->]. cbn [sub_from].
      specialize (Hm r'). destruct (m (62%N :: r')) as [[|n]|]; try reflexivity.
      exfalso. now apply (Hm n). }
  destruct (m (c :: r)) as [[|n]|]; try exact Keep.
  apply Happ. now apply IH.
Qed.

Lemma tag_free_suffix a b : tag_free (a ++ b) -> tag_free b.
Proof.
  induction a as [|c a IH]; simpl; [tauto|]. intros [_ H]. now apply IH.
Qed.

Lemma until_gt_prefix r b :
  until_gt (r ++ b) = None \/ until_gt (r ++ b) = Some 0 ->
  until_gt r = None \/ until_gt r = Some 0.
Proof.
  destruct r as [|c r]; simpl; [now left|].
  destruct (c =? 62)%N; [now right|].
  intros [H|H].
  - left. destruct (until_gt (r ++ b)) eqn:E; [discriminate|].
    assert (N : until_gt r = None).
    { apply until_gt_none. apply until_gt_none in E. intros X. apply E. apply in_or_app. now left. }
    now rewrite N.
  - destruct (until_gt (r ++ b)); discriminate.
Qed.

Lemma tag_free_prefix a b : tag_free (a ++ b) -> tag_free a.
Proof.
  induction a as [|c a IH]; simpl; [tauto|]. intros [T H]. split; [|now apply IH].
  revert T. apply tag_pattern_cons. apply until_gt_prefix.
Qed.

Lemma dropwhile_suffix {A} (p : A -> bool) l : exists w, l = w ++ dropwhile p l.
Proof.
  induction l as [|x l [w IH]]; simpl.
  - now exists [].
  - destruct (p x).
    + exists (x :: w). simpl. now f_equal.
    + now exists [].
Qed.

Lemma rstrip_prefix s : exists w, s = rstrip s ++ w.
Proof.
  unfold rstrip. destruct (dropwhile_suffix isspace (rev s)) as [w E].
  exists (rev w). rewrite <- rev_app_distr, <- E. now rewrite rev_involutive.
Qed.

Lemma tag_free_strip s : tag_free s -> tag_free (strip s).
Proof.
  intros H. unfold strip.
  destruct (rstrip_prefix (lstrip s)) as [w E].
  apply tag_free_prefix with (b := w). rewrite <- E.
  unfold lstrip. destruct (dropwhile_suffix isspace s) as [v E'].
  apply tag_free_suffix with (a := v). now rewrite <- E'.
Qed.

Lemma tag_free_clean_str s : tag_free (clean_str s).
Proof.
  unfold clean_str, re_sub. apply tag_free_strip.
  apply tag_free_sub_from.
  - vm_compute. intuition discriminate.
  - vm_compute. intuition discriminate.
  - intros r n. unfold spaces_pattern. simpl. discriminate.
  - apply tag_free_sub_from.
    + simpl. tauto.
    + simpl. tauto.
    + intros r n. simpl. discriminate.
    + apply tag_free_sub_from.
      * vm_compute. intuition discriminate.
      * vm_compute. intuition discriminate.
      * intros r n. unfold nbsp_pattern. simpl. discriminate.
      * apply tag_free_strip_tags.
Qed.

Lemma run_length_skipn p s :
  match skipn (run_length p s) s with
  | c :: _ => p c = false
  | [] => True
  end.
Proof.
  induction s as [|c r IH]; simpl; [exact I|].
  destruct (p c) eqn:E; simpl; [exact IH|exact E].
Qed.

Lemma skipn_length_le {A} (l : list A) k : List.length (skipn k l) <= List.length l.
Proof.
  rewrite length_skipn. lia.
Qed.

Lemma spaces_pattern_cons c r :
  spaces_pattern (c :: r) = if isspace c then Some (S (run_length isspace r)) else None.
Proof.
  unfold spaces_pattern. cbn [run_length]. now destruct (isspace c).
Qed.

(** Collapsing the runs of whitespace leaves single spaces, and puts no space
    before a text that starts without one. *)
Lemma collapse_spaces n :
  forall s, List.length s <= n ->
    single_spaced (sub_from spaces_pattern (lit " ") 0 s)
    /\ (starts_solid s -> starts_solid (sub_from spaces_pattern (lit " ") 0 s)).
Proof.
  induction n as [|n IH]; intros [|c r] L; simpl in L; try lia; cbn [sub_from];
    try (split; [exact I|tauto]).
  rewrite spaces_pattern_cons.
  destruct (isspace c) eqn:E.
  - change (lit " ") with [32%N]. cbn [app].
    rewrite sub_from_skipn.
    pose proof (run_length_skipn isspace r) as Hd.
    destruct (IH (skipn (run_length isspace r) r)) as [S1 S2].
    { pose proof (skipn_length_le r (run_length isspace r)). lia. }
    split.
    + split; [|exact S1]. intros _.
      assert (X : starts_solid (sub_from spaces_pattern [32%N] 0 (skipn (run_length isspace r) r))).
      { apply S2. exact Hd. }
      exact X.
    + simpl. congruence.
  - destruct (IH r) as [S1 S2]; [lia|].
    split.
    + split; [congruence|exact S1].
    + intros _. exact E.
Qed.

Lemma single_spaced_suffix a b : single_spaced (a ++ b) -> single_spaced b.
Proof.
  induction a as [|c a IH]; simpl; [tauto|]. intros [_ H]. now apply IH.
Qed.

Lemma single_spaced_prefix a b : single_spaced (a ++ b) -> single_spaced a.
Proof.
  induction a as [|c a IH]; simpl; [tauto|]. intros [H1 H2]. split; [|now apply IH].
  destruct a; [tauto|exact H1].
Qed.

Lemma dropwhile_head {A} (p : A -> bool) l :
  match dropwhile p l with
  | c :: _ => p c = false
  | [] => True
  end.
Proof.
  induction l as [|x l IH]; simpl; [exact I|].
  destruct (p x) eqn:E; [exact IH|exact E].
Qed.

Lemma single_spaced_strip s : single_spaced s -> single_spaced (strip s).
Proof.
  intros H. unfold strip.
  destruct (rstrip_prefix (lstrip s)) as [w E].
  apply single_spaced_prefix with (b := w). rewrite <- E.
  unfold lstrip. destruct (dropwhile_suffix isspace s) as [v E'].
  apply single_spaced_suffix with (a := v). now rewrite <- E'.
Qed.

Lemma strip_starts_solid s : starts_solid (strip s).
Proof.
  unfold strip. destruct (rstrip_prefix (lstrip s)) as [w E].
  pose proof (dropwhile_head isspace s) as H. fold (lstrip s) in H.
  destruct (rstrip (lstrip s)) as [|c q]; [exact I|].
  rewrite E in H. exact H.
Qed.

Lemma strip_ends_solid s q c : strip s = q ++ [c] -> isspace c = false.
Proof.
  unfold strip, rstrip. intros E.
  pose proof (dropwhile_head isspace (rev (lstrip s))) as H.
  apply (f_equal (@rev char)) in E. rewrite rev_involutive, rev_app_distr in E.
  simpl in E. rewrite E in H. exact H.
Qed.

Lemma until_gt_app x post : ~ In 62%N x -> until_gt (x ++ 62%N :: post) = Some (List.length x).
Proof.
  induction x as [|c x IH]; simpl; intros H; [reflexivity|].
  destruct (N.eqb_spec c 62) as [E|E]; [exfalso; tauto|].
  rewrite IH; [reflexivity|tauto].
Qed.

(** [tag_free] in terms of the text alone: between a ['<'] and a later ['>']
    there is nothing, or another ['>']. *)
Lemma tag_free_elim out pre x post :
  tag_free out -> out = pre ++ 60%N :: x ++ 62%N :: post -> x = [] \/ In 62%N x.
Proof.
  intros F ->. apply tag_free_suffix in F. destruct F as [T _].
  apply tag_pattern_lt_none in T.
  destruct x as [|c x]; [now left|right].
  destruct (in_dec N.eq_dec 62%N (c :: x)) as [H|H]; [exact H|].
  rewrite (until_gt_app _ post H) in T. simpl in T. destruct T; discriminate.
Qed.

Lemma single_spaced_elim out pre a b post :
  single_spaced out -> out = pre ++ a :: b :: post -> isspace a = true -> isspace b = false.
Proof.
  intros F ->. apply single_spaced_suffix in F. destruct F as [H _]. exact H.
Qed.

Lemma single_spaced_clean_str s : single_spaced (clean_str s).
Proof.
  unfold clean_str, re_sub. apply single_spaced_strip.
  eapply collapse_spaces. apply Nat.le_refl.
Qed.

(** ** Reasoning about computations that may raise *)

Lemma bind_ok {A B} (r : res A) (k : A -> res B) (b : B) :
  bind r k = Ok b -> exists a, r = Ok a /\ k a = Ok b.
Proof.
  destruct r as [a|e]; simpl; [eauto|discriminate].
Qed.

(** Splits a successful sequence [x <- e ;; k] into its two halves. *)
Ltac inv_bind H :=
  let a := fresh "x" in
  let E := fresh "E" in
  apply bind_ok in H; destruct H as (a & E & H).

Tactic Notation "split_bind" hyp(H) "as" ident(a) ident(E) :=
  apply bind_ok in H; destruct H as (a & E & H).

Ltac inv_ok H := injection H as H; subst.

Section ExtractorProperties.

Context {RT : PyRuntime}.

(** *** The shape of what each extraction returns *)

Lemma clean_html_text_str s : _clean_html_text (VStr s) = Ok (clean_str s).
Proof.
  destruct s; reflexivity.
Qed.

Lemma multiple_choice_shape params d :
  _extract_multiple_choice_answers params = Ok d ->
  exists q a c,
    d = [(lit "question", VStr q); (lit "answers", VList a); (lit "correct_answer", c)].
Proof.
  unfold _extract_multiple_choice_answers. intros H.
  do 5 inv_bind H. destruct x3 as [a c]. inv_ok H. eauto.
Qed.

Lemma drag_drop_shape params d :
  _extract_drag_drop_answers params = Ok d ->
  exists items areas matches,
    d = [(lit "type", VStr (lit "Drag and Drop")); (lit "drag_items", VList items);
         (lit "drop_areas", VList areas); (lit "correct_matches", VDict matches)].
Proof.
  unfold _extract_drag_drop_answers. intros H.
  do 8 inv_bind H. destruct x6 as [a c]. inv_ok H. eauto.
Qed.

Lemma true_false_shape params d :
  _extract_true_false_answers params = Ok d ->
  exists q c, d = [(lit "question", VStr q); (lit "correct_answer", VStr c)].
Proof.
  unfold _extract_true_false_answers. intros H.
  do 3 inv_bind H. inv_ok H. eauto.
Qed.

Lemma fill_in_blanks_shape params d :
  _extract_fill_in_blanks_answers params = Ok d ->
  exists q a, d = [(lit "question", VStr q); (lit "answers", VList a)].
Proof.
  unfold _extract_fill_in_blanks_answers. intros H.
  do 3 inv_bind H. inv_ok H. eauto.
Qed.

Lemma drag_text_shape params d :
  _extract_drag_text_answers params = Ok d ->
  exists q a t,
    d = [(lit "question", VStr q); (lit "answers", VList a); (lit "text_field", t)].
Proof.
  unfold _extract_drag_text_answers. intros H.
  do 3 inv_bind H. destruct x1; try discriminate. inv_bind H. inv_ok H. eauto.
Qed.

(** *** One iteration of the main loop *)

(** What [build_answer_data] has read, and what stands in the record it
    returns: the fields set before the chain survive [update], and the answer
    fields are those of the extraction of the branch. *)
Lemma build_answer_data_inv n interaction d :
  build_answer_data n interaction = Ok (Some d) ->
  exists action library params sub k,
    get interaction (lit "action") (VDict []) = Ok action
    /\ get action (lit "library") (VStr []) = Ok library
    /\ get action (lit "params") (VDict []) = Ok params
    /\ get action (lit "subContentId") (VStr []) = Ok sub
    /\ dispatch library = Ok k
    /\ lookup (lit "question_number") d = Some (VInt n)
    /\ lookup (lit "library_type") d = Some library
    /\ lookup (lit "subcontent_id") d = Some sub
    /\ lookup (lit "type") d = Some (VStr (type_name k))
    /\ match k with
       | MultipleChoice =>
           exists e, _extract_multiple_choice_answers params = Ok e
             /\ lookup (lit "question") d = lookup (lit "question") e
             /\ lookup (lit "correct_answer") d = lookup (lit "correct_answer") e
       | DragAndDrop => lookup (lit "question") d = None
       | TrueFalse =>
           exists e, _extract_true_false_answers params = Ok e
             /\ lookup (lit "question") d = lookup (lit "question") e
             /\ lookup (lit "correct_answer") d = lookup (lit "correct_answer") e
       | FillInTheBlanks =>
           exists e, _extract_fill_in_blanks_answers params = Ok e
             /\ lookup (lit "question") d = lookup (lit "question") e
             /\ lookup (lit "answers") d = lookup (lit "answers") e
       | Image => False
       | DragText =>
           exists e, _extract_drag_text_answers params = Ok e
             /\ lookup (lit "question") d = lookup (lit "question") e
             /\ lookup (lit "answers") d = lookup (lit "answers") e
       | Other => lookup (lit "question") d = None
       end.
Proof.
  unfold build_answer_data. intros H.
  inv_bind H. rename x into action, E into Eaction.
  inv_bind H. rename x into library, E into Elibrary.
  inv_bind H. rename x into params, E into Eparams.
  inv_bind H. rename x into duration, E into Eduration.
  inv_bind H. rename x into time_from, E into Efrom.
  inv_bind H. rename x into time_to, E into Eto.
  inv_bind H. rename x into f, E into Ef.
  inv_bind H. rename x into t, E into Et.
  inv_bind H. rename x into sub, E into Esub.
  inv_bind H. rename x into k, E into Ek.
  exists action, library, params, sub, k.
  do 5 (split; [assumption|]).
  destruct k.
  - inv_bind H. inv_ok H.
    destruct (multiple_choice_shape _ _ E) as (q & a & c & ->).
    repeat split; try reflexivity. exists [(lit "question", VStr q); (lit "answers", VList a); (lit "correct_answer", c)].
    repeat split; auto.
  - inv_bind H. inv_ok H.
    destruct (drag_drop_shape _ _ E) as (q & a & c & ->).
    repeat split; reflexivity.
  - inv_bind H. inv_ok H.
    destruct (true_false_shape _ _ E) as (q & c & ->).
    repeat split; try reflexivity. exists [(lit "question", VStr q); (lit "correct_answer", VStr c)].
    repeat split; auto.
  - inv_bind H. inv_ok H.
    destruct (fill_in_blanks_shape _ _ E) as (q & a & ->).
    repeat split; try reflexivity. exists [(lit "question", VStr q); (lit "answers", VList a)].
    repeat split; auto.
  - discriminate.
  - inv_bind H. inv_ok H.
    destruct (drag_text_shape _ _ E) as (q & a & t' & ->).
    repeat split; try reflexivity.
    exists [(lit "question", VStr q); (lit "answers", VList a); (lit "text_field", t')].
    repeat split; auto.
  - inv_ok H. repeat split; reflexivity.
Qed.

Lemma interaction_step_inv answers n interaction answers' n' :
  interaction_step (answers, n) interaction = Ok (answers', n') ->
  (answers' = answers /\ n' = n
   /\ (build_answer_data n interaction = Ok None
       \/ exists d, build_answer_data n interaction = Ok (Some d) /\ kept d = false))
  \/ (exists d, build_answer_data n interaction = Ok (Some d) /\ kept d = true
        /\ answers' = answers ++ [VDict d] /\ n' = (n + 1)%Z).
Proof.
  unfold interaction_step. intros H. inv_bind H.
  destruct x as [d|].
  - destruct (kept d) eqn:K; inv_ok H.
    + right. exists d. auto.
    + left. repeat split; auto. right. eauto.
  - inv_ok H. left. auto.
Qed.

(** The main loop appends records only, one per kept [answer_data], each built
    with the value the counter had at that time. *)
Lemma main_loop_inv l :
  forall answers n answers' n',
    for_each interaction_step (answers, n) l = Ok (answers', n') ->
    exists new,
      answers' = answers ++ new
      /\ n' = (n + Z.of_nat (List.length new))%Z
      /\ forall k r, nth_error new k = Some r ->
           exists d interaction,
             r = VDict d /\ In interaction l
             /\ build_answer_data (n + Z.of_nat k) interaction = Ok (Some d)
             /\ kept d = true.
Proof.
  induction l as [|i l IH]; intros answers n answers' n' H; simpl in H.
  - inv_ok H. exists []. rewrite app_nil_r. repeat split; [cbn [List.length]; lia|].
    intros [|k] r X; discriminate.
  - inv_bind H. destruct x as [a1 n1].
    apply IH in H. destruct H as (new & -> & -> & Hnew).
    apply interaction_step_inv in E.
    destruct E as [(-> & -> & _)|(d & B & K & -> & ->)].
    + exists new. repeat split; auto.
      intros k r X. destruct (Hnew k r X) as (d & j & ? & ? & ? & ?).
      exists d, j. repeat split; auto. now right.
    + exists (VDict d :: new). rewrite <- app_assoc. repeat split; [cbn [List.length]; lia|].
      intros [|k] r X; simpl in X.
      * inv_ok X. exists d, i. rewrite Z.add_0_r. repeat split; auto. now left.
      * destruct (Hnew k r X) as (d' & j & ? & ? & B' & ?).
        exists d', j. repeat split; auto; [now right|].
        replace (n + Z.of_nat (S k))%Z with (n + 1 + Z.of_nat k)%Z by lia. exact B'.
Qed.

Lemma extract_all_answers_inv content records :
  extract_all_answers content = Ok records ->
  forall k r, nth_error records k = Some r ->
    exists d interaction,
      r = VDict d
      /\ build_answer_data (1 + Z.of_nat k) interaction = Ok (Some d)
      /\ kept d = true.
Proof.
  unfold extract_all_answers. intros H. do 5 inv_bind H. inv_ok H.
  destruct x3 as [answers n]. apply main_loop_inv in E3.
  destruct E3 as (new & -> & _ & Hnew). simpl.
  intros k r X. destruct (Hnew k r X) as (d & i & ? & _ & ? & ?). eauto.
Qed.

(** *** Multiple choice: which label is the correct answer *)

Lemma chr_label i c : chr (65 + N.of_nat i) = Ok c -> c = label i.
Proof.
  unfold chr, label. destruct (65 + N.of_nat i <=? 1114111)%N; congruence.
Qed.

(** One pass of the loop overwrites [correct_answer] when the entry is
    flagged, and leaves it alone otherwise. *)
Lemma multiple_choice_step_correct_answer options ca i answer options' ca' :
  multiple_choice_step (options, ca) i answer = Ok (options', ca') ->
  ca' = if flagged answer then VStr (label i) else ca.
Proof.
  unfold multiple_choice_step, flagged. intros H.
  do 4 inv_bind H. rewrite E1.
  destruct (truthy x1).
  - inv_bind H. inv_ok H. now rewrite (chr_label _ _ E3).
  - now inv_ok H.
Qed.

Lemma multiple_choice_loop entries :
  forall i0 options ca options' ca',
    for_enumerate multiple_choice_step i0 (options, ca) entries = Ok (options', ca') ->
    ((forall e, In e entries -> flagged e = false) -> ca' = ca)
    /\ (forall k e,
          nth_error entries k = Some e -> flagged e = true ->
          (forall j e', k < j -> nth_error entries j = Some e' -> flagged e' = false) ->
          ca' = VStr (label (i0 + k))).
Proof.
  induction entries as [|x l IH]; intros i0 options ca options' ca' H; simpl in H.
  - inv_ok H. split; [reflexivity|]. intros [|k] e X; discriminate.
  - split_bind H as st1 Estep. destruct st1 as [options1 ca1].
    apply multiple_choice_step_correct_answer in Estep. rename Estep into E.
    destruct (IH _ _ _ _ _ H) as [None_later Last_later].
    split.
    + intros U. rewrite (U x) in E by now left. subst ca1.
      apply None_later. intros e He. apply U. now right.
    + intros [|k] e X F Later; simpl in X.
      * injection X as <-. rewrite F in E. subst ca1. rewrite Nat.add_0_r.
        apply None_later. intros e' He'.
        destruct (In_nth_error _ _ He') as [j Hj].
        apply (Later (S j) e'); [lia|exact Hj].
      * replace (i0 + S k) with (S i0 + k) by lia.
        apply (Last_later k e X F).
        intros j e' Lt Hj. apply (Later (S j) e'); [lia|exact Hj].
Qed.

(** C1, as the code has it: the [correct_answer] of a Multiple Choice
    extraction is the capital-letter label of the LAST entry of [answers]
    whose [correct] field is true in a condition, and [None] when no entry is
    flagged; with a single flagged entry it is the label of that entry. *)
Theorem multiple_choice_correct_answer_is_last_flagged params d entries :
  _extract_multiple_choice_answers params = Ok d ->
  (a <- get params (lit "answers") (VList []) ;; iterate a) = Ok entries ->
  (forall i e,
      nth_error entries i = Some e -> flagged e = true ->
      (forall j e', i < j -> nth_error entries j = Some e' -> flagged e' = false) ->
      lookup (lit "correct_answer") d = Some (VStr (label i)))
  /\ ((forall e, In e entries -> flagged e = false) ->
      lookup (lit "correct_answer") d = Some VNone).
Proof.
  unfold _extract_multiple_choice_answers. intros H A.
  do 5 inv_bind H. destruct x3 as [options ca]. inv_ok H.
  rewrite E1 in A. simpl in A. rewrite E2 in A. inv_ok A.
  destruct (multiple_choice_loop _ _ _ _ _ _ E3) as [None_flagged Last_flagged].
  split.
  - intros i e X F Later. rewrite (Last_flagged i e X F Later). reflexivity.
  - intros U. rewrite (None_flagged U). reflexivity.
Qed.

(** *** Numbering of the records *)

Lemma question_numbers_from new :
  forall n,
    (forall k r, nth_error new k = Some r ->
       exists d, r = VDict d /\ lookup (lit "question_number") d = Some (VInt (n + Z.of_nat k))) ->
    question_numbers new = map (fun k => VInt (n + Z.of_nat k)) (seq 0 (List.length new)).
Proof.
  induction new as [|r new IH]; intros n H; [reflexivity|].
  cbn [question_numbers map List.length seq]. f_equal.
  - destruct (H 0 r eq_refl) as (d & -> & L). unfold field. rewrite L.
    now rewrite Z.add_0_r.
  - rewrite <- seq_shift, map_map. fold (question_numbers new).
    rewrite (IH (n + 1)%Z).
    + apply map_ext. intros k. f_equal. lia.
    + intros k r' X. destruct (H (S k) r' X) as (d & -> & L).
      exists d. split; [reflexivity|]. rewrite L. f_equal. f_equal. lia.
Qed.

Lemma get_deterministic (v : value) k default a b : get v k default = Ok a -> get v k default = Ok b -> a = b.
Proof.
  congruence.
Qed.

(** An [answer_data] that fails both halves of the condition is dropped. *)
Lemma kept_false d :
  truthy (field d (lit "question")) = false ->
  (forall t, In t [lit "Drag and Drop"; lit "Fill in the Blanks"; lit "True/False"; lit "Drag Text"] ->
             eq_str (field d (lit "type")) t = false) ->
  kept d = false.
Proof.
  intros Q T. unfold kept. rewrite Q. cbn [orb existsb].
  rewrite !T; [reflexivity| | | |]; simpl; tauto.
Qed.

(** C2: the question numbers of the records of a document are 1, 2, 3, ...
    in the order of emission; an iteration either leaves the list and
    the counter as they were or appends one record that carries the counter
    and adds one to it; the image branch, which an identifier with Image
    and none of the four substrings tested before it reaches, and an
    [answer_data] with neither a question text nor one of the four types kept
    without it leave them as they were. *)
Theorem question_numbers_are_dense :
  (forall content records,
      extract_all_answers content = Ok records ->
      question_numbers records = map (fun k => VInt (Z.of_nat k)) (seq 1 (List.length records)))
  /\ (forall answers n interaction answers' n',
        interaction_step (answers, n) interaction = Ok (answers', n') ->
        (answers' = answers /\ n' = n)
        \/ (exists d, answers' = answers ++ [VDict d]
              /\ field d (lit "question_number") = VInt n /\ n' = (n + 1)%Z))
  /\ (forall st interaction action library st',
        get interaction (lit "action") (VDict []) = Ok action ->
        get action (lit "library") (VStr []) = Ok library ->
        dispatch library = Ok Image ->
        interaction_step st interaction = Ok st' -> st' = st)
  /\ (forall library : str,
        substring_in (lit "Image") library = true ->
        substring_in (lit "MultiChoice") library = false ->
        substring_in (lit "DragQuestion") library = false ->
        substring_in (lit "TrueFalse") library = false ->
        substring_in (lit "Blanks") library = false ->
        dispatch (VStr library) = Ok Image)
  /\ (forall answers n interaction d,
        build_answer_data n interaction = Ok (Some d) ->
        truthy (field d (lit "question")) = false ->
        (forall t, In t [lit "Drag and Drop"; lit "Fill in the Blanks"; lit "True/False";
                         lit "Drag Text"] -> eq_str (field d (lit "type")) t = false) ->
        interaction_step (answers, n) interaction = Ok (answers, n)).
Proof.
  repeat apply conj.
  - intros content records H.
    pose proof (extract_all_answers_inv _ _ H) as Inv.
    rewrite (question_numbers_from records 1).
    + rewrite <- seq_shift, map_map. apply map_ext. intros k. f_equal. lia.
    + intros k r X. destruct (Inv k r X) as (d & i & -> & B & _).
      exists d. split; [reflexivity|].
      apply build_answer_data_inv in B.
      destruct B as (? & ? & ? & ? & ? & _ & _ & _ & _ & _ & Q & _). exact Q.
  - intros answers n interaction answers' n' H.
    apply interaction_step_inv in H.
    destruct H as [(-> & -> & _)|(d & B & _ & -> & ->)]; [now left|right].
    exists d. repeat split.
    apply build_answer_data_inv in B.
    destruct B as (? & ? & ? & ? & ? & _ & _ & _ & _ & _ & Q & _).
    unfold field. now rewrite Q.
  - intros [answers n] interaction action library [answers' n'] A L D H.
    apply interaction_step_inv in H.
    destruct H as [(-> & -> & _)|(d & B & _)]; [reflexivity|exfalso].
    apply build_answer_data_inv in B.
    destruct B as (action' & library' & ? & ? & k & A' & L' & _ & _ & D' & _ & _ & _ & _ & K).
    rewrite (get_deterministic _ _ _ _ _ A' A) in L'.
    rewrite (get_deterministic _ _ _ _ _ L' L) in D'.
    rewrite D in D'. inv_ok D'. exact K.
  - intros library I M Q T B. unfold dispatch, contains. cbn [bind].
    rewrite M. cbn [bind]. rewrite Q. cbn [bind]. rewrite T. cbn [bind]. rewrite B. cbn [bind].
    rewrite I. reflexivity.
  - intros answers n interaction d B Q T.
    unfold interaction_step. rewrite B. cbn [bind].
    now rewrite (kept_false d Q T).
Qed.

(** *** The order of the tests on the library identifier *)

(** C3: on a library identifier that is a string the six substrings are
    tested in the order MultiChoice, DragQuestion, TrueFalse, Blanks, Image,
    DragText, and the first that occurs decides; an identifier with both
    MultiChoice and DragText in it is dispatched to Multiple Choice, and the
    record built for it has that type. *)
Theorem dispatch_first_match_wins :
  (forall library : str,
      dispatch (VStr library) =
      Ok (if substring_in (lit "MultiChoice") library then MultipleChoice
          else if substring_in (lit "DragQuestion") library then DragAndDrop
          else if substring_in (lit "TrueFalse") library then TrueFalse
          else if substring_in (lit "Blanks") library then FillInTheBlanks
          else if substring_in (lit "Image") library then Image
          else if substring_in (lit "DragText") library then DragText
          else Other))
  /\ (forall library : str,
        substring_in (lit "MultiChoice") library = true ->
        substring_in (lit "DragText") library = true ->
        dispatch (VStr library) = Ok MultipleChoice)
  /\ (forall n interaction action (library : str) d,
        get interaction (lit "action") (VDict []) = Ok action ->
        get action (lit "library") (VStr []) = Ok (VStr library) ->
        substring_in (lit "MultiChoice") library = true ->
        substring_in (lit "DragText") library = true ->
        build_answer_data n interaction = Ok (Some d) ->
        field d (lit "type") = VStr (lit "Multiple Choice")).
Proof.
  assert (First : forall library : str,
      dispatch (VStr library) =
      Ok (if substring_in (lit "MultiChoice") library then MultipleChoice
          else if substring_in (lit "DragQuestion") library then DragAndDrop
          else if substring_in (lit "TrueFalse") library then TrueFalse
          else if substring_in (lit "Blanks") library then FillInTheBlanks
          else if substring_in (lit "Image") library then Image
          else if substring_in (lit "DragText") library then DragText
          else Other)).
  { intros library. unfold dispatch, contains. cbn [bind].
    repeat match goal with
           | |- context [substring_in ?p library] => destruct (substring_in p library); cbn [bind]
           end; reflexivity. }
  repeat apply conj.
  - exact First.
  - intros library M _. rewrite First, M. reflexivity.
  - intros n interaction action library d A L M _ B.
    apply build_answer_data_inv in B.
    destruct B as (action' & library' & ? & ? & k & A' & L' & _ & _ & D' & _ & _ & _ & T & _).
    rewrite (get_deterministic _ _ _ _ _ A' A) in L'.
    rewrite (get_deterministic _ _ _ _ _ L' L) in D'.
    rewrite First, M in D'. inv_ok D'. unfold field. rewrite T. reflexivity.
Qed.

(** *** The text normalizer *)

(** C4, as the code has it: the normalized text of a string holds no complete
    tag (between a ['<'] and a later ['>'] there is nothing or another
    ['>']; a ['<'] or ['>'] that is part of no tag stays), no two whitespace
    characters in a row, and no whitespace at either end; the empty string
    and [None] give the empty string. *)
Theorem clean_html_text_normal_form :
  (forall s : str,
      exists out,
        _clean_html_text (VStr s) = Ok out
        /\ (forall pre x post, out = pre ++ 60%N :: x ++ 62%N :: post -> x = [] \/ In 62%N x)
        /\ (forall pre a b post,
              out = pre ++ a :: b :: post -> isspace a = true -> isspace b = false)
        /\ (forall c r, out = c :: r -> isspace c = false)
        /\ (forall r c, out = r ++ [c] -> isspace c = false))
  /\ _clean_html_text (VStr []) = Ok []
  /\ _clean_html_text VNone = Ok [].
Proof.
  repeat apply conj; try reflexivity.
  intros s. exists (clean_str s). repeat apply conj.
  - apply clean_html_text_str.
  - intros pre x post. apply tag_free_elim. apply tag_free_clean_str.
  - intros pre a b post. apply single_spaced_elim. apply single_spaced_clean_str.
  - intros c r E. pose proof (strip_starts_solid
      (re_sub spaces_pattern (lit " ")
         (re_sub entity_pattern [] (re_sub nbsp_pattern (lit " ") (re_sub tag_pattern [] s))))) as H.
    fold (clean_str s) in H. rewrite E in H. exact H.
  - intros r c E. unfold clean_str in E. apply strip_ends_solid in E. exact E.
Qed.

(** *** The subcontent id *)

(** C6, as the code has it: the [subcontent_id] of the record built for an
    interaction is the [subContentId] of its [action] object, and the empty
    string when [action] has none; a [subContentId] beside [action] is not
    read. *)
Theorem subcontent_id_is_read_from_action n interaction d :
  build_answer_data n interaction = Ok (Some d) ->
  exists action,
    get interaction (lit "action") (VDict []) = Ok action
    /\ get action (lit "subContentId") (VStr []) = Ok (field d (lit "subcontent_id"))
    /\ (forall a, action = VDict a -> lookup (lit "subContentId") a = None ->
                  field d (lit "subcontent_id") = VStr []).
Proof.
  intros B. apply build_answer_data_inv in B.
  destruct B as (action & ? & ? & sub & ? & A & _ & _ & S & _ & _ & _ & Q & _).
  exists action. unfold field. rewrite Q. repeat split; auto.
  intros a -> N. simpl in S. rewrite N in S. congruence.
Qed.

(** *** The catch-all branch *)

Lemma other_is_not_kept d :
  lookup (lit "question") d = None ->
  lookup (lit "type") d = Some (VStr (lit "Other")) ->
  kept d = false.
Proof.
  intros Q T. unfold kept, field. rewrite Q, T. reflexivity.
Qed.

(** C9: a library identifier with none of the six substrings goes to the
    last branch; an interaction of that branch leaves the list of records and
    the counter as they were; no record of a document has the type Other. *)
Theorem other_branch_emits_nothing :
  (forall library : str,
      substring_in (lit "MultiChoice") library = false ->
      substring_in (lit "DragQuestion") library = false ->
      substring_in (lit "TrueFalse") library = false ->
      substring_in (lit "Blanks") library = false ->
      substring_in (lit "Image") library = false ->
      substring_in (lit "DragText") library = false ->
      dispatch (VStr library) = Ok Other)
  /\ (forall st interaction action library st',
        get interaction (lit "action") (VDict []) = Ok action ->
        get action (lit "library") (VStr []) = Ok library ->
        dispatch library = Ok Other ->
        interaction_step st interaction = Ok st' -> st' = st)
  /\ (forall content records r,
        extract_all_answers content = Ok records ->
        In r records ->
        exists d, r = VDict d /\ field d (lit "type") <> VStr (lit "Other")).
Proof.
  repeat apply conj.
  - intros library H1 H2 H3 H4 H5 H6.
    unfold dispatch, contains. cbn [bind]. rewrite H1. cbn [bind]. rewrite H2. cbn [bind].
    rewrite H3. cbn [bind]. rewrite H4. cbn [bind]. rewrite H5. cbn [bind]. rewrite H6.
    reflexivity.
  - intros [answers n] interaction action library [answers' n'] A L D H.
    apply interaction_step_inv in H.
    destruct H as [(-> & -> & _)|(d & B & K & _)]; [reflexivity|exfalso].
    apply build_answer_data_inv in B.
    destruct B as (action' & library' & ? & ? & k & A' & L' & _ & _ & D' & _ & _ & _ & T & Q).
    rewrite (get_deterministic _ _ _ _ _ A' A) in L'.
    rewrite (get_deterministic _ _ _ _ _ L' L) in D'.
    rewrite D in D'. inv_ok D'.
    rewrite (other_is_not_kept d Q T) in K. discriminate.
  - intros content records r H I.
    destruct (In_nth_error _ _ I) as [j X].
    destruct (extract_all_answers_inv _ _ H j r X) as (d & i & -> & B & K).
    exists d. split; [reflexivity|].
    apply build_answer_data_inv in B.
    destruct B as (? & ? & ? & ? & k & _ & _ & _ & _ & _ & _ & _ & _ & T & Q).
    unfold field. rewrite T.
    destruct k; try (vm_compute; discriminate).
    rewrite (other_is_not_kept d Q T) in K. discriminate.
Qed.

(** *** True/False *)

Lemma capitalize_nil : capitalize [] = [].
Proof.
  reflexivity.
Qed.

(** C10: the record of a True/False interaction is always kept, and its
    [correct_answer] is the empty string when [params] has no [correct],
    [True] or [False] for a boolean, and the capitalized [str] of any other
    value. *)
Theorem true_false_correct_answer n interaction action library params d :
  get interaction (lit "action") (VDict []) = Ok action ->
  get action (lit "library") (VStr []) = Ok library ->
  get action (lit "params") (VDict []) = Ok params ->
  dispatch library = Ok TrueFalse ->
  build_answer_data n interaction = Ok (Some d) ->
  kept d = true
  /\ exists p,
       params = VDict p
       /\ field d (lit "correct_answer") =
          VStr match lookup (lit "correct") p with
               | None => []
               | Some (VBool true) => lit "True"
               | Some (VBool false) => lit "False"
               | Some v => capitalize (py_str v)
               end.
Proof.
  intros A L P D B.
  apply build_answer_data_inv in B.
  destruct B as (action' & library' & params' & ? & k & A' & L' & P' & _ & D' & _ & _ & _ & T & Q).
  rewrite (get_deterministic _ _ _ _ _ A' A) in L', P'.
  rewrite (get_deterministic _ _ _ _ _ L' L) in D'.
  rewrite (get_deterministic _ _ _ _ _ P' P) in Q.
  rewrite D in D'. inv_ok D'.
  destruct Q as (e & TF & _ & C).
  split.
  - unfold kept, field. rewrite T. apply orb_true_r.
  - unfold _extract_true_false_answers in TF.
    destruct params as [| | | | |?|p]; try discriminate.
    exists p. split; [reflexivity|].
    inv_bind TF. inv_bind TF. inv_bind TF. inv_ok TF.
    unfold field. rewrite C. cbn [get] in E1. inv_ok E1.
    destruct (lookup (lit "correct") p) as [[| [|] | | | | |]|]; reflexivity.
Qed.

(** *** Answers between stars *)


Lemma until_star_group s :
  forall n g, until_star s = Some (n, g) -> ~ In 42%N g /\ ~ In 10%N g.
Proof.
  induction s as [|c r IH]; intros n g H; simpl in H; [discriminate|].
  destruct (N.eqb_spec c 42) as [E|S].
  - inv_ok H. simpl. tauto.
  - destruct (N.eqb_spec c 10) as [E|NL]; [discriminate|].
    destruct (until_star r) as [[m h]|]; [|discriminate].
    inv_ok H. destruct (IH m h eq_refl) as [A B].
    split; intros [X|X]; auto.
Qed.

Lemma skipn_past {A} (a : list A) x post : skipn (S (List.length a)) (a ++ x :: post) = post.
Proof.
  induction a as [|c a IH]; [reflexivity|exact IH].
Qed.


Lemma findall_star_groups s :
  forall k a, In a (findall_from star_pattern k s) -> ~ In 42%N a /\ ~ In 10%N a.
Proof.
  induction s as [|c r IH]; intros k a H; cbn [findall_from] in H; [destruct H|].
  destruct k as [|k]; [|now apply (IH k)].
  destruct (star_pattern (c :: r)) as [[[|n] g]|] eqn:M; try now apply (IH 0).
  destruct H as [<-|H]; [|now apply (IH n)].
  unfold star_pattern in M. destruct (c =? 42)%N; [|discriminate].
  destruct (until_star r) as [[m h]|] eqn:U; [|discriminate].
  inv_ok M. exact (until_star_group r m g U).
Qed.


Lemma clean_each l :
  forall acc,
    for_each (fun acc ans => c <- _clean_html_text (VStr ans) ;; Ok (acc ++ [c])) acc l
    = Ok (acc ++ map clean_str l).
Proof.
  induction l as [|a l IH]; intros acc; cbn [for_each map].
  - now rewrite app_nil_r.
  - rewrite clean_html_text_str. cbn [bind]. rewrite IH. now rewrite <- app_assoc.
Qed.


(** *** Drag and Drop: the entries of [correctElements] *)

(** What the inner loop does with one entry, by the value [int] gives it. *)
Lemma match_step_cases drag_items idx correct_matches element_idx :
  let n := Z.of_nat (List.length drag_items) in
  (py_int element_idx = Raise ValueError ->
   match_step drag_items idx correct_matches element_idx = Ok correct_matches)
  /\ (py_int element_idx = Raise TypeError ->
      match_step drag_items idx correct_matches element_idx = Raise TypeError)
  /\ (forall i, py_int element_idx = Ok i -> (n <= i)%Z ->
        match_step drag_items idx correct_matches element_idx = Ok correct_matches)
  /\ (forall i, py_int element_idx = Ok i -> (i < - n)%Z ->
        match_step drag_items idx correct_matches element_idx = Ok correct_matches)
  /\ (forall i, py_int element_idx = Ok i -> (0 <= i < n)%Z ->
        exists text,
          nth_error drag_items (Z.to_nat i) = Some text
          /\ match_step drag_items idx correct_matches element_idx
             = Ok (add_match correct_matches text idx))
  /\ (forall i, py_int element_idx = Ok i -> (- n <= i < 0)%Z ->
        exists text,
          nth_error drag_items (Z.to_nat (i + n)) = Some text
          /\ match_step drag_items idx correct_matches element_idx
             = Ok (add_match correct_matches text idx)).
Proof.
  intros n. unfold match_step, try_match. fold n.
  repeat apply conj.
  - intros ->. reflexivity.
  - intros ->. reflexivity.
  - intros i -> H. cbn [bind]. destruct (Z.ltb_spec i n); [lia|reflexivity].
  - intros i -> H. cbn [bind]. destruct (Z.ltb_spec i n); [|reflexivity].
    unfold index. fold n. destruct (Z.ltb_spec i 0); [|lia].
    destruct (Z.leb_spec 0 (i + n)); [lia|]. reflexivity.
  - intros i -> H. cbn [bind]. destruct (Z.ltb_spec i n); [|lia].
    unfold index. fold n. destruct (Z.ltb_spec i 0); [lia|].
    destruct (Z.leb_spec 0 i); [|lia]. destruct (Z.ltb_spec i n); [|lia]. cbn [andb].
    destruct (nth_error drag_items (Z.to_nat i)) as [text|] eqn:E.
    + exists text. split; reflexivity.
    + apply nth_error_None in E. lia.
  - intros i -> H. cbn [bind]. destruct (Z.ltb_spec i n); [|lia].
    unfold index. fold n. destruct (Z.ltb_spec i 0); [|lia].
    destruct (Z.leb_spec 0 (i + n)); [|lia]. destruct (Z.ltb_spec (i + n) n); [|lia]. cbn [andb].
    destruct (nth_error drag_items (Z.to_nat (i + n))) as [text|] eqn:E.
    + exists text. split; reflexivity.
    + apply nth_error_None in E. lia.
Qed.

(** C5, where the code leaves the claim: an entry [-1], which is no position
    of the two items, is not ignored but matched with the last item; an entry
    [null], which no integer can be read from, is not ignored but ends the
    extraction with a [TypeError].  Entries past the end are ignored, and [1],
    as a number or as text, is matched with Berlin. *)
Theorem drag_drop_entries_outside_the_claim :
  _extract_drag_drop_answers (paris_berlin [VInt (-1)])
  = Ok [(lit "type", VStr (lit "Drag and Drop"));
        (lit "drag_items", VList [VStr (lit "Paris"); VStr (lit "Berlin")]);
        (lit "drop_areas", VList [VStr (lit "Capital of Germany")]);
        (lit "correct_matches", VDict [(lit "Berlin", VList [VInt 0])])]
  /\ _extract_drag_drop_answers (paris_berlin [VNone]) = Raise TypeError
  /\ _extract_drag_drop_answers (paris_berlin [VInt 2; VInt 1; VStr (lit "1"); VInt 7])
     = Ok [(lit "type", VStr (lit "Drag and Drop"));
           (lit "drag_items", VList [VStr (lit "Paris"); VStr (lit "Berlin")]);
           (lit "drop_areas", VList [VStr (lit "Capital of Germany")]);
           (lit "correct_matches", VDict [(lit "Berlin", VList [VInt 0; VInt 0])])].
Proof.
  repeat apply conj; vm_compute; reflexivity.
Qed.

(** *** The path of the report *)

Lemma lower_nil : lower [] = [].
Proof.
  reflexivity.
Qed.

(** C7, where the code leaves the claim: [quiz.zip] is unpacked as an
    archive, and its report still goes to [extracted_answers.txt].  An input
    whose lower-cased path ends in [.h5p] gives the report the name of the
    archive, and any other input, archive or not, [extracted_answers.txt]. *)
Theorem zip_archive_report_is_not_named_after_it (cwd : str) :
  is_archive (lit "quiz.zip") = true
  /\ extract_answers_report cwd (lit "quiz.zip") = path_join cwd (lit "extracted_answers.txt")
  /\ extract_answers_report cwd (lit "quiz.h5p") = path_join cwd (lit "quiz_answer.txt")
  /\ extract_answers_report cwd (lit "content.json") = path_join cwd (lit "extracted_answers.txt")
  /\ (forall file_path,
        endswith (lit ".h5p") (lower file_path) = true ->
        extract_answers_report cwd file_path
        = path_join cwd (splitext_root (basename file_path) ++ lit "_answer.txt"))
  /\ (forall file_path,
        endswith (lit ".h5p") (lower file_path) = false ->
        extract_answers_report cwd file_path = path_join cwd (lit "extracted_answers.txt")).
Proof.
  repeat apply conj; try reflexivity.
  - intros file_path H. unfold extract_answers_report, report_path. rewrite H.
    destruct file_path; [discriminate|reflexivity].
  - intros file_path H. unfold extract_answers_report, report_path. rewrite H.
    now rewrite andb_false_r.
Qed.

(** *** The leading comment line *)

Lemma split_on_cons sep s : exists line lines, split_on sep s = line :: lines.
Proof.
  destruct s as [|c r]; simpl; [eauto|].
  destruct (c =? sep)%N; [eauto|]. destruct (split_on sep r); eauto.
Qed.

Lemma join_cons_head sep c line lines :
  join sep ((c :: line) :: lines) = c :: join sep (line :: lines).
Proof.
  destruct lines; reflexivity.
Qed.

(** Joining what [split] gives back the text. *)
Lemma join_split_on sep s : join [sep] (split_on sep s) = s.
Proof.
  induction s as [|c r IH]; [reflexivity|].
  destruct (split_on_cons sep r) as (line & lines & E).
  cbn [split_on]. rewrite E in *.
  destruct (N.eqb_spec c sep) as [->|_].
  - change (join [sep] ([] :: line :: lines))
      with ([] ++ [sep] ++ join [sep] (line :: lines)).
    cbn [app]. f_equal. exact IH.
  - rewrite join_cons_head. f_equal. exact IH.
Qed.

Lemma split_on_head sep s line lines : split_on sep s = line :: lines -> ~ In sep line.
Proof.
  revert line lines. induction s as [|c r IH]; intros line lines H; cbn [split_on] in H.
  - inv_ok H. simpl. tauto.
  - destruct (N.eqb_spec c sep) as [->|N].
    + inv_ok H. simpl. tauto.
    + destruct (split_on_cons sep r) as (l & ls & E). rewrite E in H.
      injection H as <- <-.
      intros [X|X]; [congruence|]. exact (IH l ls E X).
Qed.

(** X1: [_load_content] leaves a text that does not start with two slashes
    as it is; from one that does it drops the first line and its newline and
    nothing else, and a text of that one line alone becomes empty. *)
Theorem strip_leading_comment_drops_first_line (content : str) :
  (startswith (lit "//") content = false -> strip_leading_comment content = content)
  /\ (startswith (lit "//") content = true ->
      exists first,
        ~ In 10%N first
        /\ startswith (lit "//") first = true
        /\ ((content = first /\ strip_leading_comment content = [])
            \/ content = first ++ 10%N :: strip_leading_comment content)).
Proof.
  unfold strip_leading_comment. split; intros H; rewrite H; [reflexivity|].
  destruct (split_on_cons 10%N content) as (first & lines & E).
  pose proof (split_on_head _ _ _ _ E) as NL.
  pose proof (join_split_on 10%N content) as J. rewrite E in J.
  rewrite E. cbn [tl]. exists first. split; [exact NL|].
  destruct lines as [|l ls].
  - cbn [join] in J. subst first. split; [exact H|]. left. split; reflexivity.
  - change (join [10%N] (first :: l :: ls)) with (first ++ [10%N] ++ join [10%N] (l :: ls)) in J.
    split; [|right; now rewrite <- J].
    rewrite <- J in H. destruct first as [|a [|b first]]; try discriminate H; exact H.
Qed.

(** *** The path typed at the prompt *)

Lemma strip_between q p :
  isspace q = false -> strip (q :: p ++ [q]) = q :: p ++ [q].
Proof.
  intros Q. unfold strip, lstrip, rstrip. cbn [dropwhile]. rewrite Q.
  assert (R : rev (q :: p ++ [q]) = q :: rev p ++ [q]).
  { cbn [rev]. rewrite rev_app_distr. reflexivity. }
  rewrite R. cbn [dropwhile]. rewrite Q. cbn [rev].
  rewrite rev_app_distr, rev_involutive. reflexivity.
Qed.

(** X2: a path given on the command line is taken as it is, also when it
    is empty, and nothing is asked; a path typed between a pair of double or
    of single quotes loses that pair and nothing else; an empty answer, or a
    pair of quotes with nothing between, stands for [content.json], so that
    without an argument on the command line the path is never empty. *)
Theorem chosen_file_path_unquotes :
  (forall prog path rest typed, chosen_file_path (prog :: path :: rest) typed = path)
  /\ (forall prog c p,
        chosen_file_path [prog] (34%N :: (c :: p) ++ [34%N]) = c :: p
        /\ chosen_file_path [prog] (39%N :: (c :: p) ++ [39%N]) = c :: p)
  /\ (forall prog,
        chosen_file_path [prog] [] = lit "content.json"
        /\ chosen_file_path [prog] [34%N; 34%N] = lit "content.json"
        /\ chosen_file_path [prog] [34%N] = lit "content.json")
  /\ (forall argv typed, List.length argv <= 1 -> chosen_file_path argv typed <> [])
  /\ (forall prog rest typed, chosen_file_path (prog :: [] :: rest) typed = []).
Proof.
  repeat apply conj; try reflexivity.
  - intros prog c p. unfold chosen_file_path. cbn [List.length Nat.ltb Nat.leb].
    rewrite !strip_between by reflexivity.
    assert (E : forall q, endswith [q] (q :: (c :: p) ++ [q]) = true).
    { intros q. unfold endswith. change (q :: (c :: p) ++ [q]) with ((q :: c :: p) ++ [q]).
      rewrite rev_app_distr. cbn [rev app startswith]. now rewrite N.eqb_refl. }
    cbn [startswith]. rewrite !E. cbn [N.eqb Pos.eqb andb].
    unfold slice_1_m1. cbn [tl].
    change (c :: p ++ [34%N]) with ((c :: p) ++ [34%N]).
    change (c :: p ++ [39%N]) with ((c :: p) ++ [39%N]).
    rewrite !removelast_last. split; reflexivity.
  - intros prog. repeat split; vm_compute; reflexivity.
  - intros argv typed L. unfold chosen_file_path.
    destruct (Nat.ltb_spec 1 (List.length argv)) as [Lt|_]; [lia|].
    match goal with
    | |- context [match ?u with [] => _ | _ :: _ => _ end] => destruct u eqn:U
    end; [vm_compute|]; discriminate.
Qed.

(** *** What the normalizer keeps *)

Lemma length_sub_from m repl s :
  List.length repl <= 1 -> forall k, List.length (sub_from m repl k s) <= List.length s.
Proof.
  intros R. induction s as [|c r IH]; intros k; cbn [sub_from List.length]; [lia|].
  destruct k as [|k].
  - destruct (m (c :: r)) as [[|n]|]; cbn [List.length].
    + specialize (IH 0). lia.
    + rewrite length_app. specialize (IH n). lia.
    + specialize (IH 0). lia.
  - specialize (IH k). lia.
Qed.

Lemma strip_affixes s : exists v w, s = v ++ strip s ++ w.
Proof.
  unfold strip. destruct (dropwhile_suffix isspace s) as [v E].
  destruct (rstrip_prefix (lstrip s)) as [w E'].
  exists v, w. unfold lstrip in *. rewrite <- E'. exact E.
Qed.

(** X3: the normalized text is never longer than the text, and each of its
    characters is a character of the text or the space that stands for
    [&nbsp;] or for a run of whitespace. *)
Theorem clean_str_never_grows (s : str) :
  List.length (clean_str s) <= List.length s
  /\ forall c, In c (clean_str s) -> c = 32%N \/ In c s.
Proof.
  unfold clean_str, re_sub.
  set (t1 := sub_from tag_pattern [] 0 s).
  set (t2 := sub_from nbsp_pattern (lit " ") 0 t1).
  set (t3 := sub_from entity_pattern [] 0 t2).
  set (t4 := sub_from spaces_pattern (lit " ") 0 t3).
  destruct (strip_affixes t4) as (v & w & E).
  split.
  - assert (L1 : List.length t1 <= List.length s) by (apply length_sub_from; simpl; lia).
    assert (L2 : List.length t2 <= List.length t1) by (apply length_sub_from; simpl; lia).
    assert (L3 : List.length t3 <= List.length t2) by (apply length_sub_from; simpl; lia).
    assert (L4 : List.length t4 <= List.length t3) by (apply length_sub_from; simpl; lia).
    assert (L5 : List.length (strip t4) <= List.length t4).
    { rewrite E at 2. rewrite !length_app. lia. }
    lia.
  - intros c H.
    assert (H4 : In c t4).
    { rewrite E. apply in_or_app. right. apply in_or_app. now left. }
    apply in_sub_from in H4. destruct H4 as [H3|[<-|[]]]; [|now left].
    apply in_sub_from in H3. destruct H3 as [H2|[]].
    apply in_sub_from in H2. destruct H2 as [H1|[<-|[]]]; [|now left].
    apply in_sub_from in H1. destruct H1 as [H0|[]]. now right.
Qed.

Lemma sub_from_no_match m repl s :
  (forall pre t, s = pre ++ t -> m t = None) -> sub_from m repl 0 s = s.
Proof.
  induction s as [|c r IH]; intros H; [reflexivity|]. cbn [sub_from].
  rewrite (H [] (c :: r) eq_refl). f_equal. apply IH.
  intros pre t ->. apply (H (c :: pre)). reflexivity.
Qed.

Lemma sub_from_head_absent m repl a s :
  (forall c r, c <> a -> m (c :: r) = None) -> m [] = None ->
  ~ In a s -> sub_from m repl 0 s = s.
Proof.
  intros Hm Hnil N. apply sub_from_no_match. intros pre t ->.
  destruct t as [|c r]; [exact Hnil|]. apply Hm. intros ->.
  apply N. apply in_or_app. right. now left.
Qed.

Lemma nbsp_pattern_head c r : c <> 38%N -> nbsp_pattern (c :: r) = None.
Proof.
  intros H. unfold nbsp_pattern. cbn [lit list_ascii_of_string map startswith].
  change (N_of_ascii "&") with 38%N.
  destruct (N.eqb_spec 38 c) as [E|_]; [congruence|reflexivity].
Qed.

Lemma entity_pattern_head c r : c <> 38%N -> entity_pattern (c :: r) = None.
Proof.
  intros H. unfold entity_pattern.
  destruct (N.eqb_spec c 38) as [E|_]; [congruence|reflexivity].
Qed.

(** Text whose whitespace is single spaces is left alone by the last
    substitution. *)
Lemma collapse_spaces_id s :
  (forall c, In c s -> isspace c = true -> c = 32%N) ->
  single_spaced s -> sub_from spaces_pattern (lit " ") 0 s = s.
Proof.
  induction s as [|c r IH]; intros W S; [reflexivity|].
  cbn [sub_from]. rewrite spaces_pattern_cons. destruct S as [S1 S2].
  assert (IH' : sub_from spaces_pattern (lit " ") 0 r = r).
  { apply IH; [|exact S2]. intros d Hd. apply W. now right. }
  destruct (isspace c) eqn:E.
  - rewrite (W c (or_introl eq_refl) E).
    assert (Z : run_length isspace r = 0).
    { specialize (S1 eq_refl). destruct r as [|b r']; [reflexivity|].
      cbn [run_length]. now rewrite S1. }
    rewrite Z. change (lit " ") with [32%N] in *. cbn [app]. now rewrite IH'.
  - now rewrite IH'.
Qed.

Lemma lstrip_id s : starts_solid s -> lstrip s = s.
Proof.
  destruct s as [|c r]; [reflexivity|]. unfold starts_solid, lstrip. cbn [dropwhile].
  intros ->. reflexivity.
Qed.

Lemma rstrip_id s : starts_solid (rev s) -> rstrip s = s.
Proof.
  intros H. unfold rstrip. fold (lstrip (rev s)). rewrite (lstrip_id _ H).
  apply rev_involutive.
Qed.

(** X4: plain text comes back as it is: a text without ['<'] and ['&'],
    whose only whitespace is single spaces between words, is its own
    normalization. *)
Theorem clean_str_plain_text (s : str) :
  ~ In 60%N s -> ~ In 38%N s ->
  (forall c, In c s -> isspace c = true -> c = 32%N) ->
  single_spaced s -> starts_solid s -> starts_solid (rev s) ->
  clean_str s = s.
Proof.
  intros Lt Amp W S First Last. unfold clean_str, re_sub.
  rewrite (sub_from_head_absent tag_pattern [] 60%N s); auto using tag_pattern_other.
  rewrite (sub_from_head_absent nbsp_pattern (lit " ") 38%N s); auto using nbsp_pattern_head.
  rewrite (sub_from_head_absent entity_pattern [] 38%N s); auto using entity_pattern_head.
  rewrite (collapse_spaces_id s W S).
  unfold strip. rewrite (lstrip_id s First). apply (rstrip_id s Last).
Qed.

(** *** What the scan for stars finds *)

Lemma until_star_inv r :
  forall n g, until_star r = Some (n, g) -> n = List.length g /\ exists post, r = g ++ 42%N :: post.
Proof.
  induction r as [|c r IH]; intros n g H; cbn [until_star] in H; [discriminate|].
  destruct (N.eqb_spec c 42) as [->|_].
  - inv_ok H. split; [reflexivity|]. now exists r.
  - destruct (c =? 10)%N; [discriminate|].
    destruct (until_star r) as [[m h]|]; [|discriminate]. inv_ok H.
    destruct (IH m h eq_refl) as [-> [post ->]]. split; [reflexivity|]. now exists post.
Qed.

Lemma star_pattern_inv s n g :
  star_pattern s = Some (n, g) ->
  exists post, s = 42%N :: g ++ 42%N :: post /\ n = S (S (List.length g)).
Proof.
  unfold star_pattern. destruct s as [|c r]; [discriminate|].
  destruct (N.eqb_spec c 42) as [->|_]; [|discriminate].
  destruct (until_star r) as [[m h]|] eqn:U; [|discriminate].
  intros H. inv_ok H. destruct (until_star_inv _ _ _ U) as [-> [post ->]]. now exists post.
Qed.

Lemma findall_star_delimited s :
  forall k a,
    In a (findall_from star_pattern k s) ->
    exists pre post, s = pre ++ 42%N :: a ++ 42%N :: post.
Proof.
  induction s as [|c r IH]; intros k a H; cbn [findall_from] in H; [destruct H|].
  assert (Later : forall j, In a (findall_from star_pattern j r) ->
                            exists pre post, c :: r = pre ++ 42%N :: a ++ 42%N :: post).
  { intros j Hj. destruct (IH j a Hj) as (pre & post & ->). now exists (c :: pre), post. }
  destruct k as [|k]; [|now apply (Later k)].
  destruct (star_pattern (c :: r)) as [[[|n] g]|] eqn:M; try now apply (Later 0).
  destruct H as [<-|H]; [|now apply (Later n)].
  destruct (star_pattern_inv _ _ _ M) as (post & E & _). now exists [], post.
Qed.

Lemma count_stars n :
  forall s, List.length s <= n ->
    2 * List.length (findall_from star_pattern 0 s) <= count_occ N.eq_dec s 42%N.
Proof.
  induction n as [|n IH]; intros [|c r] L; cbn [List.length] in L; try lia;
    cbn [findall_from]; try (simpl; lia).
  destruct (star_pattern (c :: r)) as [[[|m] g]|] eqn:M.
  - specialize (IH r ltac:(lia)).
    change (c :: r) with ([c] ++ r). rewrite count_occ_app. unfold char, str in *. lia.
  - destruct (star_pattern_inv _ _ _ M) as (post & E & Em).
    injection E as -> ->. injection Em as ->.
    rewrite findall_from_skipn, skipn_past.
    assert (Lp : List.length post <= n).
    { unfold char, str in *. rewrite length_app in L. cbn [List.length] in L. lia. }
    specialize (IH post Lp). cbn [List.length].
    change (42%N :: g ++ 42%N :: post) with ([42%N] ++ g ++ [42%N] ++ post).
    rewrite !count_occ_app. simpl (count_occ N.eq_dec [42%N] 42%N).
    unfold char, str in *. lia.
  - specialize (IH r ltac:(lia)).
    change (c :: r) with ([c] ++ r). rewrite count_occ_app. unfold char, str in *. lia.
Qed.

(** X5: every answer the scan finds stands in the text between two stars
    and holds neither a star nor a newline; two stars are spent on each
    answer, so a text without stars has no answer. *)
Theorem star_answers_are_delimited (s : str) :
  (forall a, In a (re_findall star_pattern s) ->
     (exists pre post, s = pre ++ 42%N :: a ++ 42%N :: post)
     /\ ~ In 42%N a /\ ~ In 10%N a)
  /\ 2 * List.length (re_findall star_pattern s) <= count_occ N.eq_dec s 42%N
  /\ (~ In 42%N s -> re_findall star_pattern s = []).
Proof.
  unfold re_findall. repeat apply conj.
  - intros a H. split; [exact (findall_star_delimited s 0 a H)|].
    exact (findall_star_groups s 0 a H).
  - apply (count_stars (List.length s)). lia.
  - intros N. pose proof (count_stars (List.length s) s (Nat.le_refl _)) as C.
    rewrite (proj1 (count_occ_not_In N.eq_dec s 42%N) N) in C.
    destruct (findall_from star_pattern 0 s); [reflexivity|simpl in C; lia].
Qed.

(** *** Multiple choice: the options *)

Lemma multiple_choice_options_loop entries :
  forall i0 options ca options' ca',
    for_enumerate multiple_choice_step i0 (options, ca) entries = Ok (options', ca') ->
    exists new,
      options' = options ++ new
      /\ List.length new = List.length entries
      /\ forall k e,
           nth_error entries k = Some e ->
           exists t c,
             answer_text e = Ok t
             /\ get e (lit "correct") (VBool false) = Ok c
             /\ nth_error new k
                = Some (VDict [(lit "option", VStr (label (i0 + k))); (lit "text", VStr t);
                               (lit "is_correct", c)]).
Proof.
  induction entries as [|x l IH]; intros i0 options ca options' ca' H; cbn [for_enumerate] in H.
  - inv_ok H. exists []. rewrite app_nil_r. repeat split. intros [|k] e X; discriminate.
  - split_bind H as st1 Estep. destruct st1 as [options1 ca1].
    destruct (IH _ _ _ _ _ H) as (new & -> & Len & Nth).
    unfold multiple_choice_step in Estep.
    split_bind Estep as t Et. split_bind Estep as tx Etx. split_bind Estep as c Ec.
    split_bind Estep as o Eo. apply chr_label in Eo. subst o.
    assert (O : options1 = options ++ [VDict [(lit "option", VStr (label i0));
                                              (lit "text", VStr tx); (lit "is_correct", c)]]).
    { destruct (truthy c).
      - split_bind Estep as o' Eo'. now inv_ok Estep.
      - now inv_ok Estep. }
    subst options1. eexists (_ :: new). rewrite <- app_assoc. split; [reflexivity|].
    split; [cbn [List.length]; now rewrite Len|].
    intros [|k] e X; cbn [nth_error] in X.
    + injection X as <-. exists tx, c. unfold answer_text. rewrite Et. cbn [bind].
      rewrite Nat.add_0_r. repeat split; assumption.
    + destruct (Nth k e X) as (t' & c' & T & C & N). exists t', c'.
      replace (i0 + S k) with (S i0 + k) by lia. repeat split; assumption.
Qed.

(** X6: a Multiple Choice extraction gives one option for each entry of
    [answers], in the order of the entries: the option of entry [i] has the
    label [chr(65 + i)], the normalized text of the entry and its [correct]
    field as it stands ([False] when it has none); the question is the
    normalized [question] field. *)
Theorem multiple_choice_options_follow_answers params d entries :
  _extract_multiple_choice_answers params = Ok d ->
  (a <- get params (lit "answers") (VList []) ;; iterate a) = Ok entries ->
  (exists q question,
      get params (lit "question") (VStr []) = Ok q
      /\ _clean_html_text q = Ok question
      /\ lookup (lit "question") d = Some (VStr question))
  /\ exists options,
       lookup (lit "answers") d = Some (VList options)
       /\ List.length options = List.length entries
       /\ forall i e,
            nth_error entries i = Some e ->
            exists t c,
              answer_text e = Ok t
              /\ get e (lit "correct") (VBool false) = Ok c
              /\ nth_error options i
                 = Some (VDict [(lit "option", VStr (label i)); (lit "text", VStr t);
                                (lit "is_correct", c)]).
Proof.
  unfold _extract_multiple_choice_answers. intros H A.
  split_bind H as q Eq. split_bind H as question Equestion.
  split_bind H as a Ea. split_bind H as es Ees. split_bind H as st Est.
  destruct st as [options ca]. inv_ok H.
  rewrite Ea in A. cbn [bind] in A. rewrite Ees in A. inv_ok A.
  split; [exists q, question; repeat split; assumption|].
  destruct (multiple_choice_options_loop _ _ _ _ _ _ Est) as (new & E & Len & Nth).
  cbn [app] in E. subst options. exists new. repeat split; [exact Len|exact Nth].
Qed.

(** *** Drag and Drop: items, areas and matches *)

Lemma str_eqb_eq a : forall b, str_eqb a b = true <-> a = b.
Proof.
  induction a as [|x a IH]; intros [|y b]; simpl; split; intros H;
    try reflexivity; try discriminate.
  - apply andb_true_iff in H. destruct H as [H1 H2].
    apply N.eqb_eq in H1. apply IH in H2. congruence.
  - injection H as -> ->. rewrite N.eqb_refl. now apply IH.
Qed.

Lemma lookup_some_in k x (d : dict) : lookup k d = Some x -> In (k, x) d.
Proof.
  induction d as [|[k' y] d IH]; simpl; [discriminate|].
  destruct (str_eqb k' k) eqn:E.
  - intros H. inv_ok H. apply str_eqb_eq in E. subst. now left.
  - intros H. right. now apply IH.
Qed.

Lemma dict_set_forall (P : str * value -> Prop) k x (d : dict) :
  Forall P d -> P (k, x) -> Forall P (dict_set k x d).
Proof.
  intros F Pk. induction d as [|[k' y] d IH]; cbn [dict_set].
  - now constructor.
  - inversion F as [|? ? Py Fd]; subst. destruct (str_eqb k' k) eqn:E.
    + apply str_eqb_eq in E. subst. now constructor.
    + constructor; [exact Py|now apply IH].
Qed.

Lemma dict_set_keys k x (d : dict) a :
  In a (map fst (dict_set k x d)) -> a = k \/ In a (map fst d).
Proof.
  induction d as [|[k' y] d IH]; cbn [dict_set map fst In].
  - intros [H|[]]. now left.
  - destruct (str_eqb k' k); cbn [map fst In]; [tauto|].
    intros [H|H]; [tauto|]. apply IH in H. tauto.
Qed.

Lemma dict_set_nodup k x (d : dict) : NoDup (map fst d) -> NoDup (map fst (dict_set k x d)).
Proof.
  induction d as [|[k' y] d IH]; cbn [dict_set map fst]; intros N.
  - constructor; [simpl; tauto|constructor].
  - inversion N as [|? ? Nk Nd]; subst. destruct (str_eqb k' k) eqn:E; cbn [map fst].
    + now constructor.
    + constructor; [|now apply IH].
      intros H. apply dict_set_keys in H. destruct H as [->|H]; [|contradiction].
      assert (T : str_eqb k k = true) by now apply str_eqb_eq. congruence.
Qed.

Lemma matches_ok_weaken items b b' cm : b <= b' -> matches_ok items b cm -> matches_ok items b' cm.
Proof.
  intros L [N F]. split; [exact N|].
  eapply Forall_impl; [|exact F]. intros kv [I (zs & E & B)]. split; [exact I|].
  exists zs. split; [exact E|]. eapply Forall_impl; [|exact B]. intros z. cbn beta. lia.
Qed.

Lemma add_match_ok items bound cm text idx :
  matches_ok items bound cm -> In text items -> idx < bound ->
  matches_ok items bound (add_match cm text idx).
Proof.
  intros [N F] I L.
  assert (Fresh : matches_ok items bound (dict_set text (zone_list [idx]) cm)).
  { split; [now apply dict_set_nodup|]. apply dict_set_forall; [exact F|].
    split; [exact I|]. exists [idx]. split; [reflexivity|]. now repeat constructor. }
  unfold add_match. destruct (lookup text cm) as [v|] eqn:E; [|exact Fresh].
  destruct v; try exact Fresh.
  apply lookup_some_in in E. rewrite Forall_forall in F.
  destruct (F _ E) as [_ (zs & Z & B)]. cbn [snd] in Z. unfold zone_list in Z. inv_ok Z.
  split; [now apply dict_set_nodup|]. apply dict_set_forall; [now apply Forall_forall|].
  split; [exact I|]. exists (zs ++ [idx]). split.
  - unfold zone_list. now rewrite map_app.
  - apply Forall_app. split; [exact B|now repeat constructor].
Qed.

Lemma index_in {A} (l : list A) i x : index l i = Ok x -> In x l.
Proof.
  unfold index.
  destruct ((0 <=? (if (i <? 0)%Z then (i + Z.of_nat (List.length l))%Z else i))%Z
            && ((if (i <? 0)%Z then (i + Z.of_nat (List.length l))%Z else i)
                <? Z.of_nat (List.length l))%Z); [|discriminate].
  destruct (nth_error l _) eqn:E; [|discriminate].
  intros H. inv_ok H. eapply nth_error_In. exact E.
Qed.

Lemma match_step_ok items bound idx cm e cm' :
  matches_ok items bound cm -> idx < bound ->
  match_step items idx cm e = Ok cm' -> matches_ok items bound cm'.
Proof.
  intros M L. unfold match_step.
  destruct (try_match items idx cm e) as [r|x] eqn:T.
  - intros H. inv_ok H. unfold try_match in T. split_bind T as i Ei.
    destruct (i <? Z.of_nat (List.length items))%Z; [|now inv_ok T].
    split_bind T as text Et. inv_ok T. apply index_in in Et. now apply add_match_ok.
  - destruct x; intros H; try discriminate; now inv_ok H.
Qed.

Lemma match_loop_ok items bound idx entries :
  forall cm cm',
    matches_ok items bound cm -> idx < bound ->
    for_each (match_step items idx) cm entries = Ok cm' -> matches_ok items bound cm'.
Proof.
  induction entries as [|e l IH]; intros cm cm' M L H; cbn [for_each] in H.
  - now inv_ok H.
  - split_bind H as cm1 E1. eapply IH; [|exact L|exact H].
    eapply match_step_ok; eassumption.
Qed.

Lemma drag_items_loop es :
  forall acc items,
    for_each drag_item_step acc es = Ok items ->
    exists texts,
      items = acc ++ texts
      /\ Forall2 (fun e t => element_text e = Ok t) (filter is_advanced_text es) texts.
Proof.
  induction es as [|x l IH]; intros acc items H; cbn [for_each] in H.
  - inv_ok H. exists []. rewrite app_nil_r. split; [reflexivity|constructor].
  - split_bind H as acc1 E1. destruct (IH _ _ H) as (texts & -> & F).
    unfold drag_item_step in E1. split_bind E1 as ty Ety. split_bind E1 as lib Elib.
    cbn [filter]. unfold is_advanced_text at 1. rewrite Ety. cbn [bind]. rewrite Elib.
    destruct (eq_str lib (lit "H5P.AdvancedText 1.1")).
    + split_bind E1 as p Ep. split_bind E1 as t Et. split_bind E1 as text Etext. inv_ok E1.
      exists (text :: texts). rewrite <- app_assoc. split; [reflexivity|].
      constructor; [|exact F].
      unfold element_text. rewrite Ety. cbn [bind]. rewrite Ep. cbn [bind]. rewrite Et.
      exact Etext.
    + inv_ok E1. exists texts. split; [reflexivity|exact F].
Qed.

Lemma drop_zone_loop items zs :
  forall i0 areas cm areas' cm',
    matches_ok items i0 cm ->
    for_enumerate (drop_zone_step items) i0 (areas, cm) zs = Ok (areas', cm') ->
    matches_ok items (i0 + List.length zs) cm'
    /\ exists labels,
         Forall2 (fun z l => zone_label z = Ok l) zs labels
         /\ areas' = areas ++ filter (fun l => truthy (VStr l)) labels.
Proof.
  induction zs as [|z l IH]; intros i0 areas cm areas' cm' M H; cbn [for_enumerate] in H.
  - inv_ok H. split; [now rewrite Nat.add_0_r|].
    exists []. split; [constructor|now rewrite app_nil_r].
  - split_bind H as st1 E1. destruct st1 as [areas1 cm1].
    unfold drop_zone_step in E1.
    split_bind E1 as lab Elab. split_bind E1 as zl Ezl. split_bind E1 as ce Ece.
    split_bind E1 as entries Eentries. split_bind E1 as cm2 Ecm2. inv_ok E1.
    assert (M1 : matches_ok items (S i0) cm1).
    { eapply match_loop_ok; [|apply Nat.lt_succ_diag_r|exact Ecm2].
      eapply matches_ok_weaken; [|exact M]. lia. }
    destruct (IH _ _ _ _ _ M1 H) as (M' & labels & F & ->).
    split; [cbn [List.length]; now rewrite Nat.add_succ_r|].
    exists (zl :: labels). split.
    + constructor; [|exact F]. unfold zone_label. rewrite Elab. exact Ezl.
    + cbn [filter]. destruct zl as [|c zl]; cbn [truthy]; [reflexivity|].
      now rewrite <- app_assoc.
Qed.

(** X7: the drag items of a Drag and Drop extraction are the normalized
    texts of the elements whose library is exactly AdvancedText 1.1, in their
    order, so that there are as many items as such elements and never more
    than elements; the drop areas are the normalized labels of the zones that
    are not empty, in their order. *)
Theorem drag_drop_items_and_areas params d es zs :
  _extract_drag_drop_answers params = Ok d ->
  drag_drop_elements params = Ok es ->
  drag_drop_zones params = Ok zs ->
  exists items labels,
    lookup (lit "drag_items") d = Some (VList (map VStr items))
    /\ Forall2 (fun e t => element_text e = Ok t) (filter is_advanced_text es) items
    /\ List.length items <= List.length es
    /\ lookup (lit "drop_areas") d
       = Some (VList (map VStr (filter (fun l => truthy (VStr l)) labels)))
    /\ Forall2 (fun z l => zone_label z = Ok l) zs labels.
Proof.
  unfold _extract_drag_drop_answers, drag_drop_elements, drag_drop_zones. intros H Ees Ezs.
  split_bind H as qd Eqd. split_bind H as task Etask. split_bind H as elements Eel.
  split_bind H as zones Ezones. split_bind H as es' Ees'. split_bind H as items Eitems.
  split_bind H as zs' Ezs'. split_bind H as st Est. destruct st as [areas cm]. inv_ok H.
  rewrite Eqd in Ees, Ezs. cbn [bind] in Ees, Ezs. rewrite Etask in Ees, Ezs.
  cbn [bind] in Ees, Ezs. rewrite Eel in Ees. rewrite Ezones in Ezs.
  cbn [bind] in Ees, Ezs. rewrite Ees' in Ees. rewrite Ezs' in Ezs. inv_ok Ees. inv_ok Ezs.
  destruct (drag_items_loop _ _ _ Eitems) as (texts & E & F). cbn [app] in E. subst items.
  assert (M0 : matches_ok texts 0 []) by (split; constructor).
  destruct (drop_zone_loop _ _ _ _ _ _ _ M0 Est) as (_ & labels & FL & E).
  cbn [app] in E. subst areas.
  exists texts, labels. repeat split; try assumption.
  rewrite <- (Forall2_length F). apply filter_length_le.
Qed.

(** X8: in the [correct_matches] of a Drag and Drop extraction no key occurs
    twice, every key is one of the drag items, and every value is a list of
    positions of drop zones, each below the number of zones. *)
Theorem drag_drop_matches_are_sound params d zs :
  _extract_drag_drop_answers params = Ok d ->
  drag_drop_zones params = Ok zs ->
  exists items correct_matches,
    lookup (lit "drag_items") d = Some (VList (map VStr items))
    /\ lookup (lit "correct_matches") d = Some (VDict correct_matches)
    /\ matches_ok items (List.length zs) correct_matches.
Proof.
  unfold _extract_drag_drop_answers, drag_drop_zones. intros H Ezs.
  split_bind H as qd Eqd. split_bind H as task Etask. split_bind H as elements Eel.
  split_bind H as zones Ezones. split_bind H as es' Ees'. split_bind H as items Eitems.
  split_bind H as zs' Ezs'. split_bind H as st Est. destruct st as [areas cm]. inv_ok H.
  rewrite Eqd in Ezs. cbn [bind] in Ezs. rewrite Etask in Ezs.
  cbn [bind] in Ezs. rewrite Ezones in Ezs. cbn [bind] in Ezs. rewrite Ezs' in Ezs. inv_ok Ezs.
  assert (M0 : matches_ok items 0 []) by (split; constructor).
  destruct (drop_zone_loop _ _ _ _ _ _ _ M0 Est) as (M & _).
  exists items, cm. split; [reflexivity|]. split; [reflexivity|exact M].
Qed.

(** *** The document as a whole *)

(** X9: a document without [interactiveVideo], without [assets] or without
    [interactions] gives no record and no error; a document that is no
    object, or whose [interactions] is a number, makes the extraction
    raise. *)
Theorem missing_paths_give_no_record :
  (forall d, lookup (lit "interactiveVideo") d = None -> extract_all_answers (VDict d) = Ok [])
  /\ (forall d iv,
        lookup (lit "interactiveVideo") d = Some (VDict iv) ->
        lookup (lit "assets") iv = None ->
        extract_all_answers (VDict d) = Ok [])
  /\ (forall d iv assets,
        lookup (lit "interactiveVideo") d = Some (VDict iv) ->
        lookup (lit "assets") iv = Some (VDict assets) ->
        lookup (lit "interactions") assets = None ->
        extract_all_answers (VDict d) = Ok [])
  /\ (forall content,
        (forall d, content <> VDict d) -> extract_all_answers content = Raise AttributeError)
  /\ (forall d iv assets n,
        lookup (lit "interactiveVideo") d = Some (VDict iv) ->
        lookup (lit "assets") iv = Some (VDict assets) ->
        lookup (lit "interactions") assets = Some (VInt n) ->
        extract_all_answers (VDict d) = Raise TypeError).
Proof.
  unfold extract_all_answers. repeat apply conj.
  - intros d H. cbn [get bind]. rewrite H. reflexivity.
  - intros d iv H1 H2. cbn [get bind]. rewrite H1. cbn [get bind]. rewrite H2. reflexivity.
  - intros d iv assets H1 H2 H3. cbn [get bind]. rewrite H1. cbn [get bind]. rewrite H2.
    cbn [get bind]. rewrite H3. reflexivity.
  - intros content H. destruct content; try reflexivity. exfalso. now apply (H d).
  - intros d iv assets n H1 H2 H3. cbn [get bind]. rewrite H1. cbn [get bind]. rewrite H2.
    cbn [get bind]. rewrite H3. reflexivity.
Qed.

Lemma main_loop_positions l :
  forall answers n answers' n',
    for_each interaction_step (answers, n) l = Ok (answers', n') ->
    exists new (pos : nat -> nat),
      answers' = answers ++ new
      /\ List.length new <= List.length l
      /\ (forall j k, j < k -> k < List.length new -> pos j < pos k)
      /\ forall k r,
           nth_error new k = Some r ->
           exists interaction d,
             nth_error l (pos k) = Some interaction
             /\ r = VDict d
             /\ build_answer_data (n + Z.of_nat k) interaction = Ok (Some d)
             /\ kept d = true.
Proof.
  induction l as [|i l IH]; intros answers n answers' n' H; cbn [for_each] in H.
  - inv_ok H. exists [], (fun k => k). rewrite app_nil_r.
    repeat split; [cbn [List.length]; lia|cbn [List.length]; lia|].
    intros [|k] r X; discriminate.
  - split_bind H as st1 E. destruct st1 as [a1 n1].
    apply IH in H. destruct H as (new & pos & -> & Len & Mono & Nth).
    apply interaction_step_inv in E.
    destruct E as [(-> & -> & _)|(d & B & K & -> & ->)].
    + exists new, (fun k => S (pos k)). repeat split.
      * cbn [List.length]. lia.
      * intros j k Lt Lk. apply -> Nat.succ_lt_mono. now apply Mono.
      * intros k r X. destruct (Nth k r X) as (i' & d & ? & ? & ? & ?).
        exists i', d. repeat split; assumption.
    + exists (VDict d :: new), (fun k => match k with 0 => 0 | S k' => S (pos k') end).
      rewrite <- app_assoc. repeat split.
      * cbn [List.length]. lia.
      * intros [|j] [|k] Lt Lk; cbn [List.length] in Lk; try lia.
        apply -> Nat.succ_lt_mono. apply Mono; lia.
      * intros [|k] r X; cbn [nth_error] in X.
        -- injection X as <-. exists i, d. rewrite Z.add_0_r. repeat split; assumption.
        -- destruct (Nth k r X) as (i' & d' & ? & ? & B' & ?).
           exists i', d'. repeat split; try assumption.
           replace (n + Z.of_nat (S k))%Z with (n + 1 + Z.of_nat k)%Z by lia. exact B'.
Qed.

(** X10: the records come in the order of the interactions and there are
    never more of them than interactions: record [k] is built, with the number
    [k + 1], from the interaction at a position [pos k] that grows with [k],
    and its [library_type] is the library of that interaction. *)
Theorem records_follow_interactions content interactions records :
  extract_all_answers content = Ok records ->
  interactions_of content = Ok interactions ->
  List.length records <= List.length interactions
  /\ exists pos : nat -> nat,
       (forall j k, j < k -> k < List.length records -> pos j < pos k)
       /\ forall k r,
            nth_error records k = Some r ->
            exists interaction action library d,
              nth_error interactions (pos k) = Some interaction
              /\ r = VDict d
              /\ build_answer_data (1 + Z.of_nat k) interaction = Ok (Some d)
              /\ kept d = true
              /\ get interaction (lit "action") (VDict []) = Ok action
              /\ get action (lit "library") (VStr []) = Ok library
              /\ field d (lit "library_type") = library.
Proof.
  unfold extract_all_answers, interactions_of. intros H I.
  split_bind H as iv Eiv. split_bind H as assets Eassets. split_bind H as ia Eia.
  split_bind H as l El. split_bind H as st Est. inv_ok H.
  rewrite Eiv in I. cbn [bind] in I. rewrite Eassets in I. cbn [bind] in I.
  rewrite Eia in I. cbn [bind] in I. rewrite El in I. inv_ok I.
  destruct st as [answers n]. apply main_loop_positions in Est.
  destruct Est as (new & pos & -> & Len & Mono & Nth). cbn [fst app].
  split; [exact Len|]. exists pos. split; [exact Mono|].
  intros k r X. destruct (Nth k r X) as (i & d & P & -> & B & K).
  destruct (build_answer_data_inv _ _ _ B)
    as (action & library & ? & ? & ? & A & L & _ & _ & _ & _ & LT & _).
  exists i, action, library, d. unfold field. rewrite LT. repeat split; assumption.
Qed.

(** *** Paths *)

Lemma existsb_sep_false (r : str) : existsb (N.eqb 47) r = false -> ~ In 47%N r.
Proof.
  intros H I. assert (T : existsb (N.eqb 47) r = true); [|congruence].
  apply existsb_exists. exists 47%N. split; [exact I|apply N.eqb_refl].
Qed.

Lemma basename_no_sep (p : str) : ~ In 47%N (basename p).
Proof.
  induction p as [|c r IH]; [simpl; tauto|]. cbn [basename].
  destruct (existsb (N.eqb 47) r) eqn:E; [exact IH|].
  apply existsb_sep_false in E.
  destruct (N.eqb_spec c 47) as [_|N]; [exact E|].
  intros [H|H]; [congruence|contradiction].
Qed.

(** [basename] is what follows the last separator: the path is a directory
    part, empty or ending in the separator, and then the base name. *)
Lemma basename_suffix (p : str) :
  exists dir, p = dir ++ basename p /\ (dir = [] \/ exists d, dir = d ++ [47%N]).
Proof.
  induction p as [|c r (dir & IH & D)]; [exists []; split; [reflexivity|now left]|].
  cbn [basename].
  destruct (existsb (N.eqb 47) r) eqn:E.
  - exists (c :: dir). split; [cbn [app]; now f_equal|right].
    destruct D as [->|[d ->]]; [|now exists (c :: d)].
    exfalso. cbn [app] in IH. apply (basename_no_sep r). rewrite <- IH.
    apply existsb_exists in E. destruct E as (x & I & X).
    apply N.eqb_eq in X. now subst x.
  - destruct (N.eqb_spec c 47) as [->|_].
    + exists [47%N]. split; [reflexivity|right; now exists []].
    + exists []. split; [reflexivity|now left].
Qed.

Lemma dropwhile_split {A} (f : A -> bool) l :
  exists w, l = w ++ dropwhile f l /\ forallb f w = true.
Proof.
  induction l as [|x l (w & E & F)]; cbn [dropwhile].
  - now exists [].
  - destruct (f x) eqn:Fx.
    + exists (x :: w). cbn [app forallb]. rewrite Fx, F. split; [now f_equal|reflexivity].
    + now exists [].
Qed.

(** [splitext] cuts at the last dot or not at all. *)
Lemma splitext_root_cut (p : str) :
  splitext_root p = p
  \/ exists ext, p = splitext_root p ++ 46%N :: ext /\ ~ In 46%N ext.
Proof.
  unfold splitext_root.
  destruct (dropwhile_split (fun c => negb (c =? 46)%N) (rev p)) as (w & E & F).
  destruct (dropwhile (fun c => negb (c =? 46)%N) (rev p)) as [|d rest] eqn:D; [now left|].
  cbn [List.length].
  destruct (forallb (N.eqb 46) (firstn (List.length rest) p)); [now left|right].
  pose proof (dropwhile_head (fun c => negb (c =? 46)%N) (rev p)) as Hd. rewrite D in Hd.
  apply negb_false_iff, N.eqb_eq in Hd. subst d.
  assert (P : p = rev rest ++ 46%N :: rev w).
  { rewrite <- (rev_involutive p), E, rev_app_distr. cbn [rev]. now rewrite <- app_assoc. }
  exists (rev w). split.
  - rewrite P at 1. f_equal. rewrite P.
    rewrite <- (length_rev rest). rewrite firstn_app, Nat.sub_diag, firstn_all. cbn [firstn].
    now rewrite app_nil_r.
  - intros I. apply in_rev in I. rewrite forallb_forall in F. specialize (F _ I).
    now rewrite N.eqb_refl in F.
Qed.

(** X11: for an input whose lower-cased path ends in [.h5p] the report of
    [extract_answers] lies in the current directory itself, whatever
    directory the archive is in: its name is [_answer.txt] after the last
    component of the input (what follows the last separator, or the whole
    path when it has none), cut at its last dot if at all, and holds no
    separator. *)
Theorem h5p_report_lies_in_cwd (cwd file_path : str) :
  endswith (lit ".h5p") (lower file_path) = true ->
  exists dir name ext,
    file_path = dir ++ name ++ ext
    /\ (dir = [] \/ exists d, dir = d ++ [47%N])
    /\ ~ In 47%N (name ++ ext)
    /\ (ext = [] \/ exists e, ext = 46%N :: e /\ ~ In 46%N e)
    /\ extract_answers_report cwd file_path
       = cwd
         ++ (if match cwd with [] => true | _ => endswith (lit "/") cwd end then [] else lit "/")
         ++ name ++ lit "_answer.txt".
Proof.
  intros H.
  destruct (basename_suffix file_path) as (dir & Ed & Dir).
  pose proof (basename_no_sep file_path) as NS.
  set (name := splitext_root (basename file_path)).
  assert (Cut : exists ext, basename file_path = name ++ ext
                            /\ (ext = [] \/ exists e, ext = 46%N :: e /\ ~ In 46%N e)).
  { destruct (splitext_root_cut (basename file_path)) as [E|(e & E & N)].
    - exists []. fold name in E. rewrite app_nil_r. split; [now symmetry|now left].
    - exists (46%N :: e). fold name in E. split; [exact E|right; now exists e]. }
  destruct Cut as (ext & Eb & Ext).
  exists dir, name, ext. split; [now rewrite <- Eb|]. split; [exact Dir|].
  split; [now rewrite <- Eb|]. split; [exact Ext|].
  { unfold extract_answers_report, report_path. rewrite H.
    destruct file_path as [|c0 p0]; [discriminate|]. cbn [truthy andb]. fold name.
    unfold path_join.
    assert (S : startswith (lit "/") (name ++ lit "_answer.txt") = false).
    { destruct name as [|c n] eqn:En; [reflexivity|].
      cbn [app lit list_ascii_of_string map startswith].
      change (N_of_ascii "/") with 47%N.
      destruct (N.eqb_spec 47 c) as [<-|_]; [|reflexivity].
      exfalso. apply NS. rewrite Eb. now left. }
    rewrite S. destruct cwd as [|c1 w]; [reflexivity|].
    destruct (endswith (lit "/") (c1 :: w)); reflexivity. }
Qed.

(** X12: run through [main] of [h5p_answer_extractor.py], the report is
    written to the very path the content is read from: the path of the input
    is passed as [output_path]. *)
Theorem main_writes_report_over_input (cwd : str) (argv : list str) :
  main_report cwd argv = main_file_path argv
  /\ (forall prog path rest, main_report cwd (prog :: path :: rest) = path)
  /\ (forall prog, main_report cwd [prog] = lit "content.json").
Proof.
  repeat split.
Qed.

(** *** The report: console and file *)

Lemma and_then_cong {A B} (w w' : written A) (k k' : A -> written B) :
  w = w' -> (forall a, k a = k' a) -> and_then w k = and_then w' k'.
Proof.
  intros <- H. destruct w as [out a|out e]; cbn [and_then]; [now rewrite H|reflexivity].
Qed.

Lemma each_cong {A} (f g : A -> written unit) l : (forall x, f x = g x) -> each f l = each g l.
Proof.
  intros H. induction l as [|x l IH]; [reflexivity|]. cbn [each].
  apply and_then_cong; [apply H|intros _; exact IH].
Qed.

Lemma each_numbered_cong {A} (f g : Z -> A -> written unit) l :
  (forall i x, f i x = g i x) -> forall i, each_numbered f i l = each_numbered g i l.
Proof.
  intros H. induction l as [|x l IH]; intros i; [reflexivity|]. cbn [each_numbered].
  apply and_then_cong; [apply H|intros _; apply IH].
Qed.

Lemma and_then_went_nil {A B} (a : A) (k : A -> written B) : and_then (Went [] a) k = k a.
Proof.
  cbn [and_then]. destruct (k a); reflexivity.
Qed.

Lemma forallb_same {A} (f g : A -> bool) l :
  (forall x, f x = g x) -> forallb f l = forallb g l.
Proof.
  intros H. induction l as [|x l IH]; [reflexivity|]. cbn [forallb]. now rewrite H, IH.
Qed.


Section SameEncoding.

(** A console that takes the characters the file takes. *)
Variable stdout : char -> bool.
Hypothesis same : forall c, stdout c = utf_8 c.

Lemma print_is_write s : print stdout s = write (s ++ [10%N]).
Proof.
  unfold print, write, put. rewrite forallb_app, (forallb_same stdout utf_8) by exact same.
  cbn [forallb]. rewrite same. change (utf_8 10%N) with true.
  destruct (forallb utf_8 s); reflexivity.
Qed.

(** Brings the two sides to the same writes, line by line. *)
Ltac same_writes :=
  repeat first
    [ progress cbv zeta
    | apply and_then_cong; [|intros]
    | apply each_cong; intros
    | apply each_numbered_cong; intros
    | match goal with
      | |- (if ?c then _ else _) = (if ?c then _ else _) => destruct c
      | |- print _ _ = write _ => rewrite print_is_write; rewrite <- ?app_assoc; reflexivity
      | |- ?x = ?x => reflexivity
      end ].

Lemma display_answer_is_write_answer answer :
  display_answer stdout answer = write_answer answer.
Proof.
  unfold display_answer, write_answer. same_writes.
Qed.

(** With the records in hand, the console gets a rule line and then what the
    file gets. *)
Lemma display_is_rule_then_save (file_path : str) content records :
  extract_all_answers content = Ok records ->
  display_answers stdout file_path content
  = (print stdout (rule 61%N 80) ;;; save_answers_to_file file_path content).
Proof.
  unfold display_answers, save_answers_to_file.
  intros ->. cbn [pure]. rewrite !and_then_went_nil.
  apply and_then_cong; [reflexivity|intros _].
  same_writes.
Qed.

End SameEncoding.

(** X13: on a console that takes the characters the file takes, which is
    every character but the surrogates, what [display_answers] prints when the
    extraction succeeds is one rule line followed by exactly what
    [save_answers_to_file] writes to the file, and the two end in the same
    way, be it on a character that cannot be encoded; when the extraction
    raises, neither writes anything, whatever the console. *)
Theorem console_is_rule_then_file (stdout : char -> bool) (file_path : str) (content : value) :
  (forall records,
      (forall c, stdout c = utf_8 c) ->
      extract_all_answers content = Ok records ->
      display_answers stdout file_path content
      = (print stdout (rule 61%N 80) ;;; save_answers_to_file file_path content))
  /\ (forall e,
        extract_all_answers content = Raise e ->
        display_answers stdout file_path content = Stopped [] (Uncaught e)
        /\ save_answers_to_file file_path content = Stopped [] (Uncaught e)).
Proof.
  split.
  - intros records same. now apply display_is_rule_then_save.
  - unfold display_answers, save_answers_to_file. intros e ->. split; reflexivity.
Qed.

(** *** The report on the records of the extraction *)

Lemma multiple_choice_options_shape entries :
  forall i0 options ca options' ca',
    for_enumerate multiple_choice_step i0 (options, ca) entries = Ok (options', ca') ->
    Forall option_shape options -> Forall option_shape options'.
Proof.
  induction entries as [|x l IH]; intros i0 options ca options' ca' H F; cbn [for_enumerate] in H.
  - now inv_ok H.
  - split_bind H as st1 Estep. destruct st1 as [options1 ca1].
    apply (IH _ _ _ _ _ H). unfold multiple_choice_step in Estep.
    split_bind Estep as t Et. split_bind Estep as tx Etx. split_bind Estep as c Ec.
    split_bind Estep as o Eo.
    assert (S : Forall option_shape
                  (options ++ [VDict [(lit "option", VStr o); (lit "text", VStr tx);
                                      (lit "is_correct", c)]])).
    { apply Forall_app. split; [exact F|]. constructor; [|constructor]. now exists o, tx, c. }
    destruct (truthy c).
    + split_bind Estep as o' Eo'. now inv_ok Estep.
    + now inv_ok Estep.
Qed.

(** Every [answer_data] has one of the six forms. *)
Lemma build_answer_data_shape n interaction d :
  build_answer_data n interaction = Ok (Some d) -> record_shape n d.
Proof.
  unfold build_answer_data. intros H.
  split_bind H as action Eaction. split_bind H as library Elibrary.
  split_bind H as params Eparams. split_bind H as duration Eduration.
  split_bind H as time_from Efrom. split_bind H as time_to Eto.
  split_bind H as f Ef. split_bind H as t Et. split_bind H as sub Esub.
  split_bind H as k Ek.
  destruct k.
  - split_bind H as e E. inv_ok H. unfold _extract_multiple_choice_answers in E.
    split_bind E as q Eq. split_bind E as question Equestion. split_bind E as a Ea.
    split_bind E as es Ees. split_bind E as st Est. destruct st as [options ca]. inv_ok E.
    apply (shape_multiple_choice n library (f ++ lit "s - " ++ t ++ lit "s") sub question options ca).
    apply (multiple_choice_options_shape _ _ _ _ _ _ Est). constructor.
  - split_bind H as e E. inv_ok H. unfold _extract_drag_drop_answers in E.
    split_bind E as qd Eqd. split_bind E as task Etask. split_bind E as elements Eel.
    split_bind E as zones Ezones. split_bind E as es Ees. split_bind E as items Eitems.
    split_bind E as zs Ezs. split_bind E as st Est. destruct st as [areas cm]. inv_ok E.
    assert (M0 : matches_ok items 0 []) by (split; constructor).
    destruct (drop_zone_loop _ _ _ _ _ _ _ M0 Est) as (M & _).
    exact (shape_drag_drop n library (f ++ lit "s - " ++ t ++ lit "s") sub items areas _ cm M).
  - split_bind H as e E. inv_ok H. unfold _extract_true_false_answers in E.
    split_bind E as q Eq. split_bind E as question Equestion. split_bind E as c Ec. inv_ok E.
    apply (shape_true_false n library (f ++ lit "s - " ++ t ++ lit "s") sub).
  - split_bind H as e E. inv_ok H. unfold _extract_fill_in_blanks_answers in E.
    split_bind E as q Eq. split_bind E as tx Etx. split_bind E as c Ec. inv_ok E.
    apply (shape_fill_in_blanks n library (f ++ lit "s - " ++ t ++ lit "s") sub).
  - discriminate.
  - split_bind H as e E. inv_ok H. unfold _extract_drag_text_answers in E.
    split_bind E as q Eq. split_bind E as question Equestion. split_bind E as tf Etf.
    destruct tf; try discriminate. split_bind E as answers Eanswers. inv_ok E.
    apply (shape_drag_text n library (f ++ lit "s - " ++ t ++ lit "s") sub).
  - inv_ok H. apply (shape_other n library (f ++ lit "s - " ++ t ++ lit "s") sub).
Qed.



Section Encoding.

(** The characters a stream takes. *)
Variable encodes : char -> bool.










(** The zone numbers of the report are the positions plus one. *)
Lemma zone_numbers_zone_list zones :
  zone_numbers (zone_list zones) = Ok (map (fun z => int_str (Z.of_nat z + 1)) zones).
Proof.
  unfold zone_numbers, zone_list. cbn [iterate bind].
  induction zones as [|z l IH]; [reflexivity|].
  cbn [map zone_numbers_of py_int bind]. now rewrite IH.
Qed.







End Encoding.



(** X15: the zones of a match are written counting from one: for every
    entry of the [correct_matches] of a Drag and Drop extraction the value is
    a list of zone positions, and the numbers the report writes for it are
    these positions plus one, in the same order. *)
Theorem report_numbers_zones_from_one params d :
  _extract_drag_drop_answers params = Ok d ->
  exists correct_matches,
    lookup (lit "correct_matches") d = Some (VDict correct_matches)
    /\ forall item zones,
         In (item, zones) correct_matches ->
         exists positions,
           zones = zone_list positions
           /\ zone_numbers zones = Ok (map (fun z => int_str (Z.of_nat z + 1)) positions).
Proof.
  unfold _extract_drag_drop_answers. intros H.
  split_bind H as qd Eqd. split_bind H as task Etask. split_bind H as elements Eel.
  split_bind H as zones Ezones. split_bind H as es' Ees'. split_bind H as items Eitems.
  split_bind H as zs' Ezs'. split_bind H as st Est. destruct st as [areas cm]. inv_ok H.
  assert (M0 : matches_ok items 0 []) by (split; constructor).
  destruct (drop_zone_loop _ _ _ _ _ _ _ M0 Est) as ([_ F] & _).
  exists cm. split; [reflexivity|]. intros item v I.
  rewrite Forall_forall in F. destruct (F _ I) as [_ (positions & Z & _)].
  cbn [snd] in Z. subst v. exists positions. split; [reflexivity|].
  apply zone_numbers_zone_list.
Qed.

(** *** Documents of the expected shape are extracted without error *)

Lemma object_true p (v : value) : object p v = true -> exists d, v = VDict d /\ p d = true.
Proof.
  destruct v; try discriminate. intros H. eauto.
Qed.

Lemma list_of_true p (v : value) :
  list_of p v = true -> exists l, v = VList l /\ forallb p l = true.
Proof.
  destruct v; try discriminate. intros H. eauto.
Qed.

(** A field that is absent or good, read with a good default, is good. *)
Lemma optional_get p d k default :
  optional p d k = true -> p default = true ->
  exists x, get (VDict d) k default = Ok x /\ p x = true.
Proof.
  unfold optional. cbn [get]. destruct (lookup k d) as [x|]; intros H D; eauto.
Qed.

Lemma clean_textual v : textual v = true -> exists s, _clean_html_text v = Ok s.
Proof.
  unfold textual, _clean_html_text. destruct (truthy v); cbn [negb orb]; [|eauto].
  destruct v; try discriminate. eauto.
Qed.

Lemma get_clean d k :
  optional textual d k = true ->
  exists x s, get (VDict d) k (VStr []) = Ok x /\ _clean_html_text x = Ok s.
Proof.
  intros H. destruct (optional_get textual d k (VStr []) H eq_refl) as (x & G & T).
  destruct (clean_textual x T) as [s C]. eauto.
Qed.

Lemma for_each_total {St A} (step : St -> A -> res St) (l : list A) :
  (forall st x, In x l -> exists st', step st x = Ok st') ->
  forall st, exists st', for_each step st l = Ok st'.
Proof.
  induction l as [|x l IH]; intros H st; cbn [for_each]; [eauto|].
  destruct (H st x (or_introl eq_refl)) as [st1 E]. rewrite E. cbn [bind].
  apply IH. intros st' y I. apply H. now right.
Qed.

Lemma for_enumerate_total {St A} (step : St -> nat -> A -> res St) (l : list A) :
  forall i,
    (forall st k x, nth_error l k = Some x -> exists st', step st (i + k) x = Ok st') ->
    forall st, exists st', for_enumerate step i st l = Ok st'.
Proof.
  induction l as [|x l IH]; intros i H st; cbn [for_enumerate]; [eauto|].
  destruct (H st 0 x eq_refl) as [st1 E]. rewrite Nat.add_0_r in E. rewrite E. cbn [bind].
  apply IH. intros st' k y N. replace (S i + k) with (i + S k) by lia.
  now apply (H st' (S k) y).
Qed.

Lemma multiple_choice_total params :
  well_formed_multiple_choice params = true ->
  exists d, _extract_multiple_choice_answers params = Ok d.
Proof.
  intros W. apply object_true in W. destruct W as (p & -> & W).
  apply andb_true_iff in W. destruct W as [Wq Wa].
  unfold _extract_multiple_choice_answers.
  destruct (get_clean p _ Wq) as (q & question & -> & Cq). cbn [bind]. rewrite Cq. cbn [bind].
  destruct (optional_get _ p _ (VList []) Wa eq_refl) as (a & -> & Pa). cbn [bind].
  apply andb_true_iff in Pa. destruct Pa as [Pl Pn].
  apply list_of_true in Pl. destruct Pl as (l & -> & Pl). cbn [iterate bind].
  assert (T : exists st, for_enumerate multiple_choice_step 0 ([], VNone) l = Ok st).
  { apply for_enumerate_total. intros [options ca] k x N. cbn [Nat.add].
    rewrite forallb_forall in Pl. pose proof (Pl x (nth_error_In _ _ N)) as Px.
    apply object_true in Px. destruct Px as (e & -> & Pe).
    unfold multiple_choice_step.
    destruct (get_clean e _ Pe) as (t & tx & -> & Ct). cbn [bind]. rewrite Ct. cbn [get bind].
    assert (K : k < List.length l) by (apply nth_error_Some; congruence).
    assert (C : chr (65 + N.of_nat k) = Ok (label k)).
    { unfold chr, label. apply N.leb_le in Pn.
      destruct (N.leb_spec (65 + N.of_nat k) 1114111); [reflexivity|lia]. }
    rewrite C. cbn [bind].
    destruct (truthy _); cbn [bind]; eauto. }
  destruct T as [[options ca] ->]. cbn [bind]. eauto.
Qed.

Lemma true_false_total params :
  well_formed_true_false params = true -> exists d, _extract_true_false_answers params = Ok d.
Proof.
  intros W. apply object_true in W. destruct W as (p & -> & W).
  unfold _extract_true_false_answers.
  destruct (get_clean p _ W) as (q & question & -> & Cq). cbn [bind]. rewrite Cq.
  cbn [get bind]. eauto.
Qed.

Lemma strs_of_total l : forallb is_str l = true -> exists parts, strs_of l = Ok parts.
Proof.
  induction l as [|x l IH]; cbn [forallb strs_of]; [eauto|].
  intros H. apply andb_true_iff in H. destruct H as [Hx Hl].
  destruct x; try discriminate. destruct (IH Hl) as [parts ->]. cbn [bind]. eauto.
Qed.

Lemma fill_in_blanks_total params :
  well_formed_fill_in_blanks params = true ->
  exists d, _extract_fill_in_blanks_answers params = Ok d.
Proof.
  intros W. apply object_true in W. destruct W as (p & -> & W).
  unfold _extract_fill_in_blanks_answers.
  change (get (VDict p) (lit "questions") VNone)
    with (Ok (match lookup (lit "questions") p with Some x => x | None => VNone end)).
  cbn [bind].
  assert (FromText : optional textual p (lit "text") = true ->
                     exists t s, get (VDict p) (lit "text") (VStr []) = Ok t
                                 /\ _clean_html_text t = Ok s) by apply get_clean.
  destruct (lookup (lit "questions") p) as [q|].
  - destruct (truthy q) eqn:T.
    + destruct q; try (cbn [bind]; rewrite clean_html_text_str; cbn [bind]; eauto; fail).
      destruct (strs_of_total _ W) as [parts ->]. cbn [bind].
      rewrite clean_html_text_str. cbn [bind]. eauto.
    + destruct (FromText W) as (t & s & -> & C). cbn [bind]. rewrite C. cbn [bind]. eauto.
  - cbn [truthy]. destruct (FromText W) as (t & s & -> & C). cbn [bind]. rewrite C.
    cbn [bind]. eauto.
Qed.

Lemma drag_text_total params :
  well_formed_drag_text params = true -> exists d, _extract_drag_text_answers params = Ok d.
Proof.
  intros W. apply object_true in W. destruct W as (p & -> & W).
  apply andb_true_iff in W. destruct W as [Wd Wt].
  unfold _extract_drag_text_answers.
  destruct (get_clean p _ Wd) as (x & q & -> & Cq). cbn [bind]. rewrite Cq. cbn [bind].
  destruct (optional_get _ p _ (VStr []) Wt eq_refl) as (t & -> & Pt). cbn [bind].
  destruct t; try discriminate. rewrite clean_each. cbn [bind]. eauto.
Qed.

Lemma index_raises {A} (l : list A) i e : index l i = Raise e -> e = IndexError.
Proof.
  unfold index.
  destruct ((0 <=? (if (i <? 0)%Z then (i + Z.of_nat (List.length l))%Z else i))%Z
            && ((if (i <? 0)%Z then (i + Z.of_nat (List.length l))%Z else i)
                <? Z.of_nat (List.length l))%Z); [|congruence].
  destruct (nth_error l _); congruence.
Qed.

Lemma py_int_index v :
  is_index v = true -> (exists i, py_int v = Ok i) \/ py_int v = Raise ValueError.
Proof.
  destruct v; try discriminate; cbn [is_index py_int]; intros I; eauto.
  - destruct (float_int f) as [i|[]]; try discriminate I; eauto.
  - unfold str_int.
    destruct (forallb is_ascii_digit s && (1 <=? List.length s) && (List.length s <=? 18)); eauto.
    destruct (str_int_general s); eauto.
Qed.

Lemma match_step_total drag_items idx cm e :
  is_index e = true -> exists cm', match_step drag_items idx cm e = Ok cm'.
Proof.
  intros I. unfold match_step, try_match.
  destruct (py_int_index e I) as [[i ->]| ->]; cbn [bind]; [|eauto].
  destruct (i <? Z.of_nat (List.length drag_items))%Z; [|eauto].
  destruct (index drag_items i) as [text|x] eqn:E; cbn [bind]; [eauto|].
  apply index_raises in E. subst x. eauto.
Qed.

Lemma drag_item_step_total acc e :
  well_formed_element e = true -> exists acc', drag_item_step acc e = Ok acc'.
Proof.
  intros W. apply object_true in W. destruct W as (d & -> & W).
  unfold drag_item_step.
  destruct (optional_get _ d _ (VDict []) W eq_refl) as (ty & -> & Pty). cbn [bind].
  apply object_true in Pty. destruct Pty as (t & -> & Pt).
  assert (Gl : exists lib, get (VDict t) (lit "library") VNone = Ok lib) by (cbn [get]; eauto).
  destruct Gl as [lib ->]. cbn [bind].
  destruct (eq_str lib (lit "H5P.AdvancedText 1.1")); [|eauto].
  destruct (optional_get _ t _ (VDict []) Pt eq_refl) as (pp & -> & Ppp). cbn [bind].
  apply object_true in Ppp. destruct Ppp as (p & -> & Pp).
  destruct (get_clean p _ Pp) as (x & s & -> & C). cbn [bind]. rewrite C. cbn [bind]. eauto.
Qed.

Lemma drop_zone_step_total drag_items st idx zone :
  well_formed_zone zone = true -> exists st', drop_zone_step drag_items st idx zone = Ok st'.
Proof.
  intros W. apply object_true in W. destruct W as (z & -> & W).
  apply andb_true_iff in W. destruct W as [Wl We].
  unfold drop_zone_step. destruct st as [areas cm].
  destruct (get_clean z _ Wl) as (x & s & -> & C). cbn [bind]. rewrite C. cbn [bind].
  destruct (optional_get _ z _ (VList []) We eq_refl) as (ce & -> & Pce). cbn [bind].
  apply list_of_true in Pce. destruct Pce as (l & -> & Pl). cbn [iterate bind].
  destruct (for_each_total (match_step drag_items idx) l) with (st := cm) as [cm' ->].
  - intros cm0 e I. apply match_step_total. rewrite forallb_forall in Pl. now apply Pl.
  - cbn [bind]. eauto.
Qed.

Lemma drag_drop_total params :
  well_formed_drag_drop params = true -> exists d, _extract_drag_drop_answers params = Ok d.
Proof.
  intros W. apply object_true in W. destruct W as (p & -> & W).
  unfold _extract_drag_drop_answers.
  destruct (optional_get _ p _ (VDict []) W eq_refl) as (qd & -> & Pq). cbn [bind].
  apply object_true in Pq. destruct Pq as (q & -> & Pq).
  destruct (optional_get _ q _ (VDict []) Pq eq_refl) as (task & -> & Pt). cbn [bind].
  apply object_true in Pt. destruct Pt as (t & -> & Pt).
  apply andb_true_iff in Pt. destruct Pt as [Pe Pz].
  destruct (optional_get _ t _ (VList []) Pe eq_refl) as (es & -> & Pes). cbn [bind].
  destruct (optional_get _ t _ (VList []) Pz eq_refl) as (zs & -> & Pzs). cbn [bind].
  apply list_of_true in Pes. destruct Pes as (le & -> & Ple).
  apply list_of_true in Pzs. destruct Pzs as (lz & -> & Plz). cbn [iterate bind].
  destruct (for_each_total drag_item_step le) with (st := @nil str) as [items ->].
  { intros acc e I. apply drag_item_step_total. rewrite forallb_forall in Ple. now apply Ple. }
  cbn [bind].
  destruct (for_enumerate_total (drop_zone_step items) lz 0)
    with (st := (@nil str, @nil (str * value))) as [[areas cm] ->].
  { intros st k z N. apply drop_zone_step_total. rewrite forallb_forall in Plz.
    apply Plz. eapply nth_error_In. exact N. }
  cbn [bind]. eauto.
Qed.

Lemma format_2f_total v : is_time v = true -> exists s, format_2f v = Ok s.
Proof.
  destruct v; try discriminate; cbn [is_time format_2f]; intros H; eauto.
  - unfold int_format_2f. destruct b; cbn; eauto.
  - unfold int_format_2f. destruct (Z.abs z <=? 2 ^ 53)%Z; [eauto|]. cbn [orb] in H.
    destruct (bigint_format_2f z); [eauto|discriminate H].
Qed.

Lemma dispatch_string (l : str) :
  dispatch (VStr l) =
  Ok (if substring_in (lit "MultiChoice") l then MultipleChoice
      else if substring_in (lit "DragQuestion") l then DragAndDrop
      else if substring_in (lit "TrueFalse") l then TrueFalse
      else if substring_in (lit "Blanks") l then FillInTheBlanks
      else if substring_in (lit "Image") l then Image
      else if substring_in (lit "DragText") l then DragText
      else Other).
Proof.
  unfold dispatch, contains. cbn [bind].
  repeat match goal with
         | |- context [substring_in ?p l] => destruct (substring_in p l); cbn [bind]
         end; reflexivity.
Qed.

Lemma build_answer_data_total n interaction :
  well_formed_interaction interaction = true ->
  exists r, build_answer_data n interaction = Ok r.
Proof.
  intros W. apply object_true in W. destruct W as (i & -> & W).
  apply andb_true_iff in W. destruct W as [Wd Wa].
  destruct (optional_get _ i _ (VDict []) Wa eq_refl) as (action & Ga & Pa).
  apply object_true in Pa. destruct Pa as (a & -> & Pa).
  destruct (optional_get _ i _ (VDict []) Wd eq_refl) as (duration & Gd & Pd).
  apply object_true in Pd. destruct Pd as (du & -> & Pd).
  apply andb_true_iff in Pd. destruct Pd as [Pf Pt].
  destruct (optional_get _ du _ (VInt 0) Pf eq_refl) as (tf & Gf & Tf).
  destruct (optional_get _ du _ (VInt 0) Pt eq_refl) as (tt' & Gt & Tt).
  destruct (format_2f_total _ Tf) as [sf Ff]. destruct (format_2f_total _ Tt) as [st Ft].
  unfold build_answer_data. rewrite Ga. cbn [bind].
  assert (Gl : exists library, get (VDict a) (lit "library") (VStr []) = Ok library
                               /\ match library with
                                  | VStr l =>
                                      well_formed_params l
                                        match lookup (lit "params") a with
                                        | Some p => p
                                        | None => VDict []
                                        end = true
                                  | _ => False
                                  end).
  { cbn [get]. destruct (lookup (lit "library") a) as [[]|]; try discriminate; eauto. }
  destruct Gl as (library & -> & Wl). cbn [bind].
  destruct library as [| | | |l| |]; try contradiction.
  change (get (VDict a) (lit "params") (VDict []))
    with (Ok (match lookup (lit "params") a with Some p => p | None => VDict [] end)).
  set (params := match lookup (lit "params") a with Some p => p | None => VDict [] end) in *.
  cbn [bind]. rewrite Gd. cbn [bind]. rewrite Gf. cbn [bind]. rewrite Gt. cbn [bind].
  rewrite Ff. cbn [bind]. rewrite Ft. cbn [bind].
  assert (Gs : exists sub, get (VDict a) (lit "subContentId") (VStr []) = Ok sub)
    by (cbn [get]; eauto).
  destruct Gs as [sub ->]. cbn [bind].
  rewrite (dispatch_string l). unfold well_formed_params in Wl.
  destruct (substring_in (lit "MultiChoice") l).
  { cbn [bind]. destruct (multiple_choice_total _ Wl) as [d ->]. cbn [bind]. eauto. }
  destruct (substring_in (lit "DragQuestion") l).
  { cbn [bind]. destruct (drag_drop_total _ Wl) as [d ->]. cbn [bind]. eauto. }
  destruct (substring_in (lit "TrueFalse") l).
  { cbn [bind]. destruct (true_false_total _ Wl) as [d ->]. cbn [bind]. eauto. }
  destruct (substring_in (lit "Blanks") l).
  { cbn [bind]. destruct (fill_in_blanks_total _ Wl) as [d ->]. cbn [bind]. eauto. }
  destruct (substring_in (lit "Image") l).
  { cbn [bind]. eauto. }
  destruct (substring_in (lit "DragText") l).
  { cbn [bind]. destruct (drag_text_total _ Wl) as [d ->]. cbn [bind]. eauto. }
  cbn [bind]. eauto.
Qed.

(** X16: a document of the expected shape is extracted without error:
    [extract_all_answers] returns its records when every container it reads
    is an object or a list of objects, every text a string or a value that
    counts as false, every [library] and [textField] a string, every time a
    [float], a [bool] or an [int] that fits a [float], every entry of
    [correctElements] a text or a number other than an infinity, and every
    [answers] a list of no more than 1114047 entries, the last for which
    [chr(65 + i)] exists; any key may be absent. *)
Theorem well_formed_document_is_extracted content :
  well_formed_document content = true ->
  exists records, extract_all_answers content = Ok records.
Proof.
  intros W.
  apply object_true in W. destruct W as (d & -> & W). unfold extract_all_answers.
  destruct (optional_get _ d _ (VDict []) W eq_refl) as (iv & -> & Piv). cbn [bind].
  apply object_true in Piv. destruct Piv as (v & -> & Pv).
  destruct (optional_get _ v _ (VDict []) Pv eq_refl) as (assets & -> & Pa). cbn [bind].
  apply object_true in Pa. destruct Pa as (s & -> & Ps).
  destruct (optional_get _ s _ (VList []) Ps eq_refl) as (ia & -> & Pia). cbn [bind].
  apply list_of_true in Pia. destruct Pia as (l & -> & Pl). cbn [iterate bind].
  destruct (for_each_total interaction_step l) with (st := (@nil value, 1%Z)) as [st ->].
  - intros [answers n] x I. unfold interaction_step.
    rewrite forallb_forall in Pl.
    destruct (build_answer_data_total n x (Pl x I)) as [[r|] ->]; cbn [bind]; [|eauto].
    destruct (kept r); eauto.
  - cbn [bind]. eauto.
Qed.

(** *** More on single records *)

(** X17: the time range of a record is made of the [from] and [to] of the
    [duration] of its interaction, each formatted with two decimals and
    followed by [s]; an interaction without [duration], or a [duration]
    without bounds, gives [0.00s - 0.00s]. *)
Theorem time_range_of_record n interaction d :
  build_answer_data n interaction = Ok (Some d) ->
  exists duration time_from time_to f t,
    get interaction (lit "duration") (VDict []) = Ok duration
    /\ get duration (lit "from") (VInt 0) = Ok time_from
    /\ get duration (lit "to") (VInt 0) = Ok time_to
    /\ format_2f time_from = Ok f
    /\ format_2f time_to = Ok t
    /\ field d (lit "time_range") = VStr (f ++ lit "s - " ++ t ++ lit "s")
    /\ (time_from = VInt 0 -> time_to = VInt 0 ->
        field d (lit "time_range") = VStr (lit "0.00s - 0.00s")).
Proof.
  intros B. pose proof (build_answer_data_shape _ _ _ B) as S.
  unfold build_answer_data in B.
  split_bind B as action Eaction. split_bind B as library Elibrary.
  split_bind B as params Eparams. split_bind B as duration Eduration.
  split_bind B as time_from Efrom. split_bind B as time_to Eto.
  split_bind B as f Ef. split_bind B as t Et. split_bind B as sub Esub.
  split_bind B as k Ek.
  exists duration, time_from, time_to, f, t.
  do 5 (split; [assumption|]).
  assert (T : field d (lit "time_range") = VStr (f ++ lit "s - " ++ t ++ lit "s")).
  { destruct k.
    - split_bind B as e E. inv_ok B.
      destruct (multiple_choice_shape _ _ E) as (? & ? & ? & ->). reflexivity.
    - split_bind B as e E. inv_ok B.
      destruct (drag_drop_shape _ _ E) as (? & ? & ? & ->). reflexivity.
    - split_bind B as e E. inv_ok B.
      destruct (true_false_shape _ _ E) as (? & ? & ->). reflexivity.
    - split_bind B as e E. inv_ok B.
      destruct (fill_in_blanks_shape _ _ E) as (? & ? & ->). reflexivity.
    - discriminate.
    - split_bind B as e E. inv_ok B.
      destruct (drag_text_shape _ _ E) as (? & ? & ? & ->). reflexivity.
    - inv_ok B. reflexivity. }
  split; [exact T|].
  intros -> ->. rewrite T. cbn in Ef, Et. inv_ok Ef. inv_ok Et. reflexivity.
Qed.

(** X18: a Multiple Choice interaction gives a record exactly when its
    normalized question is not empty, so that a question made of markup alone
    is left out of the report; Drag and Drop, True/False, Fill in the Blanks
    and Drag Text interactions give a record whatever their question. *)
Theorem which_interactions_are_kept n interaction action library params d :
  get interaction (lit "action") (VDict []) = Ok action ->
  get action (lit "library") (VStr []) = Ok library ->
  get action (lit "params") (VDict []) = Ok params ->
  build_answer_data n interaction = Ok (Some d) ->
  (dispatch library = Ok MultipleChoice ->
   exists q question,
     get params (lit "question") (VStr []) = Ok q
     /\ _clean_html_text q = Ok question
     /\ kept d = match question with [] => false | _ => true end)
  /\ (dispatch library = Ok DragAndDrop \/ dispatch library = Ok TrueFalse
      \/ dispatch library = Ok FillInTheBlanks \/ dispatch library = Ok DragText ->
      kept d = true).
Proof.
  intros A L P B.
  destruct (build_answer_data_inv _ _ _ B)
    as (action' & library' & params' & ? & k & A' & L' & P' & _ & D' & _ & _ & _ & T & Q).
  rewrite (get_deterministic _ _ _ _ _ A' A) in L', P'.
  rewrite (get_deterministic _ _ _ _ _ L' L) in D'.
  rewrite (get_deterministic _ _ _ _ _ P' P) in Q.
  split.
  - intros D. rewrite D in D'. inv_ok D'. destruct Q as (e & E & Qq & _).
    unfold _extract_multiple_choice_answers in E.
    split_bind E as q Eq. split_bind E as question Equestion. split_bind E as a Ea.
    split_bind E as es Ees. split_bind E as st Est. destruct st as [options ca]. inv_ok E.
    exists q, question. repeat split; try assumption.
    unfold kept, field. rewrite Qq, T. cbn [lookup str_eqb]. 
    change (lookup (lit "question")
              [(lit "question", VStr question); (lit "answers", VList options);
               (lit "correct_answer", ca)]) with (Some (VStr question)).
    cbn [truthy]. destruct question; reflexivity.
  - intros D. unfold kept, field. rewrite T.
    destruct D as [D|[D|[D|D]]]; rewrite D in D'; inv_ok D'; apply orb_true_r.
Qed.

(** X19: every answer of a Fill in the Blanks extraction stands between two
    stars in the question the record keeps, and holds no star itself. *)
Theorem fill_in_blanks_answers_stand_in_question params d :
  _extract_fill_in_blanks_answers params = Ok d ->
  exists question answers,
    d = [(lit "question", VStr question); (lit "answers", VList (map VStr answers))]
    /\ forall a, In a answers ->
         (exists pre post, question = pre ++ 42%N :: a ++ 42%N :: post) /\ ~ In 42%N a.
Proof.
  unfold _extract_fill_in_blanks_answers. intros H.
  split_bind H as q Eq. split_bind H as tx Etx. split_bind H as question Equestion. inv_ok H.
  exists question, (re_findall star_pattern question). split; [reflexivity|].
  intros a I. split.
  - exact (findall_star_delimited question 0 a I).
  - exact (proj1 (findall_star_groups question 0 a I)).
Qed.

Lemma lookup_dict_set_same k x (d : dict) : lookup k (dict_set k x d) = Some x.
Proof.
  assert (R : str_eqb k k = true) by now apply str_eqb_eq.
  induction d as [|[k' y] d IH]; cbn [dict_set lookup].
  - now rewrite R.
  - destruct (str_eqb k' k) eqn:E; cbn [lookup]; rewrite E; [reflexivity|exact IH].
Qed.

Lemma lookup_dict_set_other k k' x (d : dict) :
  k' <> k -> lookup k' (dict_set k x d) = lookup k' d.
Proof.
  intros N.
  assert (F : str_eqb k k' = false).
  { destruct (str_eqb k k') eqn:E; [|reflexivity]. apply str_eqb_eq in E. congruence. }
  induction d as [|[k0 y] d IH]; cbn [dict_set lookup].
  - now rewrite F.
  - destruct (str_eqb k0 k) eqn:E; cbn [lookup].
    + apply str_eqb_eq in E. subst k0. now rewrite F.
    + destruct (str_eqb k0 k'); [reflexivity|exact IH].
Qed.

(** X20: an entry of [correctElements] that [int] reads as a position of the
    drag items puts the position of the zone at the end of the list kept
    under the text of that item, and leaves the lists of all other texts as
    they are; an entry past the end, one before minus the number of items, and
    one [int] rejects with [ValueError] change nothing. *)
Theorem match_step_records_position drag_items idx correct_matches element_idx :
  (forall i,
      py_int element_idx = Ok i ->
      (0 <= i < Z.of_nat (List.length drag_items))%Z ->
      exists text correct_matches',
        nth_error drag_items (Z.to_nat i) = Some text
        /\ match_step drag_items idx correct_matches element_idx = Ok correct_matches'
        /\ lookup text correct_matches'
           = Some (VList (match lookup text correct_matches with
                          | Some (VList zones) => zones
                          | _ => []
                          end ++ [VInt (Z.of_nat idx)]))
        /\ forall other, other <> text ->
             lookup other correct_matches' = lookup other correct_matches)
  /\ (forall i,
        py_int element_idx = Ok i ->
        (Z.of_nat (List.length drag_items) <= i \/ i < - Z.of_nat (List.length drag_items))%Z ->
        match_step drag_items idx correct_matches element_idx = Ok correct_matches)
  /\ (py_int element_idx = Raise ValueError ->
      match_step drag_items idx correct_matches element_idx = Ok correct_matches).
Proof.
  pose proof (match_step_cases drag_items idx correct_matches element_idx) as C.
  cbv zeta in C. destruct C as (Cv & _ & Chigh & Clow & Cin & _).
  repeat apply conj.
  - intros i P R. destruct (Cin i P R) as (text & N & M).
    exists text, (add_match correct_matches text idx). repeat split; [exact N|exact M| |].
    + unfold add_match. destruct (lookup text correct_matches) as [[]|];
        apply lookup_dict_set_same.
    + intros other O. unfold add_match.
      destruct (lookup text correct_matches) as [[]|]; now apply lookup_dict_set_other.
  - intros i P [R|R]; [exact (Chigh i P R)|exact (Clow i P R)].
  - exact Cv.
Qed.

End ExtractorProperties.

(** ** The properties on the example documents *)

#[local] Existing Instance ExampleRuntime.

(** C1 on two answers that are both marked correct: the second label is the
    answer. *)
Lemma multiple_choice_last_flagged_witness :
  exists d,
    _extract_multiple_choice_answers two_correct = Ok d
    /\ lookup (lit "correct_answer") d = Some (VStr (label 1)).
Proof.
  eexists. split; [vm_compute; reflexivity|].
  refine (proj1 (multiple_choice_correct_answer_is_last_flagged
                   two_correct _ two_correct_entries _ _) 1 _ _ _ _).
  - vm_compute. reflexivity.
  - vm_compute. reflexivity.
  - vm_compute. reflexivity.
  - vm_compute. reflexivity.
  - intros [|[|[|j]]] e' Lt X; try lia; discriminate X.
Defined.

(** C1 as it is stated fails there: the first flagged entry has the label A,
    and the extraction answers B. *)
Lemma multiple_choice_first_flagged_counterexample :
  exists d,
    _extract_multiple_choice_answers two_correct = Ok d
    /\ first_flagged_label 0 two_correct_entries = VStr (lit "A")
    /\ lookup (lit "correct_answer") d = Some (VStr (lit "B"))
    /\ lookup (lit "correct_answer") d <> Some (first_flagged_label 0 two_correct_entries).
Proof.
  eexists. split; [vm_compute; reflexivity|].
  repeat split; try (vm_compute; reflexivity).
  vm_compute. discriminate.
Qed.

(** The example document end to end: the image and the text give no record,
    the two questions are numbered 1 and 2 and answered B and False. *)
Example example_document_records :
  exists mc tf,
    extract_all_answers example_document = Ok [VDict mc; VDict tf]
    /\ field mc (lit "question_number") = VInt 1
    /\ field mc (lit "type") = VStr (lit "Multiple Choice")
    /\ field mc (lit "time_range") = VStr (lit "3.00s - 12.00s")
    /\ field mc (lit "correct_answer") = VStr (lit "B")
    /\ field tf (lit "question_number") = VInt 2
    /\ field tf (lit "type") = VStr (lit "True/False")
    /\ field tf (lit "correct_answer") = VStr (lit "False").
Proof.
  do 2 eexists. split; [vm_compute; reflexivity|].
  repeat apply conj; vm_compute; reflexivity.
Qed.

(** C2 on the example document: two records, numbered 1 and 2. *)
Lemma question_numbers_witness :
  exists records,
    extract_all_answers example_document = Ok records
    /\ List.length records = 2
    /\ question_numbers records = [VInt 1; VInt 2].
Proof.
  eexists. split; [vm_compute; reflexivity|]. split; [reflexivity|].
  refine (proj1 question_numbers_are_dense example_document _ _).
  vm_compute. reflexivity.
Defined.

(** C2 as it is stated fails on an identifier with Image and Blanks in it:
    Blanks is tested first, the interaction gives a record that takes the
    number 1, and the record after it has the number 2. *)
Lemma image_identifier_counterexample :
  substring_in (lit "Image") (lit "H5P.ImageBlanks 1.0") = true
  /\ dispatch (VStr (lit "H5P.ImageBlanks 1.0")) = Ok FillInTheBlanks
  /\ exists blanks tf,
       extract_all_answers image_blanks_document = Ok [VDict blanks; VDict tf]
       /\ field blanks (lit "library_type") = VStr (lit "H5P.ImageBlanks 1.0")
       /\ field blanks (lit "question_number") = VInt 1
       /\ field tf (lit "question_number") = VInt 2.
Proof.
  split; [reflexivity|]. split; [reflexivity|].
  do 2 eexists. split; [vm_compute; reflexivity|].
  repeat apply conj; vm_compute; reflexivity.
Qed.

(** C3 on an identifier with both MultiChoice and DragText in it. *)
Lemma dispatch_first_match_witness :
  substring_in (lit "MultiChoice") (lit "H5P.DragTextMultiChoice 1.0") = true
  /\ substring_in (lit "DragText") (lit "H5P.DragTextMultiChoice 1.0") = true
  /\ dispatch (VStr (lit "H5P.DragTextMultiChoice 1.0")) = Ok MultipleChoice.
Proof.
  split; [reflexivity|]. split; [reflexivity|].
  apply (proj1 (proj2 dispatch_first_match_wins)); reflexivity.
Defined.

(** C4 as it is stated fails on a bare angle bracket. *)
Lemma clean_html_text_keeps_bare_brackets :
  _clean_html_text (VStr (lit "1 < 2")) = Ok (lit "1 < 2")
  /\ In 60%N (lit "1 < 2")
  /\ _clean_html_text (VStr (lit "3 > 2")) = Ok (lit "3 > 2")
  /\ In 62%N (lit "3 > 2").
Proof.
  repeat split; try (vm_compute; reflexivity); vm_compute; tauto.
Qed.

(** C6 on the interaction with its id beside [action]: the record has the
    empty string, which is what [action] gives. *)
Lemma subcontent_id_witness :
  exists d,
    build_answer_data 1 id_beside_action = Ok (Some d)
    /\ exists action,
         get id_beside_action (lit "action") (VDict []) = Ok action
         /\ get action (lit "subContentId") (VStr []) = Ok (field d (lit "subcontent_id"))
         /\ (forall a, action = VDict a -> lookup (lit "subContentId") a = None ->
                       field d (lit "subcontent_id") = VStr []).
Proof.
  eexists. split; [vm_compute; reflexivity|].
  apply (subcontent_id_is_read_from_action 1 id_beside_action).
  vm_compute. reflexivity.
Defined.

(** C6 as it is stated fails there: the interaction has the id [7cbc9723],
    the record the empty string. *)
Lemma subcontent_id_counterexample :
  exists d,
    build_answer_data 1 id_beside_action = Ok (Some d)
    /\ kept d = true
    /\ get id_beside_action (lit "subContentId") (VStr []) = Ok (VStr (lit "7cbc9723"))
    /\ field d (lit "subcontent_id") = VStr []
    /\ field d (lit "subcontent_id") <> VStr (lit "7cbc9723").
Proof.
  eexists. split; [vm_compute; reflexivity|].
  repeat split; try (vm_compute; reflexivity).
  vm_compute. discriminate.
Qed.



(** C9 on the text interaction of the example document: an iteration on it
    changes nothing. *)
Lemma other_branch_witness :
  dispatch (VStr (lit "H5P.Text 1.1")) = Ok Other
  /\ exists st',
       interaction_step ([VNone], 5%Z) text_interaction = Ok st'
       /\ st' = ([VNone], 5%Z).
Proof.
  split; [apply (proj1 other_branch_emits_nothing); reflexivity|].
  eexists. split; [vm_compute; reflexivity|].
  refine (proj1 (proj2 other_branch_emits_nothing)
            ([VNone], 5%Z) text_interaction _ (VStr (lit "H5P.Text 1.1")) _ _ _ _ _).
  - vm_compute. reflexivity.
  - vm_compute. reflexivity.
  - vm_compute. reflexivity.
  - vm_compute. reflexivity.
Defined.

(** C10 on a True/False interaction without [correct], and on one whose
    [correct] is the text [true]. *)
Lemma true_false_correct_answer_witness :
  (exists d,
      build_answer_data 1 true_false_without_correct = Ok (Some d)
      /\ kept d = true
      /\ field d (lit "correct_answer") = VStr [])
  /\ (exists d,
        build_answer_data 1 true_false_with_text = Ok (Some d)
        /\ kept d = true
        /\ field d (lit "correct_answer") = VStr (lit "True")).
Proof.
  split.
  - eexists. split; [vm_compute; reflexivity|].
    edestruct (true_false_correct_answer 1 true_false_without_correct) as (K & p & P & C);
      [reflexivity|reflexivity|reflexivity|reflexivity|vm_compute; reflexivity|].
    split; [exact K|]. rewrite C. injection P as <-. reflexivity.
  - eexists. split; [vm_compute; reflexivity|].
    edestruct (true_false_correct_answer 1 true_false_with_text) as (K & p & P & C);
      [reflexivity|reflexivity|reflexivity|reflexivity|vm_compute; reflexivity|].
    split; [exact K|]. rewrite C. injection P as <-. reflexivity.
Defined.

(** ** The further properties on the example documents *)

(** X4 on a plain sentence. *)
Lemma clean_str_plain_text_witness : clean_str (lit "Paris is in France") = lit "Paris is in France".
Proof.
  apply clean_str_plain_text.
  - intros H. vm_compute in H. repeat (destruct H as [H|H]; [discriminate H|]). exact H.
  - intros H. vm_compute in H. repeat (destruct H as [H|H]; [discriminate H|]). exact H.
  - intros c H. vm_compute in H.
    repeat (destruct H as [<-|H]; [vm_compute; intros X; first [reflexivity|discriminate X]|]).
    destruct H.
  - vm_compute. repeat split; intros X; first [reflexivity|discriminate X].
  - reflexivity.
  - reflexivity.
Defined.

(** X6 on the question with two answers. *)
Lemma multiple_choice_options_witness :
  exists d options,
    _extract_multiple_choice_answers two_correct = Ok d
    /\ lookup (lit "answers") d = Some (VList options)
    /\ List.length options = 2.
Proof.
  assert (E : exists d, _extract_multiple_choice_answers two_correct = Ok d)
    by (eexists; vm_compute; reflexivity).
  destruct E as [d E].
  destruct (multiple_choice_options_follow_answers two_correct d two_correct_entries E)
    as (_ & options & L & Len & _); [vm_compute; reflexivity|].
  exists d, options. split; [exact E|]. split; [exact L|exact Len].
Defined.

(** X7 on Paris and Berlin. *)
Lemma drag_drop_items_witness :
  exists d items,
    _extract_drag_drop_answers (paris_berlin [VInt 1]) = Ok d
    /\ lookup (lit "drag_items") d = Some (VList (map VStr items))
    /\ List.length items <= 2.
Proof.
  assert (E : exists d, _extract_drag_drop_answers (paris_berlin [VInt 1]) = Ok d)
    by (eexists; vm_compute; reflexivity).
  destruct E as [d E].
  edestruct (drag_drop_items_and_areas (paris_berlin [VInt 1]) d)
    as (items & labels & L & _ & Len & _);
    [exact E|vm_compute; reflexivity|vm_compute; reflexivity|].
  exists d, items. split; [exact E|]. split; [exact L|exact Len].
Defined.

(** X8 on Paris and Berlin. *)
Lemma drag_drop_matches_witness :
  exists d items correct_matches,
    _extract_drag_drop_answers (paris_berlin [VInt 1]) = Ok d
    /\ lookup (lit "correct_matches") d = Some (VDict correct_matches)
    /\ matches_ok items 1 correct_matches.
Proof.
  assert (E : exists d, _extract_drag_drop_answers (paris_berlin [VInt 1]) = Ok d)
    by (eexists; vm_compute; reflexivity).
  destruct E as [d E].
  edestruct (drag_drop_matches_are_sound (paris_berlin [VInt 1]) d)
    as (items & cm & _ & L & M); [exact E|vm_compute; reflexivity|].
  exists d, items, cm. split; [exact E|]. split; [exact L|exact M].
Defined.

(** X10 on the example document: two records for four interactions. *)
Lemma records_follow_interactions_witness :
  exists records interactions,
    extract_all_answers example_document = Ok records
    /\ interactions_of example_document = Ok interactions
    /\ List.length records <= List.length interactions.
Proof.
  assert (E : exists records, extract_all_answers example_document = Ok records)
    by (eexists; vm_compute; reflexivity).
  assert (I : exists interactions, interactions_of example_document = Ok interactions)
    by (eexists; vm_compute; reflexivity).
  destruct E as [records E]. destruct I as [interactions I].
  exists records, interactions. split; [exact E|]. split; [exact I|].
  exact (proj1 (records_follow_interactions example_document interactions records E I)).
Defined.

(** X11 on an archive in another directory. *)
Lemma h5p_report_witness :
  exists dir name ext,
    lit "courses/Quiz.H5P" = dir ++ name ++ ext
    /\ (dir = [] \/ exists d, dir = d ++ [47%N])
    /\ ~ In 47%N (name ++ ext)
    /\ (ext = [] \/ exists e, ext = 46%N :: e /\ ~ In 46%N e)
    /\ extract_answers_report (lit "/home/user") (lit "courses/Quiz.H5P")
       = lit "/home/user"
         ++ (if match lit "/home/user" with [] => true | _ => endswith (lit "/") (lit "/home/user") end
             then [] else lit "/")
         ++ name ++ lit "_answer.txt".
Proof.
  apply h5p_report_lies_in_cwd. vm_compute. reflexivity.
Defined.

(** X13 on the example document and a console in UTF-8. *)
Lemma console_is_rule_then_file_witness :
  display_answers utf_8 (lit "content.json") example_document
  = (print utf_8 (rule 61%N 80) ;;; save_answers_to_file (lit "content.json") example_document).
Proof.
  refine (proj1 (console_is_rule_then_file utf_8 (lit "content.json") example_document) _ _ _).
  - intros c. reflexivity.
  - vm_compute. reflexivity.
Defined.


(** X15 on Paris and Berlin. *)
Lemma report_numbers_zones_witness :
  exists d correct_matches,
    _extract_drag_drop_answers (paris_berlin [VInt 1]) = Ok d
    /\ lookup (lit "correct_matches") d = Some (VDict correct_matches)
    /\ forall item zones,
         In (item, zones) correct_matches ->
         exists positions,
           zones = zone_list positions
           /\ zone_numbers zones = Ok (map (fun z => int_str (Z.of_nat z + 1)) positions).
Proof.
  assert (E : exists d, _extract_drag_drop_answers (paris_berlin [VInt 1]) = Ok d)
    by (eexists; vm_compute; reflexivity).
  destruct E as [d E].
  destruct (report_numbers_zones_from_one (paris_berlin [VInt 1]) d E) as (cm & L & Z).
  exists d, cm. split; [exact E|]. split; [exact L|exact Z].
Defined.

(** X16 on the two example documents. *)
Lemma well_formed_document_witness :
  (exists records, extract_all_answers example_document = Ok records)
  /\ (exists records, extract_all_answers drag_drop_document = Ok records).
Proof.
  split; apply well_formed_document_is_extracted; vm_compute; reflexivity.
Defined.

(** X17 on the question shown from second 3 to second 12. *)
Lemma time_range_witness :
  exists d,
    build_answer_data 1 id_beside_action = Ok (Some d)
    /\ field d (lit "time_range") = VStr (lit "3.00s - 12.00s").
Proof.
  assert (E : exists d, build_answer_data 1 id_beside_action = Ok (Some d))
    by (eexists; vm_compute; reflexivity).
  destruct E as [d E]. exists d. split; [exact E|].
  destruct (time_range_of_record 1 id_beside_action d E) as (du & tf & tt' & f & t & H).
  destruct H as (Gd & Gf & Gt & Ff & Ft & T & _). rewrite T.
  vm_compute in Gd. injection Gd as <-. vm_compute in Gf, Gt.
  injection Gf as <-. injection Gt as <-. vm_compute in Ff, Ft.
  injection Ff as <-. injection Ft as <-. reflexivity.
Defined.

(** X18 on the Multiple Choice interaction: its question is not empty. *)
Lemma kept_interactions_witness :
  exists d, build_answer_data 1 id_beside_action = Ok (Some d) /\ kept d = true.
Proof.
  assert (E : exists d, build_answer_data 1 id_beside_action = Ok (Some d))
    by (eexists; vm_compute; reflexivity).
  destruct E as [d E]. exists d. split; [exact E|].
  edestruct (which_interactions_are_kept 1 id_beside_action) as [M _];
    [vm_compute; reflexivity|vm_compute; reflexivity|vm_compute; reflexivity|exact E|].
  destruct M as (q & question & Gq & C & K); [vm_compute; reflexivity|].
  rewrite K. vm_compute in Gq. injection Gq as <-. vm_compute in C. injection C as <-.
  reflexivity.
Defined.

(** X19 on the question of the specification. *)
Lemma fill_in_blanks_answers_witness :
  exists question answers,
    _extract_fill_in_blanks_answers blanks_params
    = Ok [(lit "question", VStr question); (lit "answers", VList (map VStr answers))]
    /\ forall a, In a answers ->
         (exists pre post, question = pre ++ 42%N :: a ++ 42%N :: post) /\ ~ In 42%N a.
Proof.
  assert (E : exists d, _extract_fill_in_blanks_answers blanks_params = Ok d)
    by (eexists; vm_compute; reflexivity).
  destruct E as [d E].
  destruct (fill_in_blanks_answers_stand_in_question blanks_params d E) as (q & a & -> & H).
  exists q, a. split; [exact E|exact H].
Defined.
